(** * MockMan VS Code extension: a shallow embedding of [extension.js]

    The extension is a client of a remote HTTP service.  Its state is one
    API key (secret storage, configuration and an in-memory cache), the
    snapshot of collections shown in the side bar and two singleton
    webview panels.  Everything the extension does to the editor or to the
    network is recorded, in program order, in a trace of [event]s.

    JavaScript strings are represented by their UTF-8 bytes ([string]).
    An [async] function is run to completion: every [await] is a plain
    sequencing point, and the answer of the outside world to a call
    (secret storage, configuration, HTTP) is read from an environment
    [Env] of outcomes, so that one model covers every behaviour of the
    collaborators.  Responses that resolve have the shape the service
    documents (a falsy body of the collections and a body of a created
    collection that cannot be read apart), and reading a secret does not
    fail.  The message listener of the template browser posts to a panel
    that may have been disposed in the meantime; the TypeError it then
    throws, and the [try] blocks that catch it, are part of the model. *)

From Stdlib Require Import ZArith Lia Ascii String.
From stdpp Require Import base option list strings pretty gmap.

Local Open Scope Z_scope.
Local Open Scope string_scope.
Local Open Scope list_scope.

(** ** JavaScript primitives used by the extension *)

Module JS.

(** Truthiness of a value that is a string, [null] or [undefined]:
    only a non-empty string is truthy. *)
Definition truthy (v : option string) : bool :=
  match v with
  | Some (String _ _) => true
  | _ => false
  end.

Definition code (c : ascii) : N := N_of_ascii c.

(** WhiteSpace and LineTerminator code points of one UTF-8 byte:
    TAB, LF, VT, FF, CR and SPACE. *)
Definition ws1 (a : ascii) : bool :=
  ((9 <=? code a) && (code a <=? 13))%N || (code a =? 32)%N.

(** Two bytes: U+00A0 (C2 A0). *)
Definition ws2 (a b : ascii) : bool :=
  ((code a =? 0xC2) && (code b =? 0xA0))%N.

(** Three bytes: U+1680, U+2000..U+200A, U+2028, U+2029, U+202F,
    U+205F, U+3000 and U+FEFF. *)
Definition ws3 (a b c : ascii) : bool :=
  ((code a =? 0xE1) && (code b =? 0x9A) && (code c =? 0x80))%N
  || ((code a =? 0xE2) && (code b =? 0x80)
      && (((0x80 <=? code c) && (code c <=? 0x8A))
          || (code c =? 0xA8) || (code c =? 0xA9) || (code c =? 0xAF)))%N
  || ((code a =? 0xE2) && (code b =? 0x81) && (code c =? 0x9F))%N
  || ((code a =? 0xE3) && (code b =? 0x80) && (code c =? 0x80))%N
  || ((code a =? 0xEF) && (code b =? 0xBB) && (code c =? 0xBF))%N.

(** Drops the leading code points recognised by [p1], [p2] and [p3]. *)
Fixpoint strip (p1 : ascii -> bool) (p2 : ascii -> ascii -> bool)
    (p3 : ascii -> ascii -> ascii -> bool) (s : list ascii) : list ascii :=
  match s with
  | a :: r =>
      if p1 a then strip p1 p2 p3 r
      else match r with
           | b :: r2 =>
               if p2 a b then strip p1 p2 p3 r2
               else match r2 with
                    | c :: r3 => if p3 a b c then strip p1 p2 p3 r3 else s
                    | [] => s
                    end
           | [] => s
           end
  | [] => s
  end.

(** [String.prototype.trimStart], [trimEnd] and [trim].  The end is
    trimmed on the reversed bytes, with the byte patterns reversed. *)
Definition trimStart (s : string) : string :=
  string_of_list_ascii (strip ws1 ws2 ws3 (list_ascii_of_string s)).

Definition trimEnd (s : string) : string :=
  string_of_list_ascii
    (rev (strip ws1 (fun a b => ws2 b a) (fun a b c => ws3 c b a)
            (rev (list_ascii_of_string s)))).

Definition trim (s : string) : string := trimEnd (trimStart s).

(** The character class [[a-f0-9]]. *)
Definition lower_hex (c : ascii) : bool :=
  ((48 <=? code c) && (code c <=? 57))%N
  || ((97 <=? code c) && (code c <=? 102))%N.

(** [/^[a-f0-9]+$/.test(s)]: the pattern has no flag, so [^] and [$]
    match the two ends of the input only, and [+] asks for at least one
    character of the class. *)
Definition hex_test (s : string) : bool :=
  match s with
  | EmptyString => false
  | String _ _ => forallb lower_hex (list_ascii_of_string s)
  end.

(** *** [URLSearchParams]

    The constructor drops one leading question mark, splits the input
    at ampersands, skips empty pieces, cuts each piece at its first
    equals sign, turns plus signs into spaces and percent-decodes name
    and value.  The last step of the real algorithm, UTF-8 decoding,
    maps ASCII bytes to themselves and every other byte to a non-ASCII
    code point; the model keeps the bytes. *)

Fixpoint split_on (sep : ascii) (s : list ascii) : list (list ascii) :=
  match s with
  | [] => [[]]
  | a :: r =>
      if Ascii.eqb a sep then [] :: split_on sep r
      else match split_on sep r with
           | piece :: pieces => (a :: piece) :: pieces
           | [] => [[a]]
           end
  end.

Fixpoint cut_at (sep : ascii) (s : list ascii) : list ascii * list ascii :=
  match s with
  | [] => ([], [])
  | a :: r =>
      if Ascii.eqb a sep then ([], r)
      else let '(name, value) := cut_at sep r in (a :: name, value)
  end.

Definition plus_to_space (s : list ascii) : list ascii :=
  map (fun a => if Ascii.eqb a "+" then " "%char else a) s.

Definition hex_digit (a : ascii) : option N :=
  let n := code a in
  if ((48 <=? n) && (n <=? 57))%N then Some (n - 48)%N
  else if ((65 <=? n) && (n <=? 70))%N then Some (n - 55)%N
  else if ((97 <=? n) && (n <=? 102))%N then Some (n - 87)%N
  else None.

Fixpoint percent_decode (s : list ascii) : list ascii :=
  match s with
  | [] => []
  | a :: r =>
      if Ascii.eqb a "%" then
        match r with
        | h :: (l :: r2) =>
            match hex_digit h, hex_digit l with
            | Some x, Some y => ascii_of_N (16 * x + y) :: percent_decode r2
            | _, _ => a :: percent_decode r
            end
        | _ => a :: percent_decode r
        end
      else a :: percent_decode r
  end.

Definition decode_component (s : list ascii) : string :=
  string_of_list_ascii (percent_decode (plus_to_space s)).

Definition parse_pair (piece : list ascii) : string * string :=
  let '(name, value) := cut_at "=" piece in
  (decode_component name, decode_component value).

Definition URLSearchParams (init : string) : list (string * string) :=
  let input := match init with
               | String "?" r => r
               | _ => init
               end in
  map parse_pair
    (filter (fun piece => piece <> [])
       (split_on "&" (list_ascii_of_string input))).

(** [params.get(name)]: the value of the first pair called [name]. *)
Definition get (name : string) (params : list (string * string))
    : option string :=
  snd <$> List.find (fun p => String.eqb (fst p) name) params.

(** *** [parseInt(s)] without a radix

    Leading white space is skipped, a sign is read, a [0x] prefix
    selects radix 16, and the longest prefix of digits is the value;
    [None] stands for [NaN]. *)

Definition digit_of (radix : N) (a : ascii) : option N :=
  match hex_digit a with
  | Some d => if (d <? radix)%N then Some d else None
  | None => None
  end.

Fixpoint digits (radix : N) (s : list ascii) (acc : option N) : option N :=
  match s with
  | a :: r =>
      match digit_of radix a with
      | Some d =>
          digits radix r (Some (radix * default 0%N acc + d)%N)
      | None => acc
      end
  | [] => acc
  end.

Definition parseInt (s : string) : option Z :=
  let s0 := strip ws1 ws2 ws3 (list_ascii_of_string s) in
  let '(sign, s1) :=
    match s0 with
    | a :: r => if Ascii.eqb a "-" then (-1, r)
                else if Ascii.eqb a "+" then (1, r) else (1, s0)
    | [] => (1, s0)
    end in
  let '(radix, s2) :=
    match s1 with
    | a :: (b :: r) =>
        if Ascii.eqb a "0" && (Ascii.eqb b "x" || Ascii.eqb b "X")
        then (16%N, r) else (10%N, s1)
    | _ => (10%N, s1)
    end in
  (fun n => sign * Z.of_N n) <$> digits radix s2 None.

End JS.

(** ** Data model *)

(** Response shapes of the remote service. *)
Record Field := { fieldName : string; fieldType : string }.

Record Collection := {
  _id : string;
  collectionName : string;
  fields : list Field
}.

Record Template := { category : string; displayName : string }.

(** [createRes.data.collection], each field as the template literal of
    the notice prints it. *)
Record Created := { name : string; documentCount : string }.

(** [createRes.data]: a body whose [collection] can be read, or a body on
    which reading [data.collection.name] throws, with the message of that
    TypeError. *)
Inductive CreateData : Type :=
  | created (collection : Created)
  | malformed (fault : string).

(** A rejected promise: [error.message] and, when the server answered,
    [error.response?.data?.message]. *)
Record Error := { message : string; response_message : option string }.

Inductive Outcome (A : Type) : Type :=
  | Resolved (a : A)
  | Rejected (error : Error).
Arguments Resolved {A} a.
Arguments Rejected {A} error.

(** Messages from the extension host to a webview. *)
Inductive WebviewMessage : Type :=
  | msg_endpoints (collection : Collection) (apiKey : string)
  | msg_templates (data : list Template)
  | msg_preview (data : string)
  | msg_createSuccess (data : CreateData)
  | msg_error (message : string)
  | msg_noApiKey
  | msg_getTemplates.

(** Messages from a webview script to the extension host, by their
    [command]; [otherCommand] is any command no [case] handles. *)
Inductive HostMessage : Type :=
  | cmd_login
  | cmd_getTemplates
  | cmd_getPreview (category : string)
  | cmd_createCollection (category : string) (count : Z)
  | cmd_showInfo (message : string)
  | cmd_showError (message : string)
  | cmd_copyToClipboard (text : string)
  | cmd_other (command : string).

(** What the extension does to the editor and to the network. *)
Inductive event : Type :=
  | ShowErrorMessage (text : string)
  | ShowInformationMessage (text : string)
  | ShowWarningMessage (text : string) (item : string)
  | SecretsStore (key value : string)
  | ConfigurationUpdate (section key value : string)
  | AxiosGet (url : string) (timeout : Z)
  | AxiosPost (url : string) (category : string) (count : Z) (timeout : Z)
  | Fire
  | CreateWebviewPanel (viewType title : string)
  | Reveal (viewType : string)
  | PostMessage (viewType : string) (m : WebviewMessage)
  | OpenExternal (url : string)
  | ClipboardWriteText (text : string).

Record Panel := { viewType : string; title : string }.

(** The answers of the collaborators; [null_webview] is the message of the
    TypeError that the engine throws when [webview] is read off [null]. *)
Record Env := {
  secrets_store : string -> string -> Outcome unit;
  configuration_update : string -> string -> string -> Outcome unit;
  get_collections : string -> Outcome (option (list Collection));
  get_templates : string -> Outcome (list Template);
  get_preview : string -> Outcome string;
  post_create : string -> string -> Z -> Outcome CreateData;
  openExternal : string -> bool;
  warning_selection : option string;
  clipboard_writeText : string -> Outcome unit;
  null_webview : string
}.

(** The state of the extension host after [activate]. *)
Record World := {
  secrets : gmap string string;
  configuration : gmap string string;
  apiKey : option string;
  collections : list Collection;
  endpointsPanel : option Panel;
  templatesPanel : option Panel;
  trace : list event
}.

Definition set_secrets (f : gmap string string -> gmap string string) (w : World) : World :=
  {| secrets := f (secrets w); configuration := configuration w;
     apiKey := apiKey w; collections := collections w;
     endpointsPanel := endpointsPanel w; templatesPanel := templatesPanel w;
     trace := trace w |}.

Definition set_configuration (f : gmap string string -> gmap string string) (w : World) : World :=
  {| secrets := secrets w; configuration := f (configuration w);
     apiKey := apiKey w; collections := collections w;
     endpointsPanel := endpointsPanel w; templatesPanel := templatesPanel w;
     trace := trace w |}.

Definition set_apiKey (k : option string) (w : World) : World :=
  {| secrets := secrets w; configuration := configuration w;
     apiKey := k; collections := collections w;
     endpointsPanel := endpointsPanel w; templatesPanel := templatesPanel w;
     trace := trace w |}.

Definition set_collections (cs : list Collection) (w : World) : World :=
  {| secrets := secrets w; configuration := configuration w;
     apiKey := apiKey w; collections := cs;
     endpointsPanel := endpointsPanel w; templatesPanel := templatesPanel w;
     trace := trace w |}.

Definition set_endpointsPanel (p : option Panel) (w : World) : World :=
  {| secrets := secrets w; configuration := configuration w;
     apiKey := apiKey w; collections := collections w;
     endpointsPanel := p; templatesPanel := templatesPanel w;
     trace := trace w |}.

Definition set_templatesPanel (p : option Panel) (w : World) : World :=
  {| secrets := secrets w; configuration := configuration w;
     apiKey := apiKey w; collections := collections w;
     endpointsPanel := endpointsPanel w; templatesPanel := p;
     trace := trace w |}.

Definition set_trace (f : list event -> list event) (w : World) : World :=
  {| secrets := secrets w; configuration := configuration w;
     apiKey := apiKey w; collections := collections w;
     endpointsPanel := endpointsPanel w; templatesPanel := templatesPanel w;
     trace := f (trace w) |}.

(** ** The host monad: state passing over [World] *)

Definition M (A : Type) : Type := World -> A * World.

#[export] Instance M_ret : MRet M := fun A (a : A) w => (a, w).
#[export] Instance M_bind : MBind M :=
  fun A B (f : A -> M B) (m : M A) w => let '(a, w') := m w in f a w'.

Definition gets {A} (f : World -> A) : M A := fun w => (f w, w).
Definition modify (f : World -> World) : M unit := fun w => (tt, f w).
Definition emit (e : event) : M unit := modify (set_trace (fun t => t ++ [e])).
Definition exec {A} (m : M A) (w : World) : World := snd (m w).
Definition eval {A} (m : M A) (w : World) : A := fst (m w).

(** A step that may throw, followed by the rest of a [try] block. *)
Definition and_then {A B} (m : M (Outcome A)) (f : A -> M (Outcome B))
    : M (Outcome B) :=
  r ← m;
  match r with
  | Resolved a => f a
  | Rejected error => mret (Rejected error)
  end.

(** [try { body } catch (error) { handler }] *)
Definition try_catch {A} (body : M (Outcome A))
    (handler : Error -> M (Outcome A)) : M (Outcome A) :=
  r ← body;
  match r with
  | Resolved a => mret (Resolved a)
  | Rejected error => handler error
  end.

(** A TypeError: it has a [message] and no [response]. *)
Definition TypeError (text : string) : Error :=
  {| message := text; response_message := None |}.

(** The events a computation adds to the trace. *)
Definition emitted {A} (m : M A) (w : World) : list event :=
  drop (length (trace w)) (trace (exec m w)).

(** A value is used as a key only after a truthiness test. *)
Definition present (v : option string) : option string :=
  if JS.truthy v then v else None.

Definition dquote : string := String (ascii_of_N 34) EmptyString.

(** ** The extension host *)

Record Uri := { path : string; query : string }.

(** Side-bar entries ([MockmanTreeItem]). *)
Inductive TreeItemCollapsibleState : Type := None_ | Collapsed | Expanded.

Record Command := {
  command : string;
  command_title : string;
  arguments : list Collection
}.

Record MockmanTreeItem := {
  label : string;
  collapsibleState : TreeItemCollapsibleState;
  item_command : option Command;
  iconPath : string;
  collectionData : option Collection;
  contextValue : string
}.

Definition new_MockmanTreeItem (label : string)
    (collapsibleState : TreeItemCollapsibleState) (command : option Command)
    (iconPath : string) (collectionData : option Collection) : MockmanTreeItem :=
  {| label := label; collapsibleState := collapsibleState;
     item_command := command; iconPath := iconPath;
     collectionData := collectionData;
     contextValue := match collectionData with
                     | Some _ => "collection"
                     | None => "field"
                     end |}.

Section Host.

Variable env : Env.

(** *** [MockmanProvider] *)

Definition getApiKey : M (option string) :=
  cached ← gets apiKey;
  if JS.truthy cached then mret cached
  else
    stored ← gets (fun w => secrets w !! "mockman.apiKey");
    modify (set_apiKey stored);;
    mret stored.

Definition refresh : M unit :=
  key ← getApiKey;
  match present key with
  | None =>
      modify (set_collections []);;
      emit Fire
  | Some key =>
      let url := "https://api.mockman.online/collections/" +:+ key in
      emit (AxiosGet url 5000);;
      match get_collections env url with
      | Resolved data => modify (set_collections (default [] data))
      | Rejected error =>
          emit (ShowErrorMessage
                  ("Error fetching collections: " +:+ message error));;
          modify (set_collections [])
      end;;
      emit Fire
  end.

Definition getChildren (w : World) (element : option MockmanTreeItem)
    : list MockmanTreeItem :=
  match element with
  | None =>
      map (fun c =>
             new_MockmanTreeItem (collectionName c) Collapsed
               (Some {| command := "mockman.showEndpoints";
                        command_title := "Show Endpoints";
                        arguments := [c] |})
               "file-submodule" (Some c))
          (collections w)
  | Some element =>
      match List.find (fun col => String.eqb (collectionName col) (label element))
              (collections w) with
      | None => []
      | Some collection =>
          map (fun f =>
                 new_MockmanTreeItem
                   (fieldName f +:+ " (" +:+ fieldType f +:+ ")")
                   None_ None "symbol-field" None)
              (fields collection)
      end
  end.

(** *** [EndpointsWebview] *)

Definition updateContent (collection : Collection) : M unit :=
  key ← getApiKey;
  panel ← gets endpointsPanel;
  match present key, panel with
  | Some key, Some _ =>
      emit (PostMessage "mockmanEndpoints" (msg_endpoints collection key))
  | _, _ => mret tt
  end.

Definition EndpointsWebview_show (collection : Collection) : M unit :=
  let title := "Endpoints for " +:+ collectionName collection in
  panel ← gets endpointsPanel;
  match panel with
  | Some p =>
      modify (set_endpointsPanel
                (Some {| viewType := viewType p; title := title |}));;
      emit (Reveal "mockmanEndpoints");;
      updateContent collection
  | None =>
      emit (CreateWebviewPanel "mockmanEndpoints" title);;
      modify (set_endpointsPanel
                (Some {| viewType := "mockmanEndpoints"; title := title |}));;
      updateContent collection
  end.

Definition EndpointsWebview_onDidDispose : M unit :=
  modify (set_endpointsPanel None).

Definition EndpointsWebview_onDidReceiveMessage (m : HostMessage) : M unit :=
  match m with
  | cmd_showInfo text => emit (ShowInformationMessage text)
  | cmd_showError text => emit (ShowErrorMessage text)
  | cmd_copyToClipboard text =>
      emit (ClipboardWriteText text);;
      match clipboard_writeText env text with
      | Resolved _ =>
          emit (ShowInformationMessage "Endpoint copied to clipboard!")
      | Rejected _ => emit (ShowErrorMessage "Failed to copy endpoint.")
      end
  | _ => mret tt
  end.

(** *** Commands registered by [activate] *)

Definition login_command : M unit :=
  let loginUrl := "https://mockman.online/login" in
  emit (OpenExternal loginUrl);;
  if openExternal env loginUrl then mret tt
  else
    emit (ShowWarningMessage
            ("Could not open browser. Please visit " +:+ loginUrl
               +:+ " manually.") "Copy URL");;
    match warning_selection env with
    | Some selection =>
        if String.eqb selection "Copy URL"
        then emit (ClipboardWriteText loginUrl) else mret tt
    | None => mret tt
    end.

Definition refresh_command : M unit :=
  refresh;;
  emit (ShowInformationMessage "🔄 Collections refreshed!").

Definition showEndpoints_command (collection : option Collection) : M unit :=
  match collection with
  | None => emit (ShowErrorMessage "No collection selected.")
  | Some collection => EndpointsWebview_show collection
  end.

(** *** [TemplateBrowserWebview] *)

Definition TemplateBrowserWebview_show : M unit :=
  key ← getApiKey;
  panel ← gets templatesPanel;
  match panel with
  | Some _ => emit (Reveal "mockmanTemplateBrowser")
  | None =>
      emit (CreateWebviewPanel "mockmanTemplateBrowser" "MockMan Templates");;
      modify (set_templatesPanel
                (Some {| viewType := "mockmanTemplateBrowser";
                         title := "MockMan Templates" |}));;
      match present key with
      | None => emit (PostMessage "mockmanTemplateBrowser" msg_noApiKey)
      | Some _ => emit (PostMessage "mockmanTemplateBrowser" msg_getTemplates)
      end
  end.

Definition TemplateBrowserWebview_onDidDispose : M unit :=
  modify (set_templatesPanel None).

Definition templates_command : M unit := TemplateBrowserWebview_show.

(** [vscode.commands.executeCommand], as far as the extension's own
    commands go. *)
Definition executeCommand (name : string) (argument : option Collection)
    : M unit :=
  if String.eqb name "mockman.login" then login_command
  else if String.eqb name "mockman.refresh" then refresh_command
  else if String.eqb name "mockman.templates" then templates_command
  else if String.eqb name "mockman.showEndpoints"
       then showEndpoints_command argument
  else mret tt.

(** [this.panel.webview.postMessage(m)]: after the panel has been
    disposed [this.panel] is [null], and reading [webview] off it throws. *)
Definition TemplateBrowserWebview_postMessage (m : WebviewMessage)
    : M (Outcome unit) :=
  panel ← gets templatesPanel;
  match panel with
  | Some _ =>
      emit (PostMessage "mockmanTemplateBrowser" m);;
      mret (Resolved tt)
  | None => mret (Rejected (TypeError (null_webview env)))
  end.

Definition showLoginError : M (Outcome unit) :=
  emit (ShowErrorMessage "⚠️ Please login first (MockMan: Login).");;
  TemplateBrowserWebview_postMessage
    (msg_error "Please login first (MockMan: Login).").

Definition handleError (error : Error) (action : string) : M (Outcome unit) :=
  let errorMessage :=
    match present (response_message error) with
    | Some m => m
    | None => message error
    end in
  emit (ShowErrorMessage ("Error " +:+ action +:+ ": " +:+ errorMessage));;
  TemplateBrowserWebview_postMessage (msg_error errorMessage).

(** The listener returns the outcome of its promise: it is rejected when
    [showLoginError] or [handleError] throws. *)
Definition TemplateBrowserWebview_onDidReceiveMessage (m : HostMessage)
    : M (Outcome unit) :=
  key ← getApiKey;
  match m with
  | cmd_login =>
      executeCommand "mockman.login" None;;
      mret (Resolved tt)
  | cmd_getTemplates =>
      match present key with
      | None => showLoginError
      | Some key =>
          let url := "https://api.mockman.online/templates/" +:+ key in
          try_catch
            (emit (AxiosGet url 5000);;
             and_then (mret (get_templates env url)) (fun data =>
             TemplateBrowserWebview_postMessage (msg_templates data)))
            (fun error => handleError error "fetching templates")
      end
  | cmd_getPreview category =>
      match present key with
      | None => showLoginError
      | Some key =>
          let url := "https://api.mockman.online/templates/" +:+ key
                       +:+ "/" +:+ category +:+ "/preview" in
          try_catch
            (emit (AxiosGet url 5000);;
             and_then (mret (get_preview env url)) (fun data =>
             TemplateBrowserWebview_postMessage (msg_preview data)))
            (fun error => handleError error "fetching preview")
      end
  | cmd_createCollection category count =>
      match present key with
      | None => showLoginError
      | Some key =>
          let url := "https://api.mockman.online/templates/" +:+ key
                       +:+ "/create" in
          try_catch
            (emit (AxiosPost url category count 10000);;
             and_then (mret (post_create env url category count)) (fun data =>
             and_then (TemplateBrowserWebview_postMessage
                         (msg_createSuccess data)) (fun _ =>
             match data with
             | created collection =>
                 emit (ShowInformationMessage
                         ("✅ Collection " +:+ dquote +:+ name collection
                            +:+ dquote +:+ " created with "
                            +:+ documentCount collection +:+ " documents"));;
                 executeCommand "mockman.refresh" None;;
                 mret (Resolved tt)
             | malformed fault => mret (Rejected (TypeError fault))
             end)))
            (fun error => handleError error "creating collection")
      end
  | cmd_showInfo text =>
      emit (ShowInformationMessage text);;
      mret (Resolved tt)
  | cmd_showError text =>
      emit (ShowErrorMessage text);;
      mret (Resolved tt)
  | _ => mret (Resolved tt)
  end.

(** *** The URI handler registered by [activate] *)

Definition handleUri (uri : Uri) : M unit :=
  if String.eqb (path uri) "/callback" then
    let queryParams := JS.URLSearchParams (query uri) in
    let apiKey := JS.get "apikey" queryParams in
    match present apiKey with
    | Some key =>
        if (0 <? Z.of_nat (String.length key))%Z && JS.hex_test key then
          emit (SecretsStore "mockman.apiKey" (JS.trim key));;
          match secrets_store env "mockman.apiKey" (JS.trim key) with
          | Resolved _ =>
              modify (set_secrets <["mockman.apiKey" := JS.trim key]>);;
              modify (set_apiKey (Some (JS.trim key)));;
              emit (ConfigurationUpdate "mockman" "apiKey" (JS.trim key));;
              match configuration_update env "mockman" "apiKey" (JS.trim key) with
              | Resolved _ =>
                  modify (set_configuration
                            <["mockman.apiKey" := JS.trim key]>);;
                  emit (ShowInformationMessage
                          "✅ API Key saved successfully!");;
                  refresh
              | Rejected error =>
                  emit (ShowErrorMessage
                          ("⚠️ Failed to save API Key: " +:+ message error))
              end
          | Rejected error =>
              emit (ShowErrorMessage
                      ("⚠️ Failed to save API Key: " +:+ message error))
          end
        else emit (ShowErrorMessage "⚠️ Invalid API Key format.")
    | None => emit (ShowErrorMessage "⚠️ Invalid API Key format.")
    end
  else emit (ShowErrorMessage "⚠️ Invalid redirect path.").

Definition activate : M unit := refresh.

End Host.

(** ** The script of the endpoints panel *)

Module EndpointsScript.

Record Endpoint := {
  method : string;
  path : string;
  description : string;
  fullUrl : string
}.

Record SectionDiv := { section_title : string; section_endpoints : list Endpoint }.

(** The content of the [dynamicEndpoints] element; every endpoint row
    stands for the [div] that [createEndpoint] builds from it. *)
Inductive Content : Type :=
  | Sections (sections : list SectionDiv)
  | ErrorBox (text : string).

Definition baseUrl : string := "https://api.mockman.online".

Section Catalog.

Variables (baseUrl apiKey : string) (collection : Collection).

Definition collectionEndpoints : list Endpoint :=
  [ {| method := "GET";
       path := "/collections/" +:+ apiKey;
       description := "Get all collections";
       fullUrl := baseUrl +:+ "/collections/" +:+ apiKey |};
    {| method := "GET";
       path := "/collections/" +:+ apiKey +:+ "/by-name/"
                 +:+ collectionName collection;
       description := "Get collection by name";
       fullUrl := baseUrl +:+ "/collections/" +:+ apiKey +:+ "/by-name/"
                    +:+ collectionName collection |};
    {| method := "GET";
       path := "/collections/" +:+ apiKey +:+ "/" +:+ _id collection;
       description := "Get collection by ID";
       fullUrl := baseUrl +:+ "/collections/" +:+ apiKey +:+ "/"
                    +:+ _id collection |} ].

Definition documentEndpoints : list Endpoint :=
  [ {| method := "POST";
       path := "/collections/" +:+ apiKey +:+ "/" +:+ _id collection
                 +:+ "/documents";
       description := "Add documents";
       fullUrl := baseUrl +:+ "/collections/" +:+ apiKey +:+ "/"
                    +:+ _id collection +:+ "/documents" |};
    {| method := "GET";
       path := "/collections/" +:+ apiKey +:+ "/" +:+ _id collection
                 +:+ "/documents";
       description := "Get all documents";
       fullUrl := baseUrl +:+ "/collections/" +:+ apiKey +:+ "/"
                    +:+ _id collection +:+ "/documents" |};
    {| method := "GET";
       path := "/collections/" +:+ apiKey +:+ "/" +:+ _id collection
                 +:+ "/documents/:documentId";
       description := "Get document by ID";
       fullUrl := baseUrl +:+ "/collections/" +:+ apiKey +:+ "/"
                    +:+ _id collection +:+ "/documents/:documentId" |};
    {| method := "PUT";
       path := "/collections/" +:+ apiKey +:+ "/" +:+ _id collection
                 +:+ "/documents/:documentId";
       description := "Update document by ID";
       fullUrl := baseUrl +:+ "/collections/" +:+ apiKey +:+ "/"
                    +:+ _id collection +:+ "/documents/:documentId" |};
    {| method := "DELETE";
       path := "/collections/" +:+ apiKey +:+ "/" +:+ _id collection
                 +:+ "/documents/:documentId";
       description := "Delete document by ID";
       fullUrl := baseUrl +:+ "/collections/" +:+ apiKey +:+ "/"
                    +:+ _id collection +:+ "/documents/:documentId" |};
    {| method := "DELETE";
       path := "/collections/" +:+ apiKey +:+ "/" +:+ _id collection
                 +:+ "/documents";
       description := "Delete all documents";
       fullUrl := baseUrl +:+ "/collections/" +:+ apiKey +:+ "/"
                    +:+ _id collection +:+ "/documents" |} ].

(** The two groups in the order in which they are rendered. *)
Definition catalog : list Endpoint :=
  collectionEndpoints ++ documentEndpoints.

End Catalog.

(** The [message] listener: an [endpoints] message replaces the content
    by the two sections; the listener posts nothing to the host. *)
Definition onmessage (m : WebviewMessage) (content : Content)
    : Content * list HostMessage :=
  match m with
  | msg_endpoints collection apiKey =>
      (Sections
         [ {| section_title := "Collection Level";
              section_endpoints :=
                collectionEndpoints baseUrl apiKey collection |};
           {| section_title := "Document Level";
              section_endpoints :=
                documentEndpoints baseUrl apiKey collection |} ],
       [])
  | _ => (content, [])
  end.

(** A click on an endpoint row: [copyToClipboard(fullUrl)]. *)
Definition endpoint_onclick (e : Endpoint) : HostMessage :=
  cmd_copyToClipboard (fullUrl e).

End EndpointsScript.

(** ** The script of the template browser *)

Module TemplateScript.

(** The two copies of the browser differ in the largest record count. *)
Inductive Variant : Type := themed | tailwind.

Definition maxRows (v : Variant) : Z :=
  match v with
  | themed => 500
  | tailwind => 1000
  end.

Definition rangeError (v : Variant) : string :=
  match v with
  | themed => "Please select a template and enter a valid row count (1-500)."
  | tailwind => "Please select a template and enter a valid row count (1-1000)."
  end.

Record CreateBtn := {
  disabled : bool;
  btn_loading : bool;
  createText : string;
  createLoader_shown : bool
}.

(** The [click] listener of [createBtn], given the values of the
    [templateSelect] and [rowCount] controls. *)
Definition createBtn_onclick (v : Variant)
    (templateSelect_value rowCount_value : string) (btn : CreateBtn)
    : CreateBtn * HostMessage :=
  let category := templateSelect_value in
  match JS.parseInt rowCount_value with
  | Some count =>
      if JS.truthy (Some category) && (1 <=? count)%Z && (count <=? maxRows v)%Z
      then ({| disabled := true; btn_loading := true;
               createText := "Creating...";
               createLoader_shown :=
                 match v with
                 | themed => createLoader_shown btn
                 | tailwind => true
                 end |},
            cmd_createCollection category count)
      else (btn, cmd_showError (rangeError v))
  | None => (btn, cmd_showError (rangeError v))
  end.

(** The [change] listener of [templateSelect]. *)
Definition templateSelect_onchange (value : string) : option HostMessage :=
  if JS.truthy (Some value) then Some (cmd_getPreview value) else None.

End TemplateScript.

(** ** The copy of the extension without webviews

    Its provider reads the key from the configuration, has no cache, and
    calls [axios.get] without a timeout (recorded as the default, 0). *)

Module Legacy.

Record MockmanTreeItem := {
  label : string;
  collapsibleState : TreeItemCollapsibleState;
  item_command : option Command;
  iconPath : string
}.

Definition new_MockmanTreeItem (label : string)
    (collapsibleState : TreeItemCollapsibleState) (command : option Command)
    (iconPath : string) : MockmanTreeItem :=
  {| label := label; collapsibleState := collapsibleState;
     item_command := command; iconPath := iconPath |}.

Section Host.

Variable env : Env.

Definition refresh : M unit :=
  key ← gets (fun w => configuration w !! "mockman.apiKey");
  match present key with
  | None =>
      emit (ShowErrorMessage "⚠️ Please login first (MockMan: Login).");;
      modify (set_collections []);;
      emit Fire
  | Some key =>
      let url := "https://mockman-express.onrender.com/collections/" +:+ key in
      emit (AxiosGet url 0);;
      match get_collections env url with
      | Resolved data => modify (set_collections (default [] data))
      | Rejected error =>
          emit (ShowErrorMessage
                  ("Error fetching collections: "
                     +:+ match present (response_message error) with
                         | Some m => m
                         | None => message error
                         end));;
          modify (set_collections [])
      end;;
      emit Fire
  end.

Definition getChildren (w : World) (element : option MockmanTreeItem)
    : list MockmanTreeItem :=
  match element with
  | None =>
      map (fun c =>
             new_MockmanTreeItem (collectionName c) Collapsed None
               "file-submodule")
          (collections w)
  | Some element =>
      match List.find
              (fun col => String.eqb (collectionName col) (label element))
              (collections w) with
      | None => []
      | Some collection =>
          map (fun f =>
                 new_MockmanTreeItem
                   (fieldName f +:+ " (" +:+ fieldType f +:+ ")")
                   None_ None "symbol-field")
              (fields collection)
      end
  end.

End Host.

End Legacy.

(** ** Observations on worlds and traces *)

(** The key that [getApiKey] hands to its caller, when it is usable. *)
Definition credential (w : World) : option string := present (eval getApiKey w).

Definition is_error_report (e : event) : bool :=
  match e with
  | ShowErrorMessage _ => true
  | _ => false
  end.

Definition is_fire (e : event) : bool :=
  match e with
  | Fire => true
  | _ => false
  end.

Definition is_request (e : event) : bool :=
  match e with
  | AxiosGet _ _ | AxiosPost _ _ _ _ => true
  | _ => false
  end.

Definition count (p : event -> bool) (es : list event) : nat :=
  length (List.filter p es).

(** ** The contracts in the words of the specification *)

(** A lower-case hexadecimal key: not empty, and made of the sixteen
    characters below. *)
Definition hex_digits : list ascii := list_ascii_of_string "0123456789abcdef".

Definition lowercase_hex (key : string) : Prop :=
  key <> "" /\ Forall (fun c => c ∈ hex_digits) (list_ascii_of_string key).

(** The callback is accepted when its path is the callback path and its
    [apikey] parameter is a non-empty lower-case hexadecimal string. *)
Definition callback_accepted (uri : Uri) : bool :=
  bool_decide (path uri = "/callback")
  && match JS.get "apikey" (JS.URLSearchParams (query uri)) with
     | Some key => bool_decide (key <> "") && JS.hex_test key
     | None => false
     end.

(** The error shown for a callback that is not accepted. *)
Definition rejection (uri : Uri) : string :=
  if bool_decide (path uri = "/callback")
  then "⚠️ Invalid API Key format."
  else "⚠️ Invalid redirect path.".

(** The message of a failed request: the one the server supplied when
    there is one, else the text of the transport error. *)
Definition reported (error : Error) : string :=
  match response_message error with
  | Some m => if bool_decide (m = "") then message error else m
  | None => message error
  end.

(** The labels of the entries below a collection. *)
Definition field_label (f : Field) : string :=
  fieldName f +:+ " (" +:+ fieldType f +:+ ")".

(** The command carried by the entry of a collection. *)
Definition show_endpoints_of (c : Collection) : Command :=
  {| command := "mockman.showEndpoints";
     command_title := "Show Endpoints";
     arguments := [c] |}.

(** The three operations of the template browser. *)
Definition is_operation (m : HostMessage) : bool :=
  match m with
  | cmd_getTemplates | cmd_getPreview _ | cmd_createCollection _ _ => true
  | _ => false
  end.

(** A message for the page of the template browser reaches it when the
    panel is open; when it has been disposed nothing is posted. *)
Definition to_page (w : World) (m : WebviewMessage) : list event :=
  match templatesPanel w with
  | Some _ => [PostMessage "mockmanTemplateBrowser" m]
  | None => []
  end.

(** The outcome of a post to the page of the template browser: it throws
    when the panel has been disposed. *)
Definition post_outcome (env : Env) (w : World) : Outcome unit :=
  match templatesPanel w with
  | Some _ => Resolved tt
  | None => Rejected (TypeError (null_webview env))
  end.

(** The log-in notice: shown to the user, and passed on to the page. *)
Definition login_notice (w : World) : list event :=
  ShowErrorMessage "⚠️ Please login first (MockMan: Login)."
  :: to_page w (msg_error "Please login first (MockMan: Login).").

(** What [handleError] reports for a failed [action]. *)
Definition failure_report (w : World) (action : string) (error : Error)
    : list event :=
  ShowErrorMessage ("Error " +:+ action +:+ ": " +:+ reported error)
  :: to_page w (msg_error (reported error)).

(** ** Sample data *)

Definition users : Collection :=
  {| _id := "c1"; collectionName := "Users";
     fields := [ {| fieldName := "email"; fieldType := "string" |};
                 {| fieldName := "age"; fieldType := "number" |} ] |}.

Definition users_again : Collection :=
  {| _id := "c2"; collectionName := "Users";
     fields := [ {| fieldName := "id"; fieldType := "uuid" |} ] |}.

Definition orders : Collection :=
  {| _id := "c3"; collectionName := "Orders"; fields := [] |}.

Definition timeout_error : Error :=
  {| message := "timeout of 5000ms exceeded"; response_message := None |}.

Definition server_error : Error :=
  {| message := "Request failed with status code 400";
     response_message := Some "Unknown template category" |}.

(** A service that answers every call. *)
Definition online : Env :=
  {| secrets_store := fun _ _ => Resolved tt;
     configuration_update := fun _ _ _ => Resolved tt;
     get_collections := fun _ => Resolved (Some [users; orders]);
     get_templates := fun _ =>
       Resolved [ {| category := "person"; displayName := "Person" |} ];
     get_preview := fun _ => Resolved "{}";
     post_create := fun _ _ count =>
       Resolved (created {| name := "person_1";
                            documentCount := pretty count |});
     openExternal := fun _ => true;
     warning_selection := None;
     clipboard_writeText := fun _ => Resolved tt;
     null_webview := "Cannot read properties of null (reading 'webview')" |}.

(** A service that is out of reach. *)
Definition offline : Env :=
  {| secrets_store := fun _ _ => Resolved tt;
     configuration_update := fun _ _ _ => Resolved tt;
     get_collections := fun _ => Rejected timeout_error;
     get_templates := fun _ => Rejected timeout_error;
     get_preview := fun _ => Rejected server_error;
     post_create := fun _ _ _ => Rejected server_error;
     openExternal := fun _ => false;
     warning_selection := Some "Copy URL";
     clipboard_writeText := fun _ => Rejected timeout_error;
     null_webview := "Cannot read properties of null (reading 'webview')" |}.

(** The world right after the constructors have run. *)
Definition fresh_world (stored : gmap string string) : World :=
  {| secrets := stored; configuration := ∅; apiKey := None; collections := [];
     endpointsPanel := None; templatesPanel := None; trace := [] |}.

(** A session without a key that still shows an old snapshot. *)
Definition logged_out : World :=
  {| secrets := ∅; configuration := ∅; apiKey := None;
     collections := [users; users_again];
     endpointsPanel := Some {| viewType := "mockmanEndpoints";
                               title := "Endpoints for Users" |};
     templatesPanel := None;
     trace := [Fire] |}.

(** A session with a key in secret storage and an old snapshot. *)
Definition logged_in : World :=
  {| secrets := {[ "mockman.apiKey" := "abc123" ]}; configuration := ∅;
     apiKey := None;
     collections := [users; users_again];
     endpointsPanel := None; templatesPanel := None;
     trace := [Fire] |}.

(** The same session with the template browser open. *)
Definition browsing (w : World) : World :=
  set_templatesPanel (Some {| viewType := "mockmanTemplateBrowser";
                              title := "MockMan Templates" |}) w.

(** Two entries of the side bar; the snapshot of [logged_out] has two
    collections called Users and none called Orders. *)
Definition users_entry : MockmanTreeItem :=
  new_MockmanTreeItem "Users" Collapsed (Some (show_endpoints_of users))
    "file-submodule" (Some users).

Definition orders_entry : MockmanTreeItem :=
  new_MockmanTreeItem "Orders" Collapsed (Some (show_endpoints_of orders))
    "file-submodule" (Some orders).

(** Callbacks: one with a well-formed key and three with the malformed
    keys ABC123, the empty key and 12g4, and one on another path. *)
Definition good_callback : Uri :=
  {| path := "/callback"; query := "apikey=0a1b2c3d4e5f" |}.

Definition upper_callback : Uri :=
  {| path := "/callback"; query := "apikey=ABC123" |}.

Definition empty_callback : Uri := {| path := "/callback"; query := "apikey=" |}.

Definition letter_g_callback : Uri :=
  {| path := "/callback"; query := "apikey=12g4" |}.

Definition other_path : Uri :=
  {| path := "/callback/"; query := "apikey=0a1b2c3d4e5f" |}.

(** U+00A0 and U+2028 in UTF-8. *)
Definition nbsp : string := String (ascii_of_N 0xC2) (String (ascii_of_N 0xA0) "").

Definition line_separator : string :=
  String (ascii_of_N 0xE2) (String (ascii_of_N 0x80) (String (ascii_of_N 0xA8) "")).

Definition idle_button : TemplateScript.CreateBtn :=
  {| TemplateScript.disabled := false;
     TemplateScript.btn_loading := false;
     TemplateScript.createText := "Create Collection";
     TemplateScript.createLoader_shown := false |}.

(** ** The life of the extension: operations and reachable states *)

(** What can happen to the running extension: its activation, a callback
    URI, a command, a message from one of the two panels, or the disposal
    of a panel. *)
Inductive Operation : Type :=
  | op_activate
  | op_handleUri (uri : Uri)
  | op_command (name : string) (argument : option Collection)
  | op_endpoints_message (m : HostMessage)
  | op_endpoints_disposed
  | op_templates_message (m : HostMessage)
  | op_templates_disposed.

Definition run (env : Env) (op : Operation) : M unit :=
  match op with
  | op_activate => activate env
  | op_handleUri uri => handleUri env uri
  | op_command name argument => executeCommand env name argument
  | op_endpoints_message m => EndpointsWebview_onDidReceiveMessage env m
  | op_endpoints_disposed => EndpointsWebview_onDidDispose
  | op_templates_message m =>
      TemplateBrowserWebview_onDidReceiveMessage env m;;
      mret tt
  | op_templates_disposed => TemplateBrowserWebview_onDidDispose
  end.

(** The world when the constructors have run, over the secret storage and
    the settings found on the machine. *)
Definition start_world (stored settings : gmap string string) : World :=
  {| secrets := stored; configuration := settings; apiKey := None;
     collections := []; endpointsPanel := None; templatesPanel := None;
     trace := [] |}.

(** The states the extension can be in; the collaborators may answer each
    operation differently.  Secret storage and settings change through the
    extension only. *)
Inductive reachable (stored settings : gmap string string) : World -> Prop :=
  | reachable_start : reachable stored settings (start_world stored settings)
  | reachable_step w env op :
      reachable stored settings w ->
      reachable stored settings (exec (run env op) w).

(** Hoare triples of the host monad. *)
Definition hoare {A} (P : World -> Prop) (m : M A) (Q : A -> World -> Prop)
    : Prop :=
  forall w, P w -> Q (fst (m w)) (snd (m w)).

Definition keeps {A} (I : World -> Prop) (m : M A) : Prop :=
  hoare I m (fun _ => I).

(** *** Invariants *)

(** The cached key, when usable, is the one in secret storage. *)
Definition cache_consistent (w : World) : Prop :=
  JS.truthy (apiKey w) = true -> apiKey w = secrets w !! "mockman.apiKey".

(** The two panels, when open, are the ones [show] creates. *)
Definition panels_wellformed (w : World) : Prop :=
  (forall p, endpointsPanel w = Some p ->
     viewType p = "mockmanEndpoints"
     /\ exists c, title p = "Endpoints for " +:+ c)
  /\ (forall p, templatesPanel w = Some p ->
        p = {| viewType := "mockmanTemplateBrowser";
               title := "MockMan Templates" |}).

(** A key is trusted when it is the secret found at start-up or has the
    format the callback accepts. *)
Definition trusted (stored : gmap string string) (key : string) : Prop :=
  stored !! "mockman.apiKey" = Some key \/ lowercase_hex key.

Definition usable (stored : gmap string string) (key : string) : Prop :=
  key <> "" /\ trusted stored key.

(** The effects the extension may have on the outside: requests to the
    four URLs of the service with a usable key and the timeout of the
    call, writes of a well-formed key under the one name, and the log-in
    page. *)
Definition event_ok (stored : gmap string string) (e : event) : Prop :=
  match e with
  | AxiosGet url timeout =>
      timeout = 5000
      /\ exists key, usable stored key
           /\ (url = "https://api.mockman.online/collections/" +:+ key
               \/ url = "https://api.mockman.online/templates/" +:+ key
               \/ exists category,
                    url = "https://api.mockman.online/templates/" +:+ key
                            +:+ "/" +:+ category +:+ "/preview")
  | AxiosPost url _ _ timeout =>
      timeout = 10000
      /\ exists key, usable stored key
           /\ url = "https://api.mockman.online/templates/" +:+ key +:+ "/create"
  | SecretsStore key value => key = "mockman.apiKey" /\ lowercase_hex value
  | ConfigurationUpdate section key value =>
      section = "mockman" /\ key = "apiKey" /\ lowercase_hex value
  | OpenExternal url => url = "https://mockman.online/login"
  | _ => True
  end.

Definition outside_ok (stored : gmap string string) (w : World) : Prop :=
  (forall key, secrets w !! "mockman.apiKey" = Some key -> trusted stored key)
  /\ (forall key, apiKey w = Some key -> trusted stored key)
  /\ Forall (event_ok stored) (trace w).

(** Secret storage and settings differ from the ones found at start-up at
    the name of the key only. *)
Definition storage_framed (stored settings : gmap string string) (w : World)
    : Prop :=
  forall name, name <> "mockman.apiKey" ->
    secrets w !! name = stored !! name
    /\ configuration w !! name = settings !! name.

(** A snapshot that shows collections has been fetched and then
    announced: the trace holds a GET of the collections of some non-empty
    key, with the timeout of [refresh], and a change notification after
    it. *)
Definition snapshot_fetched (w : World) : Prop :=
  collections w = []
  \/ exists key before after,
       key <> ""
       /\ trace w
          = before
            ++ AxiosGet ("https://api.mockman.online/collections/" +:+ key)
                 5000
               :: after
       /\ Fire ∈ after.

Definition is_credential_write (e : event) : bool :=
  match e with
  | SecretsStore _ _ | ConfigurationUpdate _ _ _ => true
  | _ => false
  end.

(** The states an operation may lead to from [w0] when it does not touch
    the key: storage as it was, no write attempted, and the snapshot
    changed only with a change notification. *)
Definition quiet_since (w0 w : World) : Prop :=
  secrets w = secrets w0
  /\ configuration w = configuration w0
  /\ exists es, trace w = trace w0 ++ es
       /\ Forall (fun e => is_credential_write e = false) es
       /\ (collections w = collections w0 \/ Fire ∈ es).

(** Entries of other extensions found on the machine. *)
Definition machine_secrets : gmap string string :=
  {[ "github.token" := "t0" ]}.

Definition machine_settings : gmap string string :=
  {[ "github.token" := "keychain"; "editor.tabSize" := "2" ]}.

(** The state after a callback with a well-formed key has been handled,
    from empty storage. *)
Definition after_callback : World :=
  exec (run online (op_handleUri good_callback)) (start_world ∅ ∅).

(** The states in which a callback may leave the world: turned down,
    store failed, settings update failed, or all done and refreshed. *)
Inductive callback_result (env : Env) (w : World) : World -> Prop :=
  | callback_rejected text :
      callback_result env w
        (set_trace (fun t => t ++ [ShowErrorMessage text]) w)
  | callback_store_failed key text :
      lowercase_hex key ->
      callback_result env w
        (set_trace (fun t => t ++ [SecretsStore "mockman.apiKey" key;
                                   ShowErrorMessage text]) w)
  | callback_update_failed key text :
      lowercase_hex key ->
      callback_result env w
        (set_trace (fun t => t ++ [SecretsStore "mockman.apiKey" key;
                                   ConfigurationUpdate "mockman" "apiKey" key;
                                   ShowErrorMessage text])
           (set_apiKey (Some key)
              (set_secrets <["mockman.apiKey" := key]> w)))
  | callback_done key :
      lowercase_hex key ->
      callback_result env w
        (exec (refresh env)
           (set_trace (fun t => t ++ [SecretsStore "mockman.apiKey" key;
                                      ConfigurationUpdate "mockman" "apiKey" key;
                                      ShowInformationMessage
                                        "✅ API Key saved successfully!"])
              (set_configuration <["mockman.apiKey" := key]>
                 (set_apiKey (Some key)
                    (set_secrets <["mockman.apiKey" := key]> w))))).

(** The state after the endpoints of a collection have been opened. *)
Definition with_endpoints : World :=
  exec (run online (op_command "mockman.showEndpoints" (Some users)))
    after_callback.

Definition is_callback (op : Operation) : bool :=
  match op with
  | op_handleUri _ => true
  | _ => false
  end.

Definition settings_error : Error :=
  {| message := "Unable to write to User Settings"; response_message := None |}.

Definition keychain_error : Error :=
  {| message := "Keychain is locked"; response_message := None |}.

(** A machine on which the key can be stored but the settings cannot be
    written. *)
Definition readonly_settings : Env :=
  {| secrets_store := fun _ _ => Resolved tt;
     configuration_update := fun _ _ _ => Rejected settings_error;
     get_collections := get_collections online;
     get_templates := get_templates online;
     get_preview := get_preview online;
     post_create := post_create online;
     openExternal := openExternal online;
     warning_selection := warning_selection online;
     clipboard_writeText := clipboard_writeText online;
     null_webview := null_webview online |}.

(** A machine on which secret storage is locked. *)
Definition locked_keychain : Env :=
  {| secrets_store := fun _ _ => Rejected keychain_error;
     configuration_update := configuration_update online;
     get_collections := get_collections online;
     get_templates := get_templates online;
     get_preview := get_preview online;
     post_create := post_create online;
     openExternal := openExternal online;
     warning_selection := warning_selection online;
     clipboard_writeText := clipboard_writeText online;
     null_webview := null_webview online |}.

(** A session that has cached an older key. *)
Definition old_session : World :=
  {| secrets := {[ "mockman.apiKey" := "abc123" ]}; configuration := ∅;
     apiKey := Some "abc123";
     collections := [users_again];
     endpointsPanel := None; templatesPanel := None;
     trace := [] |}.

Definition is_panel_creation (e : event) : bool :=
  match e with
  | CreateWebviewPanel _ _ => true
  | _ => false
  end.

(** What [show] posts to the endpoints panel for a collection. *)
Definition endpoints_post (w : World) (c : Collection) : list event :=
  match credential w with
  | Some key => [PostMessage "mockmanEndpoints" (msg_endpoints c key)]
  | None => []
  end.

Definition templates_panel : Panel :=
  {| viewType := "mockmanTemplateBrowser"; title := "MockMan Templates" |}.

(** The notice of a created collection. *)
Definition created_notice (data : Created) : string :=
  "✅ Collection " +:+ dquote +:+ name data +:+ dquote
    +:+ " created with " +:+ documentCount data +:+ " documents".

(** The effects of one [refresh] with the key [key]. *)
Definition refresh_effects (env : Env) (key : string) : list event :=
  AxiosGet ("https://api.mockman.online/collections/" +:+ key) 5000
  :: match get_collections env
             ("https://api.mockman.online/collections/" +:+ key) with
     | Resolved _ => []
     | Rejected error =>
         [ShowErrorMessage ("Error fetching collections: " +:+ message error)]
     end
  ++ [Fire].

(** The snapshot after one [refresh] with the key [key]. *)
Definition fetched (env : Env) (key : string) : list Collection :=
  match get_collections env
          ("https://api.mockman.online/collections/" +:+ key) with
  | Resolved (Some body) => body
  | _ => []
  end.

(** ** [escapeHtml], as both panels define it *)

Module Html.

(** [s.replace(/c/g, by)] for a single character [c] and a replacement
    without dollar patterns. *)
Fixpoint replace_all (c : ascii) (replacement : string) (s : string) : string :=
  match s with
  | EmptyString => EmptyString
  | String a r =>
      if Ascii.eqb a c then replacement +:+ replace_all c replacement r
      else String a (replace_all c replacement r)
  end.

Definition escapeHtml (unsafe : string) : string :=
  replace_all "'" "&#039;"
    (replace_all (ascii_of_N 34) "&quot;"
       (replace_all ">" "&gt;"
          (replace_all "<" "&lt;"
             (replace_all "&" "&amp;" unsafe)))).

(** The characters that [escapeHtml] replaces. *)
Definition special (a : ascii) : bool :=
  Ascii.eqb a "&" || Ascii.eqb a "<" || Ascii.eqb a ">"
  || Ascii.eqb a (ascii_of_N 34) || Ascii.eqb a "'".

(** The entity of a character, in one pass. *)
Definition entity (a : ascii) : string :=
  if Ascii.eqb a "&" then "&amp;"
  else if Ascii.eqb a "<" then "&lt;"
  else if Ascii.eqb a ">" then "&gt;"
  else if Ascii.eqb a (ascii_of_N 34) then "&quot;"
  else if Ascii.eqb a "'" then "&#039;"
  else String a EmptyString.

Fixpoint escape_once (s : string) : string :=
  match s with
  | EmptyString => EmptyString
  | String a r => entity a +:+ escape_once r
  end.

End Html.

(** ** The page of the template browser *)

Module TemplatePage.

Inductive Rendered : Type :=
  | textContent (text : string)
  | innerHTML (html : string).

(** The parts of the page that the script reads or writes. *)
Record Page := {
  loginPrompt_shown : bool;
  loginPrompt_html : string;
  loginBtn_listeners : nat;
  templateSection_shown : bool;
  previewSection_shown : bool;
  createSection_shown : bool;
  options : list (string * string);
  templateSelect_value : string;
  rowCount_value : string;
  preview : Rendered;
  createBtn : TemplateScript.CreateBtn
}.

Definition placeholder_option : string * string :=
  ("", "Choose a template category...").

Definition reset_button (v : TemplateScript.Variant)
    (btn : TemplateScript.CreateBtn) : TemplateScript.CreateBtn :=
  {| TemplateScript.disabled := false;
     TemplateScript.btn_loading := false;
     TemplateScript.createText := "Create Collection";
     TemplateScript.createLoader_shown :=
       match v with
       | TemplateScript.themed => TemplateScript.createLoader_shown btn
       | TemplateScript.tailwind => false
       end |}.

(** The markup that the [error] case writes into the log-in prompt. *)
Definition error_html (v : TemplateScript.Variant) (message : string) : string :=
  match v with
  | TemplateScript.themed =>
      "<p>⚠️ " +:+ Html.escapeHtml message
        +:+ " <button id=" +:+ dquote +:+ "loginBtn" +:+ dquote
        +:+ " class=" +:+ dquote +:+ "btn btn-secondary" +:+ dquote
        +:+ ">Login Now</button></p>"
  | TemplateScript.tailwind =>
      "<p>" +:+ Html.escapeHtml message
        +:+ " <button id=" +:+ dquote +:+ "loginBtn" +:+ dquote
        +:+ " class=" +:+ dquote +:+ "text-blue-400 underline cursor-pointer"
        +:+ dquote +:+ ">Login Now</button></p>"
  end.

Section Listener.

(** [JSON.stringify(data, null, 2)] of a preview document. *)
Variable stringify : string -> string.

(** The [message] listener of the page. *)
Definition onmessage (v : TemplateScript.Variant) (m : WebviewMessage)
    (p : Page) : Page :=
  match m with
  | msg_templates data =>
      {| loginPrompt_shown := false;
         loginPrompt_html := loginPrompt_html p;
         loginBtn_listeners := loginBtn_listeners p;
         templateSection_shown := true;
         previewSection_shown := true;
         createSection_shown := true;
         options :=
           placeholder_option
           :: map (fun t => (category t, Html.escapeHtml (displayName t))) data;
         templateSelect_value := "";
         rowCount_value := rowCount_value p;
         preview := preview p;
         createBtn := createBtn p |}
  | msg_preview data =>
      {| loginPrompt_shown := loginPrompt_shown p;
         loginPrompt_html := loginPrompt_html p;
         loginBtn_listeners := loginBtn_listeners p;
         templateSection_shown := templateSection_shown p;
         previewSection_shown := previewSection_shown p;
         createSection_shown := createSection_shown p;
         options := options p;
         templateSelect_value := templateSelect_value p;
         rowCount_value := rowCount_value p;
         preview :=
           match v with
           | TemplateScript.themed => textContent (stringify data)
           | TemplateScript.tailwind =>
               innerHTML ("<pre>" +:+ Html.escapeHtml (stringify data)
                            +:+ "</pre>")
           end;
         createBtn := createBtn p |}
  | msg_createSuccess _ =>
      {| loginPrompt_shown := loginPrompt_shown p;
         loginPrompt_html := loginPrompt_html p;
         loginBtn_listeners := loginBtn_listeners p;
         templateSection_shown := templateSection_shown p;
         previewSection_shown := previewSection_shown p;
         createSection_shown := createSection_shown p;
         options := options p;
         templateSelect_value := templateSelect_value p;
         rowCount_value := rowCount_value p;
         preview := preview p;
         createBtn := reset_button v (createBtn p) |}
  | msg_error message =>
      {| loginPrompt_shown := true;
         loginPrompt_html := error_html v message;
         loginBtn_listeners := 1;
         templateSection_shown := false;
         previewSection_shown := false;
         createSection_shown := false;
         options := options p;
         templateSelect_value := templateSelect_value p;
         rowCount_value := rowCount_value p;
         preview := preview p;
         createBtn := reset_button v (createBtn p) |}
  | msg_noApiKey =>
      {| loginPrompt_shown := true;
         loginPrompt_html := loginPrompt_html p;
         loginBtn_listeners := S (loginBtn_listeners p);
         templateSection_shown := false;
         previewSection_shown := false;
         createSection_shown := false;
         options := options p;
         templateSelect_value := templateSelect_value p;
         rowCount_value := rowCount_value p;
         preview := preview p;
         createBtn := createBtn p |}
  | _ => p
  end.

(** The messages of the host reach the page in the order in which they
    were posted. *)
Definition deliver (v : TemplateScript.Variant) (ms : list WebviewMessage)
    (p : Page) : Page :=
  fold_left (fun p m => onmessage v m p) ms p.

End Listener.

(** A click on the create button, on the page. *)
Definition click_create (v : TemplateScript.Variant) (p : Page)
    : Page * HostMessage :=
  let '(btn, m) :=
    TemplateScript.createBtn_onclick v (templateSelect_value p)
      (rowCount_value p) (createBtn p) in
  ({| loginPrompt_shown := loginPrompt_shown p;
      loginPrompt_html := loginPrompt_html p;
      loginBtn_listeners := loginBtn_listeners p;
      templateSection_shown := templateSection_shown p;
      previewSection_shown := previewSection_shown p;
      createSection_shown := createSection_shown p;
      options := options p;
      templateSelect_value := templateSelect_value p;
      rowCount_value := rowCount_value p;
      preview := preview p;
      createBtn := btn |}, m).

(** A click on the log-in button: every listener posts [login]. *)
Definition click_login (p : Page) : list HostMessage :=
  replicate (loginBtn_listeners p) cmd_login.

End TemplatePage.

(** The messages that a run of the host has posted to a panel. *)
Definition posted_to (panel : string) (es : list event) : list WebviewMessage :=
  omap (fun e => match e with
                 | PostMessage viewType m =>
                     if String.eqb viewType panel then Some m else None
                 | _ => None
                 end) es.

(** A page on which a category and a count have been entered. *)
Definition filled_page : TemplatePage.Page :=
  {| TemplatePage.loginPrompt_shown := false;
     TemplatePage.loginPrompt_html := "";
     TemplatePage.loginBtn_listeners := 0;
     TemplatePage.templateSection_shown := true;
     TemplatePage.previewSection_shown := true;
     TemplatePage.createSection_shown := true;
     TemplatePage.options :=
       [TemplatePage.placeholder_option; ("person", "Person")];
     TemplatePage.templateSelect_value := "person";
     TemplatePage.rowCount_value := "25";
     TemplatePage.preview := TemplatePage.textContent "{}";
     TemplatePage.createBtn := idle_button |}.

(** The replies of the host to a message of the template page while its
    panel is open: one message for each of the three operations, and a
    second one when the body of a created collection cannot be read; none
    for the other commands. *)
Definition reply_of (env : Env) (key : option string) (m : HostMessage)
    : list WebviewMessage :=
  match m, key with
  | cmd_getTemplates, Some key =>
      match get_templates env
              ("https://api.mockman.online/templates/" +:+ key) with
      | Resolved data => [msg_templates data]
      | Rejected error => [msg_error (reported error)]
      end
  | cmd_getPreview category, Some key =>
      match get_preview env
              ("https://api.mockman.online/templates/" +:+ key
                 +:+ "/" +:+ category +:+ "/preview") with
      | Resolved data => [msg_preview data]
      | Rejected error => [msg_error (reported error)]
      end
  | cmd_createCollection category n, Some key =>
      match post_create env
              ("https://api.mockman.online/templates/" +:+ key +:+ "/create")
              category n with
      | Resolved (created collection) =>
          [msg_createSuccess (created collection)]
      | Resolved (malformed fault) =>
          [msg_createSuccess (malformed fault); msg_error fault]
      | Rejected error => [msg_error (reported error)]
      end
  | (cmd_getTemplates | cmd_getPreview _ | cmd_createCollection _ _), None =>
      [msg_error "Please login first (MockMan: Login)."]
  | _, _ => []
  end.

(** The page after the host has handled a message of the page and its
    replies have been delivered. *)
Definition round_trip (stringify : string -> string) (env : Env)
    (v : TemplateScript.Variant) (m : HostMessage) (w : World)
    (p : TemplatePage.Page) : TemplatePage.Page :=
  TemplatePage.deliver stringify v
    (posted_to "mockmanTemplateBrowser"
       (emitted (TemplateBrowserWebview_onDidReceiveMessage env m) w)) p.

(** The characters that would open or close markup or an attribute. *)
Definition markup (a : ascii) : bool :=
  Ascii.eqb a "<" || Ascii.eqb a ">"
  || Ascii.eqb a (ascii_of_N 34) || Ascii.eqb a "'".

(** ** [getNonce]

    The i-th draw [Math.floor(Math.random() * possible.length)] is taken
    from [draw]; [charAt] past the end of the alphabet is the empty
    string. *)

Module Nonce.

Definition possible : string :=
  "ABCDEFGHIJKLMNOPQRSTUVWXYZabcdefghijklmnopqrstuvwxyz0123456789".

Definition charAt (s : string) (i : N) : string :=
  match String.get (N.to_nat i) s with
  | Some a => String a EmptyString
  | None => EmptyString
  end.

(** The loop [for (let i = first; i < first + rounds; i++)]. *)
Fixpoint loop (draw : nat -> N) (rounds first : nat) (text : string) : string :=
  match rounds with
  | O => text
  | S rounds => loop draw rounds (S first) (text +:+ charAt possible (draw first))
  end.

Definition getNonce (draw : nat -> N) : string := loop draw 32 0 "".

Definition alphanumeric (a : ascii) : bool :=
  let n := JS.code a in
  ((48 <=? n) && (n <=? 57) || (65 <=? n) && (n <=? 90)
   || (97 <=? n) && (n <=? 122))%N.

End Nonce.

(** The effects and the snapshot of the provider that reads the key from
    the settings, by the usable key in the settings. *)
Definition legacy_effects (env : Env) (key : option string) : list event :=
  match key with
  | None => [ShowErrorMessage "⚠️ Please login first (MockMan: Login)."; Fire]
  | Some key =>
      AxiosGet ("https://mockman-express.onrender.com/collections/" +:+ key) 0
      :: match get_collections env
                 ("https://mockman-express.onrender.com/collections/" +:+ key)
         with
         | Resolved _ => []
         | Rejected error =>
             [ShowErrorMessage
                ("Error fetching collections: " +:+ reported error)]
         end
      ++ [Fire]
  end.

(** ** The sign-up and log-in commands of the copy without webviews

    The answers to the input boxes are read from the environment, by
    prompt; the requests to the authentication service are recorded in a
    log of their own, beside the world of the host.  A request that
    resolves is taken to answer with an object as [data], of which
    [axios_post] gives the field [apiSecretKey] when it is a string.  The
    refresh that the commands start without waiting for it is run to its
    end in place. *)

Module LegacyCommands.

Record AuthEnv := {
  showInputBox : string -> option string;
  axios_post : string -> list (string * string) -> Outcome (option string);
  settings_update : string -> string -> Outcome unit;
  service : Env
}.

Record AuthWorld := {
  host : World;
  auth_requests : list (string * list (string * string))
}.

Definition notify (e : event) (aw : AuthWorld) : AuthWorld :=
  {| host := set_trace (fun t => t ++ [e]) (host aw);
     auth_requests := auth_requests aw |}.

Definition request (url : string) (body : list (string * string))
    (aw : AuthWorld) : AuthWorld :=
  {| host := host aw; auth_requests := auth_requests aw ++ [(url, body)] |}.

Definition on_host (f : World -> World) (aw : AuthWorld) : AuthWorld :=
  {| host := f (host aw); auth_requests := auth_requests aw |}.

Definition signup (env : AuthEnv) (aw : AuthWorld) : AuthWorld :=
  let username := showInputBox env "Enter your username" in
  let email := showInputBox env "Enter your email" in
  let password := showInputBox env "Enter your password" in
  match present username, present email, present password with
  | Some username, Some email, Some password =>
      let url := "https://mockman-express.onrender.com/auth/sign-up" in
      let body := [("username", username); ("email", email);
                   ("password", password)] in
      let aw := request url body aw in
      match axios_post env url body with
      | Resolved apiSecretKey =>
          match present apiSecretKey with
          | Some key =>
              let aw := notify (ConfigurationUpdate "" "mockman.apiKey" key) aw in
              match settings_update env "mockman.apiKey" key with
              | Resolved _ =>
                  let aw := on_host (set_configuration
                                       <["mockman.apiKey" := key]>) aw in
                  let aw := notify (ShowInformationMessage
                                      "🎉 Account created & Logged in successfully!")
                              aw in
                  on_host (exec (Legacy.refresh (service env))) aw
              | Rejected error =>
                  notify (ShowErrorMessage
                            ("Sign Up Error: " +:+ message error)) aw
              end
          | None =>
              notify (ShowErrorMessage "Sign Up failed: API Key not received.")
                aw
          end
      | Rejected error =>
          notify (ShowErrorMessage ("Sign Up Error: " +:+ message error)) aw
      end
  | _, _, _ => notify (ShowErrorMessage "All fields are required!") aw
  end.

Definition login (env : AuthEnv) (aw : AuthWorld) : AuthWorld :=
  let email := showInputBox env "Enter your email" in
  let password := showInputBox env "Enter your password" in
  match present email, present password with
  | Some email, Some password =>
      let url := "https://mockman-express.onrender.com/auth/login" in
      let body := [("email", email); ("password", password)] in
      let aw := request url body aw in
      match axios_post env url body with
      | Resolved apiSecretKey =>
          match present apiSecretKey with
          | Some key =>
              let aw := notify (ConfigurationUpdate "" "mockman.apiKey" key) aw in
              match settings_update env "mockman.apiKey" key with
              | Resolved _ =>
                  let aw := on_host (set_configuration
                                       <["mockman.apiKey" := key]>) aw in
                  let aw := notify (ShowInformationMessage
                                      "✅ Logged in successfully! API Key saved.")
                              aw in
                  on_host (exec (Legacy.refresh (service env))) aw
              | Rejected error =>
                  notify (ShowErrorMessage
                            ("Login Error: " +:+ message error)) aw
              end
          | None =>
              notify (ShowErrorMessage "Login failed: API Key not received.") aw
          end
      | Rejected error =>
          notify (ShowErrorMessage ("Login Error: " +:+ message error)) aw
      end
  | _, _ => notify (ShowErrorMessage "Email and Password required!") aw
  end.

(** Some prompt was dismissed or left empty. *)
Definition incomplete (env : AuthEnv) (prompts : list string) : Prop :=
  exists prompt, prompt ∈ prompts /\ JS.truthy (showInputBox env prompt) = false.

End LegacyCommands.

(** A user who leaves the password empty, and one who fills in the form
    of a service that answers with the key K-42. *)
Definition forgetful : LegacyCommands.AuthEnv :=
  {| LegacyCommands.showInputBox := fun prompt =>
       if String.eqb prompt "Enter your password" then Some "" else Some "ann";
     LegacyCommands.axios_post := fun _ _ => Resolved (Some "K-42");
     LegacyCommands.settings_update := fun _ _ => Resolved tt;
     LegacyCommands.service := online |}.

Definition diligent : LegacyCommands.AuthEnv :=
  {| LegacyCommands.showInputBox := fun prompt => Some "ann";
     LegacyCommands.axios_post := fun _ _ => Resolved (Some "K-42");
     LegacyCommands.settings_update := fun _ _ => Resolved tt;
     LegacyCommands.service := online |}.

Definition legacy_start : LegacyCommands.AuthWorld :=
  {| LegacyCommands.host := start_world ∅ ∅;
     LegacyCommands.auth_requests := [] |}.

(** * Properties *)

(** ** JavaScript primitives on examples *)

Example trim_spaces : JS.trim "  ab c  " = "ab c".
Proof. reflexivity. Qed.

Example trim_unicode :
  JS.trim (nbsp +:+ " 0a f" +:+ line_separator +:+ nbsp) = "0a f".
Proof. reflexivity. Qed.

Example get_first : JS.get "apikey" (JS.URLSearchParams "x=1&apikey=ab%63&apikey=zz") = Some "abc".
Proof. reflexivity. Qed.

Example parseInt_examples :
  JS.parseInt "10" = Some 10 /\ JS.parseInt " -7px" = Some (-7)
  /\ JS.parseInt "" = None /\ JS.parseInt "0x1f" = Some 31
  /\ JS.parseInt "1e3" = Some 1 /\ JS.parseInt "abc" = None.
Proof. repeat split; reflexivity. Qed.

(** ** Unfolding equations of the host monad *)

Lemma present_Some v k :
  present v = Some k -> v = Some k /\ JS.truthy (Some k) = true.
Proof.
  unfold present. destruct (JS.truthy v) eqn:E; [|discriminate].
  intros ->. auto.
Qed.

Lemma present_None v : present v = None <-> JS.truthy v = false.
Proof.
  unfold present. destruct (JS.truthy v) eqn:E; split; try done.
  intros ->. discriminate.
Qed.

Lemma getApiKey_run w :
  getApiKey w =
    if JS.truthy (apiKey w) then (apiKey w, w)
    else (secrets w !! "mockman.apiKey",
          set_apiKey (secrets w !! "mockman.apiKey") w).
Proof.
  unfold getApiKey, mbind, M_bind, mret, M_ret, gets, modify. simpl.
  destruct (JS.truthy (apiKey w)); reflexivity.
Qed.

Lemma getApiKey_trace w : trace (snd (getApiKey w)) = trace w.
Proof. rewrite getApiKey_run. destruct (JS.truthy (apiKey w)); reflexivity. Qed.

Lemma getApiKey_endpointsPanel w :
  endpointsPanel (snd (getApiKey w)) = endpointsPanel w.
Proof. rewrite getApiKey_run. destruct (JS.truthy (apiKey w)); reflexivity. Qed.

Lemma credential_None w :
  credential w = None <->
  JS.truthy (apiKey w) = false /\ JS.truthy (secrets w !! "mockman.apiKey") = false.
Proof.
  unfold credential, eval. rewrite getApiKey_run, present_None.
  destruct (JS.truthy (apiKey w)) eqn:E; simpl; [rewrite E|]; intuition congruence.
Qed.

Lemma refresh_run env w :
  refresh env w =
    let '(key, w1) := getApiKey w in
    match present key with
    | None => (tt, set_trace (fun t => t ++ [Fire]) (set_collections [] w1))
    | Some key =>
        let url := "https://api.mockman.online/collections/" +:+ key in
        let w2 := set_trace (fun t => t ++ [AxiosGet url 5000]) w1 in
        match get_collections env url with
        | Resolved data =>
            (tt, set_trace (fun t => t ++ [Fire])
                   (set_collections (default [] data) w2))
        | Rejected error =>
            (tt, set_trace (fun t => t ++ [Fire])
                   (set_collections []
                      (set_trace
                         (fun t => t ++ [ShowErrorMessage
                                           ("Error fetching collections: "
                                              +:+ message error)]) w2)))
        end
    end.
Proof.
  unfold refresh, mbind, M_bind, mret, M_ret, emit, modify.
  destruct (getApiKey w) as [key w1].
  destruct (present key) as [k|]; [|reflexivity].
  simpl. destruct (get_collections env _); reflexivity.
Qed.

(** What one run of [refresh] leaves behind, by the three ways through it. *)
Lemma refresh_cases env w :
  match credential w with
  | None =>
      collections (exec (refresh env) w) = []
      /\ emitted (refresh env) w = [Fire]
  | Some key =>
      let url := "https://api.mockman.online/collections/" +:+ key in
      match get_collections env url with
      | Resolved data =>
          collections (exec (refresh env) w) = default [] data
          /\ emitted (refresh env) w = [AxiosGet url 5000; Fire]
      | Rejected error =>
          collections (exec (refresh env) w) = []
          /\ emitted (refresh env) w =
               [AxiosGet url 5000;
                ShowErrorMessage ("Error fetching collections: " +:+ message error);
                Fire]
      end
  end.
Proof.
  unfold credential, emitted, eval, exec.
  pose proof (getApiKey_trace w) as Ht.
  rewrite refresh_run.
  destruct (getApiKey w) as [key w1]. simpl in Ht |- *.
  destruct (present key) as [k|]; simpl.
  - destruct (get_collections env _) as [data|err]; simpl;
      (split; [reflexivity|]); rewrite Ht, <- ?(assoc_L (++));
      apply drop_app_length.
  - split; [reflexivity|]. rewrite Ht. apply drop_app_length.
Qed.

(** ** The collection catalog client *)

(** C4. In every state in which neither the cache nor secret storage holds
    a usable key, [refresh] empties the snapshot, sends no request and
    reports no error: the only thing it does to the outside is to fire the
    change notification. *)
Theorem refresh_without_credential env w :
  JS.truthy (apiKey w) = false ->
  JS.truthy (secrets w !! "mockman.apiKey") = false ->
  collections (exec (refresh env) w) = []
  /\ emitted (refresh env) w = [Fire]
  /\ count is_request (emitted (refresh env) w) = 0%nat
  /\ count is_error_report (emitted (refresh env) w) = 0%nat.
Proof.
  intros Hcache Hstore.
  pose proof (refresh_cases env w) as H.
  rewrite (proj2 (credential_None w) (conj Hcache Hstore)) in H.
  destruct H as [-> ->]. done.
Qed.

Lemma refresh_without_credential_witness :
  collections logged_out = [users; users_again]
  /\ collections (exec (refresh online) logged_out) = []
  /\ emitted (refresh online) logged_out = [Fire].
Proof.
  split; [reflexivity|].
  pose proof (refresh_without_credential online logged_out) as H.
  destruct H as (H1 & H2 & _); [reflexivity | reflexivity |].
  split; [exact H1 | exact H2].
Defined.

(** C3. Whatever the snapshot was, when the key is present and the GET of
    the collections fails, [refresh] leaves the empty snapshot and reports
    the failure exactly once (before it fires the change notification). *)
Theorem refresh_failure_clears_snapshot env w key error :
  credential w = Some key ->
  get_collections env ("https://api.mockman.online/collections/" +:+ key)
    = Rejected error ->
  collections (exec (refresh env) w) = []
  /\ emitted (refresh env) w =
       [AxiosGet ("https://api.mockman.online/collections/" +:+ key) 5000;
        ShowErrorMessage ("Error fetching collections: " +:+ message error);
        Fire]
  /\ count is_error_report (emitted (refresh env) w) = 1%nat.
Proof.
  intros Hkey Hget.
  pose proof (refresh_cases env w) as H.
  rewrite Hkey in H. simpl in H. rewrite Hget in H.
  destruct H as [-> ->]. done.
Qed.

Lemma refresh_failure_clears_snapshot_witness :
  collections logged_in = [users; users_again]
  /\ collections (exec (refresh offline) logged_in) = []
  /\ count is_error_report (emitted (refresh offline) logged_in) = 1%nat.
Proof.
  split; [reflexivity|].
  pose proof (refresh_failure_clears_snapshot offline logged_in
                "abc123" timeout_error) as H.
  destruct H as (H1 & _ & H3); [reflexivity | reflexivity |].
  split; [exact H1 | exact H3].
Defined.

(** C5. [refresh] replaces the snapshot by the body of a successful
    response, or by the empty list when the body is falsy; without a key
    and after a failure the snapshot is empty.  On each of these paths the
    change notification is fired exactly once, as the last effect. *)
Theorem refresh_replaces_and_notifies env w :
  collections (exec (refresh env) w) =
    match credential w with
    | None => []
    | Some key =>
        match get_collections env
                ("https://api.mockman.online/collections/" +:+ key) with
        | Resolved (Some body) => body
        | Resolved None => []
        | Rejected _ => []
        end
    end
  /\ count is_fire (emitted (refresh env) w) = 1%nat
  /\ last (emitted (refresh env) w) = Some Fire.
Proof.
  pose proof (refresh_cases env w) as H.
  destruct (credential w) as [key|].
  - simpl in H. destruct (get_collections env _) as [[body|]|err];
      destruct H as [-> ->]; done.
  - destruct H as [-> ->]. done.
Qed.

(** ** The tree presentation adapter *)

Lemma find_first {A} (p : A -> bool) pre x post :
  Forall (fun y => p y = false) pre -> p x = true ->
  List.find p (pre ++ x :: post) = Some x.
Proof.
  intros Hpre Hx. induction Hpre as [|y pre Hy _ IH]; simpl.
  - by rewrite Hx.
  - by rewrite Hy.
Qed.

Lemma find_none {A} (p : A -> bool) l :
  Forall (fun y => p y = false) l -> List.find p l = None.
Proof.
  induction 1 as [|y l Hy _ IH]; simpl; [done|]. by rewrite Hy.
Qed.

(** C6. At the root, [getChildren] yields one collapsible entry per
    collection of the snapshot, in the order of the snapshot, each with
    the show-endpoints command for its collection.  Below an entry it
    yields one non-collapsible entry per field of the first collection
    whose name is the label of the entry, labelled by name and type in
    the order of the fields; when no collection has that name the result
    is the empty list. *)
Theorem getChildren_entries w :
  Forall2 (fun item c =>
             label item = collectionName c
             /\ collapsibleState item = Collapsed
             /\ item_command item = Some (show_endpoints_of c))
          (getChildren w None) (collections w)
  /\ (forall element pre c post,
        collections w = pre ++ c :: post ->
        Forall (fun c' => collectionName c' <> label element) pre ->
        collectionName c = label element ->
        Forall2 (fun item f =>
                   label item = field_label f
                   /\ collapsibleState item = None_)
                (getChildren w (Some element)) (fields c))
  /\ (forall element,
        Forall (fun c => collectionName c <> label element) (collections w) ->
        getChildren w (Some element) = []).
Proof.
  split; [|split].
  - unfold getChildren. induction (collections w) as [|c cs IH]; simpl.
    + constructor.
    + constructor; [done | exact IH].
  - intros element pre c post Hsnap Hpre Hc. unfold getChildren.
    rewrite Hsnap, find_first.
    + induction (fields c) as [|f fs IH]; simpl; constructor; done.
    + eapply Forall_impl; [exact Hpre|]. simpl. intros c' Hne.
      by apply String.eqb_neq.
    + by apply String.eqb_eq.
  - intros element Hall. unfold getChildren. rewrite find_none; [done|].
    eapply Forall_impl; [exact Hall|]. simpl. intros c Hne.
    by apply String.eqb_neq.
Qed.

Lemma getChildren_entries_witness :
  Forall2 (fun item f =>
             label item = field_label f /\ collapsibleState item = None_)
          (getChildren logged_out (Some users_entry)) (fields users)
  /\ getChildren logged_out (Some orders_entry) = [].
Proof.
  pose proof (getChildren_entries logged_out) as (_ & Hfields & Hnone).
  split.
  - apply (Hfields users_entry [] users [users_again]);
      [reflexivity | constructor | reflexivity].
  - apply Hnone. repeat constructor; simpl; discriminate.
Defined.

(** ** The key format and [trim] *)

Lemma lower_hex_spec c : JS.lower_hex c = bool_decide (c ∈ hex_digits).
Proof. destruct c as [[] [] [] [] [] [] [] []]; vm_compute; reflexivity. Qed.

Lemma hex_test_spec key : JS.hex_test key = true <-> lowercase_hex key.
Proof.
  unfold lowercase_hex, JS.hex_test. destruct key as [|a r].
  - split; [discriminate | intros [H _]; done].
  - rewrite forallb_forall, Forall_forall. split.
    + intros H. split; [discriminate|]. intros c Hc.
      apply list_elem_of_In, H in Hc. rewrite lower_hex_spec in Hc.
      by apply bool_decide_eq_true in Hc.
    + intros [_ H] c Hc. rewrite lower_hex_spec.
      apply bool_decide_eq_true, H, list_elem_of_In, Hc.
Qed.

Lemma lower_hex_ascii a : JS.lower_hex a = true -> (48 <= JS.code a <= 102)%N.
Proof.
  unfold JS.lower_hex.
  rewrite orb_true_iff, !andb_true_iff, !N.leb_le. lia.
Qed.

Lemma ws1_hex a : JS.lower_hex a = true -> JS.ws1 a = false.
Proof.
  intros H%lower_hex_ascii. unfold JS.ws1.
  apply orb_false_iff. rewrite andb_false_iff, !N.leb_gt, N.eqb_neq. lia.
Qed.

Lemma ws2_bytes a b : JS.ws2 a b = true -> (128 <= JS.code a)%N /\ (128 <= JS.code b)%N.
Proof.
  unfold JS.ws2. rewrite andb_true_iff, !N.eqb_eq. lia.
Qed.

Lemma ws3_bytes a b c :
  JS.ws3 a b c = true -> (128 <= JS.code a)%N /\ (128 <= JS.code c)%N.
Proof.
  unfold JS.ws3.
  rewrite !orb_true_iff, !andb_true_iff, !orb_true_iff, !andb_true_iff, !N.eqb_eq, !N.leb_le. lia.
Qed.

Lemma strip_fixed p1 p2 p3 l :
  match l with
  | a :: _ => p1 a = false /\ (forall b, p2 a b = false)
              /\ (forall b c, p3 a b c = false)
  | [] => True
  end ->
  JS.strip p1 p2 p3 l = l.
Proof.
  destruct l as [|a [|b [|c r]]]; simpl; [done|..];
    intros (-> & H2 & H3); rewrite ?H2, ?H3; reflexivity.
Qed.

Lemma not_true_false b : (b = true -> False) -> b = false.
Proof. destruct b; [intros []; reflexivity | reflexivity]. Qed.

Lemma strip_hex_start a r :
  JS.lower_hex a = true -> JS.strip JS.ws1 JS.ws2 JS.ws3 (a :: r) = a :: r.
Proof.
  intros H. apply strip_fixed. split; [by apply ws1_hex|].
  apply lower_hex_ascii in H.
  split; intros; apply not_true_false.
  - intros [? ?]%ws2_bytes. lia.
  - intros [? ?]%ws3_bytes. lia.
Qed.

Lemma strip_hex_end a r :
  JS.lower_hex a = true ->
  JS.strip JS.ws1 (fun a b => JS.ws2 b a) (fun a b c => JS.ws3 c b a) (a :: r)
  = a :: r.
Proof.
  intros H. apply strip_fixed. split; [by apply ws1_hex|].
  apply lower_hex_ascii in H.
  split; intros; apply not_true_false.
  - intros [? ?]%ws2_bytes. lia.
  - intros [? ?]%ws3_bytes. lia.
Qed.

Lemma trim_hex key : JS.hex_test key = true -> JS.trim key = key.
Proof.
  unfold JS.hex_test, JS.trim, JS.trimStart, JS.trimEnd.
  destruct key as [|a r]; [discriminate|]. intros H.
  change (list_ascii_of_string (String a r)) with (a :: list_ascii_of_string r) in *.
  simpl in H. apply andb_true_iff in H as [Ha Hr].
  rewrite (strip_hex_start _ _ Ha), list_ascii_of_string_of_list_ascii.
  assert (forallb JS.lower_hex (rev (a :: list_ascii_of_string r)) = true) as Hrev.
  { apply forallb_forall. intros c Hc%in_rev.
    revert c Hc. apply forallb_forall. simpl. by rewrite Ha, Hr. }
  destruct (rev (a :: list_ascii_of_string r)) as [|z zs] eqn:E.
  - apply (f_equal (@length _)) in E. rewrite length_rev in E. discriminate.
  - simpl in Hrev. apply andb_true_iff in Hrev as [Hz _].
    rewrite (strip_hex_end _ _ Hz), <- E, rev_involutive.
    apply (string_of_list_ascii_of_string (String a r)).
Qed.

(** ** The URI callback handler *)

Lemma handleUri_reject env uri w :
  callback_accepted uri = false ->
  handleUri env uri w =
    (tt, set_trace (fun t => t ++ [ShowErrorMessage (rejection uri)]) w).
Proof.
  unfold callback_accepted, rejection, handleUri.
  destruct (String.eqb_spec (path uri) "/callback") as [Hp|Hp].
  - rewrite (bool_decide_eq_true_2 _ Hp). simpl.
    destruct (JS.get "apikey" _) as [[|a r]|]; simpl; try reflexivity.
    intros ->. reflexivity.
  - rewrite (bool_decide_eq_false_2 _ Hp). reflexivity.
Qed.

Lemma handleUri_accept env uri w key :
  path uri = "/callback" ->
  JS.get "apikey" (JS.URLSearchParams (query uri)) = Some key ->
  JS.hex_test key = true ->
  handleUri env uri w =
    let w1 := set_trace (fun t => t ++ [SecretsStore "mockman.apiKey" key]) w in
    match secrets_store env "mockman.apiKey" key with
    | Rejected error =>
        (tt, set_trace
               (fun t => t ++ [ShowErrorMessage
                                 ("⚠️ Failed to save API Key: " +:+ message error)])
               w1)
    | Resolved _ =>
        let w2 :=
          set_trace (fun t => t ++ [ConfigurationUpdate "mockman" "apiKey" key])
            (set_apiKey (Some key)
               (set_secrets <["mockman.apiKey" := key]> w1)) in
        match configuration_update env "mockman" "apiKey" key with
        | Rejected error =>
            (tt, set_trace
                   (fun t => t ++ [ShowErrorMessage
                                     ("⚠️ Failed to save API Key: "
                                        +:+ message error)])
                   w2)
        | Resolved _ =>
            refresh env
              (set_trace
                 (fun t => t ++ [ShowInformationMessage
                                   "✅ API Key saved successfully!"])
                 (set_configuration <["mockman.apiKey" := key]> w2))
        end
    end.
Proof.
  intros Hp Hget Hhex. unfold handleUri.
  rewrite (proj2 (String.eqb_eq _ _) Hp), Hget.
  destruct key as [|a r]; [discriminate|].
  unfold present. change (JS.truthy (Some (String a r))) with true. cbv iota.
  replace (0 <? Z.of_nat (String.length (String a r)))%Z with true
    by (symmetry; apply Z.ltb_lt; simpl; lia).
  rewrite Hhex, (trim_hex _ Hhex). simpl andb. cbv iota.
  unfold mbind, M_bind, emit, modify. simpl.
  destruct (secrets_store env _ _); [|reflexivity].
  destruct (configuration_update env _ _ _); reflexivity.
Qed.

Lemma refresh_frame env w :
  secrets (exec (refresh env) w) = secrets w
  /\ configuration (exec (refresh env) w) = configuration w
  /\ (JS.truthy (apiKey w) = true -> apiKey (exec (refresh env) w) = apiKey w)
  /\ trace (exec (refresh env) w) = trace w ++ emitted (refresh env) w.
Proof.
  unfold emitted, exec. rewrite refresh_run, getApiKey_run.
  destruct (JS.truthy (apiKey w)) eqn:Hc; simpl;
    match goal with
    | |- context [present ?k] => destruct (present k); simpl
    end;
    try match goal with
      | |- context [get_collections ?e ?u] => destruct (get_collections e u); simpl
      end;
    rewrite <- ?(assoc_L (++)), drop_app_length; done.
Qed.

Lemma refresh_emits env w e :
  e ∈ emitted (refresh env) w ->
  is_fire e || is_request e || is_error_report e = true.
Proof.
  pose proof (refresh_cases env w) as H.
  destruct (credential w); simpl in H;
    try destruct (get_collections env _);
    destruct H as [_ ->]; intros He;
    repeat (apply elem_of_cons in He as [->|He]; [reflexivity|]);
    by apply elem_of_nil in He.
Qed.

(** The effects of an accepted callback, in order. *)
Lemma handleUri_accept_emitted env uri w key :
  path uri = "/callback" ->
  JS.get "apikey" (JS.URLSearchParams (query uri)) = Some key ->
  JS.hex_test key = true ->
  exists w3,
    emitted (handleUri env uri) w =
      SecretsStore "mockman.apiKey" key ::
      match secrets_store env "mockman.apiKey" key with
      | Rejected error =>
          [ShowErrorMessage ("⚠️ Failed to save API Key: " +:+ message error)]
      | Resolved _ =>
          ConfigurationUpdate "mockman" "apiKey" key ::
          match configuration_update env "mockman" "apiKey" key with
          | Rejected error =>
              [ShowErrorMessage
                 ("⚠️ Failed to save API Key: " +:+ message error)]
          | Resolved _ =>
              ShowInformationMessage "✅ API Key saved successfully!"
              :: emitted (refresh env) w3
          end
      end.
Proof.
  intros Hp Hget Hhex. unfold emitted at 1. unfold exec.
  rewrite (handleUri_accept env uri w key Hp Hget Hhex). cbv zeta.
  destruct (secrets_store env _ _).
  - destruct (configuration_update env _ _ _).
    + match goal with
      | |- context [refresh env ?w3] =>
          exists w3; destruct (refresh_frame env w3) as (_ & _ & _ & Ht)
      end.
      unfold exec in Ht. rewrite Ht. simpl.
      rewrite <- !(assoc_L (++)). rewrite drop_app_length. reflexivity.
    + exists w. simpl. rewrite <- !(assoc_L (++)). by rewrite drop_app_length.
  - exists w. simpl. rewrite <- !(assoc_L (++)). by rewrite drop_app_length.
Qed.

Lemma callback_accepted_true uri :
  callback_accepted uri = true <->
  path uri = "/callback"
  /\ exists key, JS.get "apikey" (JS.URLSearchParams (query uri)) = Some key
                 /\ lowercase_hex key.
Proof.
  unfold callback_accepted. rewrite andb_true_iff, bool_decide_eq_true.
  split; intros [Hp H]; (split; [exact Hp|]).
  - destruct (JS.get "apikey" _) as [key|]; [|discriminate].
    apply andb_true_iff in H as [_ H]. exists key.
    split; [reflexivity | by apply hex_test_spec].
  - destruct H as (key & -> & H). apply andb_true_iff. split.
    + apply bool_decide_eq_true. apply H.
    + by apply hex_test_spec.
Qed.

(** C1. A callback is turned down unless its path is the callback path
    and its [apikey] parameter is a non-empty lower-case hexadecimal
    string: the handler then shows one error and changes nothing else in
    the world.  So every other effect (a store, a configuration update,
    the success notice, a request, a change notification) and every change
    of the stored or cached key happens for accepted callbacks only. *)
Theorem handleUri_gate env uri w :
  (callback_accepted uri = false ->
     exec (handleUri env uri) w =
       set_trace (fun t => t ++ [ShowErrorMessage (rejection uri)]) w)
  /\ (forall e, e ∈ emitted (handleUri env uri) w ->
                is_error_report e = false -> callback_accepted uri = true)
  /\ (secrets (exec (handleUri env uri) w) <> secrets w
      \/ configuration (exec (handleUri env uri) w) <> configuration w
      \/ apiKey (exec (handleUri env uri) w) <> apiKey w
      \/ collections (exec (handleUri env uri) w) <> collections w ->
      callback_accepted uri = true).
Proof.
  assert (callback_accepted uri = false ->
          exec (handleUri env uri) w =
            set_trace (fun t => t ++ [ShowErrorMessage (rejection uri)]) w) as Hrej.
  { intros H. unfold exec. by rewrite handleUri_reject. }
  split; [exact Hrej|].
  destruct (callback_accepted uri) eqn:Hacc; [done|].
  specialize (Hrej eq_refl). split.
  - intros e He Hne. unfold emitted in He. rewrite Hrej in He. simpl in He.
    rewrite drop_app_length in He.
    apply list_elem_of_singleton in He as ->. discriminate.
  - rewrite Hrej. simpl. intros [H|[H|[H|H]]]; by destruct H.
Qed.

Lemma handleUri_gate_witness :
  callback_accepted upper_callback = false
  /\ exec (handleUri online upper_callback) logged_in =
       set_trace (fun t => t ++ [ShowErrorMessage "⚠️ Invalid API Key format."])
         logged_in.
Proof.
  split; [reflexivity|].
  apply (proj1 (handleUri_gate online upper_callback logged_in)).
  reflexivity.
Defined.

(** The malformed keys of the specification and a wrong path. *)
Example handleUri_malformed :
  emitted (handleUri online upper_callback) logged_out
    = [ShowErrorMessage "⚠️ Invalid API Key format."]
  /\ emitted (handleUri online empty_callback) logged_out
     = [ShowErrorMessage "⚠️ Invalid API Key format."]
  /\ emitted (handleUri online letter_g_callback) logged_out
     = [ShowErrorMessage "⚠️ Invalid API Key format."]
  /\ emitted (handleUri online other_path) logged_out
     = [ShowErrorMessage "⚠️ Invalid redirect path."].
Proof. repeat split; reflexivity. Qed.

Example handleUri_well_formed :
  emitted (handleUri online good_callback) logged_out
    = [SecretsStore "mockman.apiKey" "0a1b2c3d4e5f";
       ConfigurationUpdate "mockman" "apiKey" "0a1b2c3d4e5f";
       ShowInformationMessage "✅ API Key saved successfully!";
       AxiosGet "https://api.mockman.online/collections/0a1b2c3d4e5f" 5000;
       Fire]
  /\ collections (exec (handleUri online good_callback) logged_out)
     = [users; orders].
Proof. split; reflexivity. Qed.

(** C9. A key accepted by the callback handler has no white space at
    either end, so trimming leaves it as it is; the value handed to secret
    storage, the value handed to the configuration and, once the store has
    succeeded, the stored and the cached key are the [apikey] parameter
    itself. *)
Theorem accepted_key_verbatim env uri w key :
  path uri = "/callback" ->
  JS.get "apikey" (JS.URLSearchParams (query uri)) = Some key ->
  JS.hex_test key = true ->
  JS.trim key = key
  /\ (forall k v, SecretsStore k v ∈ emitted (handleUri env uri) w -> v = key)
  /\ (forall s k v,
        ConfigurationUpdate s k v ∈ emitted (handleUri env uri) w -> v = key)
  /\ (forall u, secrets_store env "mockman.apiKey" key = Resolved u ->
        secrets (exec (handleUri env uri) w) !! "mockman.apiKey" = Some key
        /\ apiKey (exec (handleUri env uri) w) = Some key
        /\ forall u', configuration_update env "mockman" "apiKey" key = Resolved u' ->
             configuration (exec (handleUri env uri) w) !! "mockman.apiKey"
             = Some key).
Proof.
  intros Hp Hget Hhex.
  assert (JS.truthy (Some key) = true) as Hkey
    by (destruct key; [discriminate | reflexivity]).
  split; [by apply trim_hex|].
  destruct (handleUri_accept_emitted env uri w key Hp Hget Hhex) as [w3 Hem].
  assert (forall e, e ∈ emitted (handleUri env uri) w ->
            e = SecretsStore "mockman.apiKey" key
            \/ e = ConfigurationUpdate "mockman" "apiKey" key
            \/ (forall k v, e <> SecretsStore k v)
               /\ (forall s k v, e <> ConfigurationUpdate s k v)) as Hev.
  { intros e. rewrite Hem. intros [->|He]%elem_of_cons; [by left|].
    destruct (secrets_store env _ _).
    - apply elem_of_cons in He as [->|He]; [by right; left|].
      destruct (configuration_update env _ _ _).
      + apply elem_of_cons in He as [->|He]; [by right; right|].
        apply refresh_emits in He. right; right.
        by split; intros; intros ->.
      + apply list_elem_of_singleton in He as ->. by right; right.
    - apply list_elem_of_singleton in He as ->. by right; right. }
  split; [|split].
  - intros k v [H|[H|[H _]]]%Hev; [congruence | discriminate | by destruct (H k v)].
  - intros s k v [H|[H|[_ H]]]%Hev; [discriminate | congruence | by destruct (H s k v)].
  - intros u Hstore. unfold exec.
    rewrite (handleUri_accept env uri w key Hp Hget Hhex). cbv zeta.
    rewrite Hstore.
    destruct (configuration_update env _ _ _) as [u'|err] eqn:Hupd.
    + match goal with
      | |- context [refresh env ?w3] =>
          destruct (refresh_frame env w3) as (Hs & Hc & Ha & _)
      end.
      unfold exec in Hs, Hc, Ha. rewrite Hs, Hc, (Ha Hkey). simpl.
      rewrite !lookup_insert_eq. done.
    + simpl. rewrite lookup_insert_eq. done.
Qed.

Lemma accepted_key_verbatim_witness :
  JS.trim "0a1b2c3d4e5f" = "0a1b2c3d4e5f"
  /\ secrets (exec (handleUri online good_callback) logged_out)
       !! "mockman.apiKey" = Some "0a1b2c3d4e5f"
  /\ apiKey (exec (handleUri online good_callback) logged_out)
     = Some "0a1b2c3d4e5f"
  /\ configuration (exec (handleUri online good_callback) logged_out)
       !! "mockman.apiKey" = Some "0a1b2c3d4e5f".
Proof.
  pose proof (accepted_key_verbatim online good_callback logged_out
                "0a1b2c3d4e5f" eq_refl eq_refl eq_refl)
    as (Htrim & _ & _ & Hstate).
  destruct (Hstate tt eq_refl) as (Hs & Ha & Hc).
  split; [exact Htrim|]. split; [exact Hs|]. split; [exact Ha|].
  exact (Hc tt eq_refl).
Defined.

(** ** The endpoints panel *)

Lemma updateContent_run collection w :
  updateContent collection w =
    let '(key, w1) := getApiKey w in
    match present key, endpointsPanel w with
    | Some key, Some _ =>
        (tt, set_trace
               (fun t => t ++ [PostMessage "mockmanEndpoints"
                                 (msg_endpoints collection key)]) w1)
    | _, _ => (tt, w1)
    end.
Proof.
  unfold updateContent, mbind, M_bind, mret, M_ret, gets, emit, modify.
  pose proof (getApiKey_endpointsPanel w) as Hp.
  destruct (getApiKey w) as [key w1]. simpl in Hp. rewrite Hp.
  destruct (present key), (endpointsPanel w); reflexivity.
Qed.

(** C10. Without a usable key, or without an open panel, [updateContent]
    posts nothing; and whatever it posts is the [endpoints] message for
    the key that [getApiKey] returned, which is then a non-empty string. *)
Theorem updateContent_guard collection w :
  (credential w = None \/ endpointsPanel w = None ->
     emitted (updateContent collection) w = [])
  /\ (forall e, e ∈ emitted (updateContent collection) w ->
        exists key, credential w = Some key /\ key <> ""
                    /\ e = PostMessage "mockmanEndpoints"
                             (msg_endpoints collection key)).
Proof.
  unfold credential, emitted, eval, exec. rewrite updateContent_run.
  pose proof (getApiKey_trace w) as Ht.
  destruct (getApiKey w) as [key w1]. simpl in Ht |- *.
  destruct (present key) as [k|] eqn:Hk, (endpointsPanel w) as [p|];
    simpl; rewrite Ht, ?drop_app_length, ?drop_all; split;
    try (intros _; reflexivity); try (intros e He; by apply elem_of_nil in He).
  - intros [?|?]; discriminate.
  - intros e ->%list_elem_of_singleton. exists k.
    split; [reflexivity|]. split; [|reflexivity].
    apply present_Some in Hk as [_ Hk]. by destruct k.
Qed.

Lemma updateContent_guard_witness :
  credential logged_out = None
  /\ endpointsPanel logged_out <> None
  /\ emitted (updateContent users) logged_out = [].
Proof.
  split; [reflexivity|]. split; [discriminate|].
  apply (proj1 (updateContent_guard users logged_out)).
  left. reflexivity.
Defined.

(** ** The template browser *)

Lemma reported_present error :
  match present (response_message error) with
  | Some m => m
  | None => message error
  end = reported error.
Proof.
  unfold reported, present.
  destruct (response_message error) as [[|a r]|]; reflexivity.
Qed.

Lemma getApiKey_templatesPanel w :
  templatesPanel (snd (getApiKey w)) = templatesPanel w.
Proof. rewrite getApiKey_run. destruct (JS.truthy (apiKey w)); reflexivity. Qed.

Lemma postMessage_run env m w :
  TemplateBrowserWebview_postMessage env m w =
    (post_outcome env w, set_trace (fun t => t ++ to_page w m) w).
Proof.
  unfold TemplateBrowserWebview_postMessage, post_outcome, to_page, mbind,
    M_bind, gets, emit, modify.
  destruct (templatesPanel w); simpl; [reflexivity|].
  unfold mret, M_ret, set_trace. destruct w; simpl. by rewrite app_nil_r.
Qed.

Lemma showLoginError_run env w :
  showLoginError env w =
    (post_outcome env w, set_trace (fun t => t ++ login_notice w) w).
Proof.
  unfold showLoginError, login_notice, mbind, M_bind, emit, modify.
  rewrite postMessage_run. unfold post_outcome, to_page, set_trace. simpl.
  by rewrite <- (assoc_L (++)).
Qed.

Lemma handleError_run env error action w :
  handleError env error action w =
    (post_outcome env w,
     set_trace (fun t => t ++ failure_report w action error) w).
Proof.
  unfold handleError, failure_report, mbind, M_bind, emit, modify.
  rewrite reported_present, postMessage_run.
  unfold post_outcome, to_page, set_trace. simpl.
  by rewrite <- (assoc_L (++)).
Qed.

Ltac start_handler w :=
  unfold credential, emitted, eval, exec,
    TemplateBrowserWebview_onDidReceiveMessage, mbind, M_bind;
  let Ht := fresh "Ht" in
  let Hp := fresh "Hp" in
  pose proof (getApiKey_trace w) as Ht;
  pose proof (getApiKey_templatesPanel w) as Hp;
  destruct (getApiKey w) as [?key ?w1]; simpl in Ht, Hp |- *.

(** C8. Without a usable key, each of the three operations of the
    template browser shows the log-in notice and sends no request.  With a
    key, a request that fails is sent once and reported once, with the
    message of the server when the error carries a non-empty one and with
    the text of the transport error otherwise.  The notice and the report
    are passed on to the page when its panel is open; when the panel has
    been disposed, the user is shown the message and nothing is posted. *)
Theorem template_browser_failures env w :
  (credential w = None ->
     forall m, is_operation m = true ->
       emitted (TemplateBrowserWebview_onDidReceiveMessage env m) w
       = login_notice w)
  /\ (forall key error,
        credential w = Some key ->
        (forall url,
           url = "https://api.mockman.online/templates/" +:+ key ->
           get_templates env url = Rejected error ->
           emitted (TemplateBrowserWebview_onDidReceiveMessage env
                      cmd_getTemplates) w
           = AxiosGet url 5000 :: failure_report w "fetching templates" error)
        /\ (forall category url,
              url = "https://api.mockman.online/templates/" +:+ key
                      +:+ "/" +:+ category +:+ "/preview" ->
              get_preview env url = Rejected error ->
              emitted (TemplateBrowserWebview_onDidReceiveMessage env
                         (cmd_getPreview category)) w
              = AxiosGet url 5000 :: failure_report w "fetching preview" error)
        /\ (forall category count url,
              url = "https://api.mockman.online/templates/" +:+ key
                      +:+ "/create" ->
              post_create env url category count = Rejected error ->
              emitted (TemplateBrowserWebview_onDidReceiveMessage env
                         (cmd_createCollection category count)) w
              = AxiosPost url category count 10000
                  :: failure_report w "creating collection" error)).
Proof.
  split.
  - intros Hnone m Hm. revert Hnone. start_handler w. intros ->.
    destruct m; try discriminate; rewrite showLoginError_run; simpl;
      unfold login_notice, to_page; rewrite Ht, Hp; apply drop_app_length.
  - intros key error. start_handler w. intros ->.
    split; [|split]; intros; subst url; cbv zeta;
      unfold try_catch, and_then, mbind, M_bind, mret, M_ret, emit, modify;
      match goal with
      | H : _ = Rejected _ |- _ => rewrite H
      end;
      rewrite handleError_run; simpl;
      unfold failure_report, to_page; simpl;
      rewrite Ht, Hp, <- !(assoc_L (++)); apply drop_app_length.
Qed.

Lemma template_browser_failures_witness :
  emitted (TemplateBrowserWebview_onDidReceiveMessage offline
             (cmd_createCollection "person" 10)) (browsing logged_out)
    = [ShowErrorMessage "⚠️ Please login first (MockMan: Login).";
       PostMessage "mockmanTemplateBrowser"
         (msg_error "Please login first (MockMan: Login).")]
  /\ emitted (TemplateBrowserWebview_onDidReceiveMessage offline
                (cmd_createCollection "person" 10)) (browsing logged_in)
     = [AxiosPost "https://api.mockman.online/templates/abc123/create"
          "person" 10 10000;
        ShowErrorMessage "Error creating collection: Unknown template category";
        PostMessage "mockmanTemplateBrowser"
          (msg_error "Unknown template category")]
  /\ emitted (TemplateBrowserWebview_onDidReceiveMessage offline
                cmd_getTemplates) (browsing logged_in)
     = [AxiosGet "https://api.mockman.online/templates/abc123" 5000;
        ShowErrorMessage "Error fetching templates: timeout of 5000ms exceeded";
        PostMessage "mockmanTemplateBrowser"
          (msg_error "timeout of 5000ms exceeded")]
  /\ emitted (TemplateBrowserWebview_onDidReceiveMessage offline
                cmd_getTemplates) logged_in
     = [AxiosGet "https://api.mockman.online/templates/abc123" 5000;
        ShowErrorMessage "Error fetching templates: timeout of 5000ms exceeded"].
Proof.
  split; [|split; [|split]].
  - apply (proj1 (template_browser_failures offline (browsing logged_out)));
      reflexivity.
  - apply (proj2 (proj2 (proj2 (template_browser_failures offline
                                  (browsing logged_in))
                           "abc123" server_error eq_refl)) "person" 10);
      reflexivity.
  - apply (proj1 (proj2 (template_browser_failures offline (browsing logged_in))
                    "abc123" timeout_error eq_refl));
      reflexivity.
  - apply (proj1 (proj2 (template_browser_failures offline logged_in)
                    "abc123" timeout_error eq_refl));
      reflexivity.
Defined.

(** C7. When no category is selected, or the record count read from the
    form is not a number, is below 1 or is above the bound of the variant
    (500 or 1000), a click on the create button leaves the button as it is
    and posts the range error instead of a [createCollection] message; the
    host answers that message by showing the error, and sends no request. *)
Theorem create_out_of_range_rejected env v category value btn w :
  category = ""
  \/ match JS.parseInt value with
     | Some count => count < 1 \/ TemplateScript.maxRows v < count
     | None => True
     end ->
  TemplateScript.createBtn_onclick v category value btn
    = (btn, cmd_showError (TemplateScript.rangeError v))
  /\ emitted (TemplateBrowserWebview_onDidReceiveMessage env
               (snd (TemplateScript.createBtn_onclick v category value btn))) w
     = [ShowErrorMessage (TemplateScript.rangeError v)]
  /\ count is_request
       (emitted (TemplateBrowserWebview_onDidReceiveMessage env
                   (snd (TemplateScript.createBtn_onclick v category value btn))) w)
     = 0%nat.
Proof.
  intros Hbad.
  assert (TemplateScript.createBtn_onclick v category value btn
          = (btn, cmd_showError (TemplateScript.rangeError v))) as Hclick.
  { unfold TemplateScript.createBtn_onclick.
    destruct (JS.parseInt value) as [n|]; [|reflexivity].
    destruct Hbad as [->|[Hlow|Hhigh]]; [reflexivity| |].
    - replace (1 <=? n)%Z with false by (symmetry; apply Z.leb_gt; lia).
      by rewrite andb_false_r.
    - replace (n <=? TemplateScript.maxRows v)%Z with false
        by (symmetry; apply Z.leb_gt; lia).
      by rewrite andb_false_r. }
  rewrite Hclick. split; [reflexivity|]. simpl snd.
  assert (emitted (TemplateBrowserWebview_onDidReceiveMessage env
                     (cmd_showError (TemplateScript.rangeError v))) w
          = [ShowErrorMessage (TemplateScript.rangeError v)]) as ->.
  { start_handler w. rewrite Ht. apply drop_app_length. }
  split; reflexivity.
Qed.

Lemma create_out_of_range_rejected_witness :
  JS.parseInt "0" = Some 0
  /\ TemplateScript.createBtn_onclick TemplateScript.themed "person" "0"
       idle_button
     = (idle_button,
        cmd_showError
          "Please select a template and enter a valid row count (1-500).")
  /\ emitted (TemplateBrowserWebview_onDidReceiveMessage online
                (snd (TemplateScript.createBtn_onclick TemplateScript.themed
                        "person" "0" idle_button))) logged_in
     = [ShowErrorMessage
          "Please select a template and enter a valid row count (1-500)."].
Proof.
  split; [reflexivity|].
  pose proof (create_out_of_range_rejected online TemplateScript.themed
                "person" "0" idle_button logged_in) as H.
  destruct H as (H1 & H2 & _).
  - right. simpl. lia.
  - split; [exact H1 | exact H2].
Defined.

(** The bounds themselves are accepted, and the next count is not. *)
Example create_at_the_bounds :
  snd (TemplateScript.createBtn_onclick TemplateScript.themed "person" "1"
         idle_button) = cmd_createCollection "person" 1
  /\ snd (TemplateScript.createBtn_onclick TemplateScript.themed "person" "500"
            idle_button) = cmd_createCollection "person" 500
  /\ snd (TemplateScript.createBtn_onclick TemplateScript.themed "person" "501"
            idle_button)
     = cmd_showError (TemplateScript.rangeError TemplateScript.themed)
  /\ snd (TemplateScript.createBtn_onclick TemplateScript.tailwind "person"
            "1000" idle_button) = cmd_createCollection "person" 1000
  /\ snd (TemplateScript.createBtn_onclick TemplateScript.tailwind "person"
            "1001" idle_button)
     = cmd_showError (TemplateScript.rangeError TemplateScript.tailwind)
  /\ snd (TemplateScript.createBtn_onclick TemplateScript.themed "" "10"
            idle_button)
     = cmd_showError (TemplateScript.rangeError TemplateScript.themed).
Proof. repeat split; reflexivity. Qed.

(** ** The endpoint catalog *)

(** C2. The catalog is a function of the base host, the key and the
    collection alone.  It lists, in this order, GET all collections, GET by
    name and GET by id, then POST, GET all, GET by id, PUT by id, DELETE by
    id and DELETE all on the documents; each full URL is the base host
    followed by the path, the path is made of the key and the name or id
    of the collection, and the URLs of one document end in the placeholder
    [:documentId] as it stands.  The listener that renders the catalog
    posts nothing to the host and does not look at the previous content. *)
Theorem catalog_derivation base key c :
  map EndpointsScript.method (EndpointsScript.catalog base key c)
    = ["GET"; "GET"; "GET"; "POST"; "GET"; "GET"; "PUT"; "DELETE"; "DELETE"]
  /\ map EndpointsScript.path (EndpointsScript.catalog base key c)
     = [ "/collections/" +:+ key;
         "/collections/" +:+ key +:+ "/by-name/" +:+ collectionName c;
         "/collections/" +:+ key +:+ "/" +:+ _id c;
         "/collections/" +:+ key +:+ "/" +:+ _id c +:+ "/documents";
         "/collections/" +:+ key +:+ "/" +:+ _id c +:+ "/documents";
         "/collections/" +:+ key +:+ "/" +:+ _id c +:+ "/documents/:documentId";
         "/collections/" +:+ key +:+ "/" +:+ _id c +:+ "/documents/:documentId";
         "/collections/" +:+ key +:+ "/" +:+ _id c +:+ "/documents/:documentId";
         "/collections/" +:+ key +:+ "/" +:+ _id c +:+ "/documents" ]
  /\ map EndpointsScript.fullUrl (EndpointsScript.catalog base key c)
     = map (fun e => base +:+ EndpointsScript.path e)
         (EndpointsScript.catalog base key c)
  /\ map EndpointsScript.description (EndpointsScript.catalog base key c)
     = [ "Get all collections"; "Get collection by name";
         "Get collection by ID"; "Add documents"; "Get all documents";
         "Get document by ID"; "Update document by ID";
         "Delete document by ID"; "Delete all documents" ]
  /\ (EndpointsScript.fullUrl <$>
        EndpointsScript.catalog base "abc123"
          {| _id := "c1"; collectionName := "Users"; fields := fields c |} !! 2%nat)
     = Some (base +:+ "/collections/abc123/c1")
  /\ (forall content content',
        EndpointsScript.onmessage (msg_endpoints c key) content
        = EndpointsScript.onmessage (msg_endpoints c key) content'
        /\ snd (EndpointsScript.onmessage (msg_endpoints c key) content) = []
        /\ fst (EndpointsScript.onmessage (msg_endpoints c key) content)
           = EndpointsScript.Sections
               [ {| EndpointsScript.section_title := "Collection Level";
                    EndpointsScript.section_endpoints :=
                      take 3 (EndpointsScript.catalog
                                EndpointsScript.baseUrl key c) |};
                 {| EndpointsScript.section_title := "Document Level";
                    EndpointsScript.section_endpoints :=
                      drop 3 (EndpointsScript.catalog
                                EndpointsScript.baseUrl key c) |} ]).
Proof.
  repeat split; reflexivity.
Qed.

(** ** The copy of the extension without webviews *)

(** Unlike the provider above, this copy of [refresh] shows the log-in
    notice when the configuration holds no key. *)
Remark legacy_refresh_without_key env w :
  JS.truthy (configuration w !! "mockman.apiKey") = false ->
  exec (Legacy.refresh env) w =
    set_trace
      (fun t => t ++ [ShowErrorMessage "⚠️ Please login first (MockMan: Login).";
                      Fire])
      (set_collections [] w).
Proof.
  intros H. unfold exec, Legacy.refresh, mbind, M_bind, gets, emit, modify.
  simpl. unfold present. rewrite H. simpl. unfold set_trace. simpl.
  by rewrite <- (assoc_L (++)).
Qed.

(** Its root entries carry no command. *)
Remark legacy_root_entries w :
  map Legacy.item_command (Legacy.getChildren w None)
  = map (fun _ => None) (collections w).
Proof.
  unfold Legacy.getChildren. induction (collections w) as [|c cs IH]; simpl;
    [reflexivity | by rewrite IH].
Qed.

(** * Further properties of the extension *)

(** ** A small program logic for the host monad *)

Lemma hoare_ret {A} (P : A -> World -> Prop) (a : A) :
  hoare (P a) (mret a) P.
Proof. intros w H. exact H. Qed.

Lemma hoare_bind {A B} (P : World -> Prop) (Q : A -> World -> Prop)
    (R : B -> World -> Prop) (m : M A) (f : A -> M B) :
  hoare P m Q -> (forall a, hoare (Q a) (f a) R) -> hoare P (m ≫= f) R.
Proof.
  intros Hm Hf w Hw. unfold mbind, M_bind.
  specialize (Hm w Hw). destruct (m w) as [a w1]. apply (Hf a), Hm.
Qed.

Lemma hoare_weaken {A} (P P' : World -> Prop) (Q Q' : A -> World -> Prop) m :
  hoare P' m Q' -> (forall w, P w -> P' w) ->
  (forall a w, Q' a w -> Q a w) -> hoare P m Q.
Proof. intros H HP HQ w Hw. apply HQ, H, HP, Hw. Qed.

Lemma hoare_pure {A} (F : Prop) (P : World -> Prop) (Q : A -> World -> Prop) m :
  (F -> hoare P m Q) -> hoare (fun w => P w /\ F) m Q.
Proof. intros H w [Hw HF]. by apply H. Qed.

Lemma keeps_bind {A B} (I : World -> Prop) (m : M A) (f : A -> M B) :
  keeps I m -> (forall a, keeps I (f a)) -> keeps I (m ≫= f).
Proof. intros Hm Hf. eapply hoare_bind; [exact Hm | exact Hf]. Qed.

Lemma keeps_ret {A} (I : World -> Prop) (a : A) : keeps I (mret a).
Proof. intros w H. exact H. Qed.

Lemma keeps_gets {A} (I : World -> Prop) (f : World -> A) : keeps I (gets f).
Proof. intros w H. exact H. Qed.

Lemma keeps_modify (I : World -> Prop) (f : World -> World) :
  (forall w, I w -> I (f w)) -> keeps I (modify f).
Proof. intros Hf w H. by apply Hf. Qed.

Lemma keeps_emit (I : World -> Prop) (e : event) :
  (forall w, I w -> I (set_trace (fun t => t ++ [e]) w)) -> keeps I (emit e).
Proof. intros Hf. by apply keeps_modify. Qed.

Lemma keeps_exec {A} (I : World -> Prop) (m : M A) :
  (forall w, I w -> I (exec m w)) -> keeps I m.
Proof. intros H w Hw. by apply H. Qed.

Lemma keeps_and_then {A B} (I : World -> Prop) (m : M (Outcome A))
    (f : A -> M (Outcome B)) :
  keeps I m -> (forall a, keeps I (f a)) -> keeps I (and_then m f).
Proof.
  intros Hm Hf. unfold and_then. apply keeps_bind; [exact Hm|].
  intros [a|error]; [apply Hf | apply keeps_ret].
Qed.

Lemma keeps_try_catch {A} (I : World -> Prop) (body : M (Outcome A))
    (handler : Error -> M (Outcome A)) :
  keeps I body -> (forall error, keeps I (handler error)) ->
  keeps I (try_catch body handler).
Proof.
  intros Hm Hf. unfold try_catch. apply keeps_bind; [exact Hm|].
  intros [a|error]; [apply keeps_ret | apply Hf].
Qed.

Lemma keeps_postMessage (I : World -> Prop) env m :
  (forall e, keeps I (emit e)) ->
  keeps I (TemplateBrowserWebview_postMessage env m).
Proof.
  intros Hemit. unfold TemplateBrowserWebview_postMessage.
  apply keeps_bind; [apply keeps_gets|]. intros [p|].
  - apply keeps_bind; [apply Hemit | intros; apply keeps_ret].
  - apply keeps_ret.
Qed.

(** Breaks a computation into its primitive steps. *)
Ltac keeps_steps :=
  repeat match goal with
    | |- keeps _ (mret _) => apply keeps_ret
    | |- keeps _ (gets _) => apply keeps_gets
    | |- keeps _ (mbind _ _) => apply keeps_bind; [|intros ?]
    | |- keeps _ (and_then _ _) => apply keeps_and_then; [|intros ?]
    | |- keeps _ (try_catch _ _) => apply keeps_try_catch; [|intros ?]
    | |- keeps _ (match ?x with _ => _ end) => destruct x eqn:?
    | |- keeps _ (if ?x then _ else _) => destruct x eqn:?
    end.

(** [refresh] is [getApiKey] followed by a change of the snapshot and of
    the trace only. *)
Lemma refresh_shape env w :
  snd (refresh env w) =
    set_trace (fun t => t ++ emitted (refresh env) w)
      (set_collections (collections (exec (refresh env) w))
         (snd (getApiKey w))).
Proof.
  unfold emitted, exec. rewrite refresh_run.
  pose proof (getApiKey_trace w) as Ht.
  destruct (getApiKey w) as [key w1]. simpl in Ht |- *.
  destruct w1 as [s c a cs ep tp t]. simpl in Ht. subst t.
  destruct (present key) as [k|]; simpl.
  - destruct (get_collections env _); unfold set_trace, set_collections; simpl;
      rewrite <- ?(assoc_L (++)), drop_app_length; reflexivity.
  - unfold set_trace, set_collections; simpl.
    rewrite drop_app_length. reflexivity.
Qed.

(** An invariant that the primitive steps keep is kept by every
    operation. *)
Lemma run_keeps (I : World -> Prop) :
  (forall e, keeps I (emit e)) ->
  keeps I getApiKey ->
  (forall env, keeps I (refresh env)) ->
  (forall env uri, keeps I (handleUri env uri)) ->
  (forall c, keeps I (EndpointsWebview_show c)) ->
  keeps I TemplateBrowserWebview_show ->
  keeps I EndpointsWebview_onDidDispose ->
  keeps I TemplateBrowserWebview_onDidDispose ->
  forall env op, keeps I (run env op).
Proof.
  intros Hemit Hkey Hrefresh Huri Hshow Htshow Hdisp Htdisp env.
  assert (keeps I (login_command env)) as Hlogin.
  { unfold login_command. keeps_steps; apply Hemit. }
  assert (keeps I (refresh_command env)) as Hrc.
  { unfold refresh_command. keeps_steps; [apply Hrefresh | apply Hemit]. }
  assert (forall name arg, keeps I (executeCommand env name arg)) as Hexec.
  { intros name arg.
    unfold executeCommand, templates_command, showEndpoints_command.
    keeps_steps; auto. }
  assert (forall m, keeps I (TemplateBrowserWebview_postMessage env m))
    as Hpost.
  { intros. by apply keeps_postMessage. }
  assert (forall error action, keeps I (handleError env error action)) as Herr.
  { intros. unfold handleError. keeps_steps; [apply Hemit | apply Hpost]. }
  assert (keeps I (showLoginError env)) as Hle.
  { unfold showLoginError. keeps_steps; [apply Hemit | apply Hpost]. }
  intros [|uri|name arg|m| |m|]; simpl.
  - apply Hrefresh.
  - apply Huri.
  - apply Hexec.
  - unfold EndpointsWebview_onDidReceiveMessage. keeps_steps; apply Hemit.
  - apply Hdisp.
  - apply keeps_bind; [|intros; apply keeps_ret].
    unfold TemplateBrowserWebview_onDidReceiveMessage.
    apply keeps_bind; [exact Hkey | intros key].
    destruct m; keeps_steps; auto.
  - apply Htdisp.
Qed.

Lemma reachable_invariant (I : World -> Prop) stored settings :
  I (start_world stored settings) ->
  (forall env op, keeps I (run env op)) ->
  forall w, reachable stored settings w -> I w.
Proof.
  intros Hstart Hstep w Hw. induction Hw as [|w env op _ IH].
  - exact Hstart.
  - apply (Hstep env op w IH).
Qed.

(** ** The cached key *)

Lemma cache_consistent_refresh env : keeps cache_consistent (refresh env).
Proof.
  intros w H. rewrite refresh_shape, getApiKey_run.
  unfold cache_consistent in *.
  destruct (JS.truthy (apiKey w)); simpl; auto.
Qed.

Lemma cache_consistent_handleUri env uri :
  keeps cache_consistent (handleUri env uri).
Proof.
  intros w H. destruct (callback_accepted uri) eqn:Hacc.
  - apply callback_accepted_true in Hacc as (Hp & key & Hget & Hhex).
    apply hex_test_spec in Hhex.
    rewrite (handleUri_accept env uri w key Hp Hget Hhex). cbv zeta.
    destruct (secrets_store env _ _); [|exact H].
    destruct (configuration_update env _ _ _).
    + apply cache_consistent_refresh. intros _. simpl.
      by rewrite lookup_insert_eq.
    + intros _. simpl. by rewrite lookup_insert_eq.
  - rewrite (handleUri_reject env uri w Hacc). exact H.
Qed.

Lemma cache_consistent_getApiKey : keeps cache_consistent getApiKey.
Proof.
  intros w H. rewrite getApiKey_run. unfold cache_consistent in *.
  destruct (JS.truthy (apiKey w)); simpl; auto.
Qed.

Lemma cache_consistent_reachable stored settings w :
  reachable stored settings w -> cache_consistent w.
Proof.
  revert w. apply reachable_invariant.
  - intros H. discriminate.
  - apply run_keeps.
    + intros e w H. exact H.
    + apply cache_consistent_getApiKey.
    + apply cache_consistent_refresh.
    + apply cache_consistent_handleUri.
    + intros c. unfold EndpointsWebview_show, updateContent.
      keeps_steps; try apply cache_consistent_getApiKey; intros w H; exact H.
    + unfold TemplateBrowserWebview_show.
      keeps_steps; try apply cache_consistent_getApiKey; intros w H; exact H.
    + intros w H. exact H.
    + intros w H. exact H.
Qed.

(** X1. In every reachable state the cached key, when it is usable, is the
    key that secret storage holds: no operation lets the two drift apart. *)
Theorem cached_key_is_stored_key stored settings w key :
  reachable stored settings w ->
  present (apiKey w) = Some key ->
  secrets w !! "mockman.apiKey" = Some key.
Proof.
  intros Hw Hkey. apply cache_consistent_reachable in Hw.
  apply present_Some in Hkey as [Hcache Htruthy].
  rewrite <- Hcache in Htruthy |- *. symmetry. by apply Hw.
Qed.

Lemma cached_key_is_stored_key_witness :
  present (apiKey after_callback) = Some "0a1b2c3d4e5f"
  /\ secrets after_callback !! "mockman.apiKey" = Some "0a1b2c3d4e5f".
Proof.
  split; [reflexivity|].
  apply (cached_key_is_stored_key ∅ ∅ after_callback "0a1b2c3d4e5f").
  - apply reachable_step, reachable_start.
  - reflexivity.
Defined.

(** ** The four ways through the callback handler *)

Lemma handleUri_results env uri w :
  callback_result env w (exec (handleUri env uri) w).
Proof.
  unfold exec. destruct (callback_accepted uri) eqn:Hacc.
  - apply callback_accepted_true in Hacc as (Hp & key & Hget & Hhex).
    pose proof Hhex as Htest. apply hex_test_spec in Htest.
    rewrite (handleUri_accept env uri w key Hp Hget Htest). cbv zeta.
    destruct (secrets_store env _ _).
    + destruct (configuration_update env _ _ _).
      * replace (set_trace _ (set_configuration _ _)) with
          (set_trace (fun t => t ++ [SecretsStore "mockman.apiKey" key;
                                     ConfigurationUpdate "mockman" "apiKey" key;
                                     ShowInformationMessage
                                       "✅ API Key saved successfully!"])
             (set_configuration <["mockman.apiKey" := key]>
                (set_apiKey (Some key)
                   (set_secrets <["mockman.apiKey" := key]> w)))).
        { by apply callback_done. }
        unfold set_trace, set_configuration, set_apiKey, set_secrets. simpl.
        by rewrite <- !(assoc_L (++)).
      * simpl.
        replace (set_trace _ _) with
          (set_trace (fun t => t ++ [SecretsStore "mockman.apiKey" key;
                                     ConfigurationUpdate "mockman" "apiKey" key;
                                     ShowErrorMessage
                                       ("⚠️ Failed to save API Key: "
                                          +:+ message error)])
             (set_apiKey (Some key)
                (set_secrets <["mockman.apiKey" := key]> w))).
        { by apply callback_update_failed. }
        unfold set_trace, set_apiKey, set_secrets. simpl.
        by rewrite <- !(assoc_L (++)).
    + simpl.
      replace (set_trace _ _) with
        (set_trace (fun t => t ++ [SecretsStore "mockman.apiKey" key;
                                   ShowErrorMessage
                                     ("⚠️ Failed to save API Key: "
                                        +:+ message error)]) w).
      { by apply callback_store_failed. }
      unfold set_trace. simpl. by rewrite <- !(assoc_L (++)).
  - rewrite (handleUri_reject env uri w Hacc). apply callback_rejected.
Qed.

(** ** What the operations leave alone *)

Lemma getApiKey_storage w :
  secrets (snd (getApiKey w)) = secrets w
  /\ configuration (snd (getApiKey w)) = configuration w.
Proof. rewrite getApiKey_run. by destruct (JS.truthy (apiKey w)). Qed.

Lemma storage_framed_keeps stored settings env op :
  keeps (storage_framed stored settings) (run env op).
Proof.
  assert (keeps (storage_framed stored settings) getApiKey) as Hkey.
  { intros w H name Hname. destruct (getApiKey_storage w) as [-> ->].
    by apply H. }
  assert (forall env, keeps (storage_framed stored settings) (refresh env))
    as Hrefresh.
  { intros env' w H name Hname. rewrite refresh_shape. simpl.
    destruct (getApiKey_storage w) as [-> ->]. by apply H. }
  apply run_keeps; try done.
  - intros e w H. exact H.
  - intros env' uri. apply keeps_exec. intros w H.
    destruct (handleUri_results env' uri w) as [text|key text _|key text _|key _];
      try exact H.
    + intros name Hname. simpl. rewrite lookup_insert_ne by done. by apply H.
    + apply Hrefresh. intros name Hname. simpl.
      rewrite !lookup_insert_ne by done. by apply H.
  - intros c. unfold EndpointsWebview_show, updateContent.
    keeps_steps; try exact Hkey; intros w H; exact H.
  - unfold TemplateBrowserWebview_show.
    keeps_steps; try exact Hkey; intros w H; exact H.
  - intros w H. exact H.
  - intros w H. exact H.
Qed.

(** X2. The extension writes secret storage and the settings at the name
    of the key only: every other entry found at start-up is still there,
    unchanged, in every reachable state. *)
Theorem other_entries_untouched stored settings w name :
  reachable stored settings w ->
  name <> "mockman.apiKey" ->
  secrets w !! name = stored !! name
  /\ configuration w !! name = settings !! name.
Proof.
  intros Hw. revert name. change (storage_framed stored settings w).
  revert w Hw. apply reachable_invariant.
  - intros name _. done.
  - apply storage_framed_keeps.
Qed.

Lemma other_entries_untouched_witness :
  secrets (exec (run online (op_handleUri good_callback))
             (start_world machine_secrets machine_settings)) !! "github.token"
    = machine_secrets !! "github.token"
  /\ configuration (exec (run online (op_handleUri good_callback))
                      (start_world machine_secrets machine_settings))
       !! "github.token"
     = machine_settings !! "github.token".
Proof.
  apply (other_entries_untouched machine_secrets machine_settings _
           "github.token");
    [apply reachable_step, reachable_start | discriminate].
Defined.

(** ** Where a snapshot comes from *)

Lemma snapshot_fetched_append w es :
  snapshot_fetched w -> snapshot_fetched (set_trace (fun t => t ++ es) w).
Proof.
  intros [H|(key & before & after & Hkey & Ht & Hf)]; [by left | right].
  exists key, before, (after ++ es). split; [exact Hkey|]. split.
  - simpl. rewrite Ht, <- (assoc_L (++)). reflexivity.
  - apply elem_of_app. by left.
Qed.

Lemma snapshot_fetched_emit e : keeps snapshot_fetched (emit e).
Proof. intros w H. by apply snapshot_fetched_append. Qed.

Lemma snapshot_fetched_getApiKey : keeps snapshot_fetched getApiKey.
Proof.
  intros w H. rewrite getApiKey_run.
  by destruct (JS.truthy (apiKey w)).
Qed.

Lemma snapshot_fetched_refresh env : keeps snapshot_fetched (refresh env).
Proof.
  intros w _. rewrite refresh_shape. unfold snapshot_fetched. simpl.
  rewrite getApiKey_trace.
  pose proof (refresh_cases env w) as H.
  destruct (credential w) as [key|] eqn:Hc; simpl in H.
  - assert (key <> "") as Hkey.
    { apply present_Some in Hc as [_ Hc]. by intros ->. }
    destruct (get_collections env _); destruct H as [_ ->]; right;
      exists key, (trace w); eexists; (split; [exact Hkey|]);
      (split; [reflexivity|]);
      repeat first [by apply elem_of_cons; left | apply elem_of_cons; right].
  - destruct H as [-> _]. by left.
Qed.

Lemma snapshot_fetched_keeps env op : keeps snapshot_fetched (run env op).
Proof.
  apply run_keeps.
  - apply snapshot_fetched_emit.
  - apply snapshot_fetched_getApiKey.
  - apply snapshot_fetched_refresh.
  - intros env' uri. apply keeps_exec. intros w H.
    destruct (handleUri_results env' uri w) as [text|key text _|key text _|key _];
      try apply snapshot_fetched_refresh;
      by apply snapshot_fetched_append.
  - intros c. unfold EndpointsWebview_show, updateContent.
    keeps_steps;
      first [ apply snapshot_fetched_getApiKey | apply snapshot_fetched_emit
            | intros w H; exact H ].
  - unfold TemplateBrowserWebview_show.
    keeps_steps;
      first [ apply snapshot_fetched_getApiKey | apply snapshot_fetched_emit
            | intros w H; exact H ].
  - intros w H. exact H.
  - intros w H. exact H.
Qed.

(** X3. A snapshot that shows at least one collection has been fetched and
    then announced: in every reachable state with a non-empty snapshot,
    the trace holds a GET of the collections of a non-empty key, with the
    5 second timeout, and a change notification after it. *)
Theorem shown_collections_were_fetched stored settings w :
  reachable stored settings w ->
  collections w <> [] ->
  exists key before after,
    key <> ""
    /\ trace w
       = before
         ++ AxiosGet ("https://api.mockman.online/collections/" +:+ key) 5000
            :: after
    /\ Fire ∈ after.
Proof.
  intros Hw Hne.
  assert (snapshot_fetched w) as [H|H]; [|done|exact H].
  revert w Hw Hne. intros w Hw _. revert w Hw. apply reachable_invariant.
  - by left.
  - apply snapshot_fetched_keeps.
Qed.

Lemma shown_collections_were_fetched_witness :
  collections after_callback = [users; orders]
  /\ exists key before after,
       key <> ""
       /\ trace after_callback
          = before
            ++ AxiosGet ("https://api.mockman.online/collections/" +:+ key)
                 5000
               :: after
       /\ Fire ∈ after.
Proof.
  split; [reflexivity|].
  apply (shown_collections_were_fetched ∅ ∅ after_callback).
  - apply reachable_step, reachable_start.
  - discriminate.
Defined.

(** ** The panels *)

Lemma getApiKey_panels w :
  endpointsPanel (snd (getApiKey w)) = endpointsPanel w
  /\ templatesPanel (snd (getApiKey w)) = templatesPanel w.
Proof. rewrite getApiKey_run. by destruct (JS.truthy (apiKey w)). Qed.

Lemma panels_wellformed_getApiKey : keeps panels_wellformed getApiKey.
Proof.
  intros w H. unfold panels_wellformed.
  destruct (getApiKey_panels w) as [-> ->]. exact H.
Qed.

Lemma panels_wellformed_refresh env : keeps panels_wellformed (refresh env).
Proof.
  intros w H. rewrite refresh_shape. unfold panels_wellformed. simpl.
  destruct (getApiKey_panels w) as [-> ->]. exact H.
Qed.

Lemma panels_wellformed_updateContent c :
  keeps panels_wellformed (updateContent c).
Proof.
  unfold updateContent.
  keeps_steps; try apply panels_wellformed_getApiKey; intros w H; exact H.
Qed.

Lemma panels_wellformed_keeps env op : keeps panels_wellformed (run env op).
Proof.
  apply run_keeps.
  - intros e w H. exact H.
  - apply panels_wellformed_getApiKey.
  - apply panels_wellformed_refresh.
  - intros env' uri. apply keeps_exec. intros w H.
    destruct (handleUri_results env' uri w) as [text|key text _|key text _|key _];
      try apply panels_wellformed_refresh; exact H.
  - intros c w [He Ht].
    unfold EndpointsWebview_show, mbind, M_bind, gets, modify, emit. simpl.
    destruct (endpointsPanel w) as [p|] eqn:Hp; simpl;
      apply panels_wellformed_updateContent; (split; [|exact Ht]); simpl;
      intros p' [= <-]; simpl; (split; [|by eexists]).
    + by apply He.
    + reflexivity.
  - intros w [He Ht].
    unfold TemplateBrowserWebview_show, mbind, M_bind, gets, modify, emit.
    rewrite getApiKey_run.
    destruct (JS.truthy (apiKey w)); simpl;
      destruct (templatesPanel w) as [p|] eqn:Hp; simpl;
      try (split; simpl; [exact He | by rewrite Hp]);
      match goal with
      | |- context [present ?k] => destruct (present k)
      end; simpl; (split; simpl; [exact He | by intros p' [= <-]]).
  - intros w [_ Ht]. split; [done | exact Ht].
  - intros w [He _]. split; [exact He | done].
Qed.

(** X4. In every reachable state each panel is either closed or the one
    panel of its kind: the endpoints panel has the view type
    [mockmanEndpoints] and a title that starts with [Endpoints for], the
    template browser is the panel [MockMan Templates]. *)
Theorem panels_are_the_singletons stored settings w :
  reachable stored settings w -> panels_wellformed w.
Proof.
  revert w. apply reachable_invariant.
  - split; intros p H; discriminate.
  - apply panels_wellformed_keeps.
Qed.

Lemma panels_are_the_singletons_witness :
  endpointsPanel with_endpoints
    = Some {| viewType := "mockmanEndpoints"; title := "Endpoints for Users" |}
  /\ panels_wellformed with_endpoints.
Proof.
  split; [reflexivity|].
  apply (panels_are_the_singletons ∅ ∅ with_endpoints).
  apply reachable_step, reachable_step, reachable_start.
Defined.

(** ** What reaches the outside *)

Lemma outside_ok_emit stored e :
  event_ok stored e -> keeps (outside_ok stored) (emit e).
Proof.
  intros He w (Hs & Hc & Ht). repeat split; try done. simpl.
  apply Forall_app. split; [exact Ht | by constructor].
Qed.

Lemma outside_ok_getApiKey stored :
  hoare (outside_ok stored) getApiKey
    (fun key w => outside_ok stored w
                  /\ forall k, key = Some k -> trusted stored k).
Proof.
  intros w (Hs & Hc & Ht). rewrite getApiKey_run.
  destruct (JS.truthy (apiKey w)); simpl; repeat split; auto.
Qed.

Lemma usable_present stored key k :
  (forall k', key = Some k' -> trusted stored k') ->
  present key = Some k -> usable stored k.
Proof.
  intros Hk [-> Ht]%present_Some. split; [|by apply Hk].
  by destruct k.
Qed.

Lemma outside_ok_refresh stored env : keeps (outside_ok stored) (refresh env).
Proof.
  intros w H. rewrite refresh_shape.
  pose proof (refresh_cases env w) as Hcases.
  pose proof (outside_ok_getApiKey stored w H) as [(Hs & Hc & Ht) Hk].
  unfold credential, eval in Hcases.
  repeat split; try done. simpl. apply Forall_app. split; [exact Ht|].
  destruct (present (fst (getApiKey w))) as [k|] eqn:Hp.
  - assert (event_ok stored
              (AxiosGet ("https://api.mockman.online/collections/" +:+ k) 5000)).
    { split; [done|]. exists k. split; [|by left].
      by eapply usable_present. }
    simpl in Hcases. destruct (get_collections env _);
      destruct Hcases as [_ ->];
      repeat (apply Forall_cons_2; [first [exact H0 | exact I]|]);
      apply Forall_nil_2.
  - destruct Hcases as [_ ->]. repeat constructor.
Qed.

Lemma outside_ok_handleUri stored env uri :
  keeps (outside_ok stored) (handleUri env uri).
Proof.
  apply keeps_exec. intros w (Hs & Hc & Ht).
  assert (forall key, lowercase_hex key ->
            forall k, <["mockman.apiKey" := key]> (secrets w) !! "mockman.apiKey"
                      = Some k -> trusted stored k) as Hins.
  { intros key Hhex k. rewrite lookup_insert_eq. intros [= <-]. by right. }
  destruct (handleUri_results env uri w) as [text|key text Hk|key text Hk|key Hk];
    try apply outside_ok_refresh; repeat split; simpl; eauto;
    try (intros k [= <-]; by right);
    apply Forall_app; (split; [exact Ht|]);
    repeat (apply Forall_cons_2; [simpl; done|]); apply Forall_nil_2.
Qed.

Lemma outside_ok_keeps stored env op : keeps (outside_ok stored) (run env op).
Proof.
  pose proof (outside_ok_emit stored) as Hemit.
  assert (keeps (outside_ok stored) getApiKey) as Hkey.
  { eapply hoare_weaken; [apply outside_ok_getApiKey | done |].
    by intros a w [H _]. }
  pose proof (outside_ok_refresh stored) as Hrefresh.
  assert (forall c, keeps (outside_ok stored) (updateContent c)) as Hup.
  { intros c. unfold updateContent. keeps_steps; try exact Hkey;
      first [by apply Hemit | intros w H; exact H]. }
  assert (forall c, keeps (outside_ok stored) (EndpointsWebview_show c)) as Hshow.
  { intros c. unfold EndpointsWebview_show. keeps_steps; try apply Hup;
      first [by apply Hemit | intros w H; exact H]. }
  assert (keeps (outside_ok stored) TemplateBrowserWebview_show) as Htshow.
  { unfold TemplateBrowserWebview_show. keeps_steps; try exact Hkey;
      first [by apply Hemit | intros w H; exact H]. }
  assert (keeps (outside_ok stored) (login_command env)) as Hlogin.
  { unfold login_command. keeps_steps; by apply Hemit. }
  assert (keeps (outside_ok stored) (refresh_command env)) as Hrc.
  { unfold refresh_command. keeps_steps; [apply Hrefresh | by apply Hemit]. }
  assert (forall name arg, keeps (outside_ok stored) (executeCommand env name arg))
    as Hexec.
  { intros name arg.
    unfold executeCommand, templates_command, showEndpoints_command.
    keeps_steps; auto; first [by apply Hemit | intros w H; exact H]. }
  assert (forall m,
            keeps (outside_ok stored) (TemplateBrowserWebview_postMessage env m))
    as Hpost.
  { intros. unfold TemplateBrowserWebview_postMessage.
    keeps_steps; by apply Hemit. }
  assert (forall error action,
            keeps (outside_ok stored) (handleError env error action))
    as Herr.
  { intros. unfold handleError. keeps_steps; [by apply Hemit | apply Hpost]. }
  assert (keeps (outside_ok stored) (showLoginError env)) as Hle.
  { unfold showLoginError. keeps_steps; [by apply Hemit | apply Hpost]. }
  destruct op as [|uri|name arg|m| |m|]; simpl.
  - apply Hrefresh.
  - apply outside_ok_handleUri.
  - apply Hexec.
  - unfold EndpointsWebview_onDidReceiveMessage. keeps_steps; by apply Hemit.
  - intros w H. exact H.
  - apply keeps_bind; [|intros; apply keeps_ret].
    unfold TemplateBrowserWebview_onDidReceiveMessage.
    eapply hoare_bind; [apply outside_ok_getApiKey | intros key].
    apply hoare_pure. intros Hk.
    match goal with |- hoare ?P ?c _ => change (keeps P c) end.
    destruct m; keeps_steps; auto;
      try (by apply Hemit);
      apply Hemit; (split; [done|]);
      match goal with
      | H : present key = Some ?k |- _ =>
          exists k; split; [by eapply usable_present | eauto]
      end.
  - intros w H. exact H.
Qed.

(** X5. Everything the extension ever sends out is accounted for: each
    request goes to one of the four URLs of the service, with the timeout
    of its call and a non-empty key that is the secret found at start-up
    or a lower-case hexadecimal key; each write to secret storage or to
    the settings is a lower-case hexadecimal key under the name of the
    key; the only page opened is the log-in page. *)
Theorem outside_effects_accounted stored settings w e :
  reachable stored settings w ->
  e ∈ trace w ->
  event_ok stored e.
Proof.
  intros Hw He.
  assert (outside_ok stored w) as (_ & _ & Ht).
  { revert w Hw He. intros w Hw _. revert w Hw. apply reachable_invariant.
    - split; [|split]; simpl.
      + intros k H. by left.
      + intros k H. discriminate.
      + constructor.
    - apply outside_ok_keeps. }
  by eapply (proj1 (Forall_forall _ _)) in Ht.
Qed.

Lemma outside_effects_accounted_witness :
  AxiosGet "https://api.mockman.online/collections/0a1b2c3d4e5f" 5000
    ∈ trace after_callback
  /\ event_ok ∅
       (AxiosGet "https://api.mockman.online/collections/0a1b2c3d4e5f" 5000).
Proof.
  assert (AxiosGet "https://api.mockman.online/collections/0a1b2c3d4e5f" 5000
            ∈ trace after_callback) as Hin.
  { change (trace after_callback) with
      [SecretsStore "mockman.apiKey" "0a1b2c3d4e5f";
       ConfigurationUpdate "mockman" "apiKey" "0a1b2c3d4e5f";
       ShowInformationMessage "✅ API Key saved successfully!";
       AxiosGet "https://api.mockman.online/collections/0a1b2c3d4e5f" 5000;
       Fire].
    do 3 (apply elem_of_cons; right). apply elem_of_cons. by left. }
  split; [exact Hin|].
  apply (outside_effects_accounted ∅ ∅ after_callback _
           (reachable_step _ _ _ _ _ (reachable_start _ _)) Hin).
Defined.

(** ** Operations other than the callback *)

Lemma run_keeps_without_callback (I : World -> Prop) :
  (forall e, is_credential_write e = false -> keeps I (emit e)) ->
  keeps I getApiKey ->
  (forall env, keeps I (refresh env)) ->
  (forall p, keeps I (modify (set_endpointsPanel p))) ->
  (forall p, keeps I (modify (set_templatesPanel p))) ->
  forall env op, is_callback op = false -> keeps I (run env op).
Proof.
  intros Hemit Hkey Hrefresh Hpe Hpt env.
  assert (keeps I (login_command env)) as Hlogin.
  { unfold login_command. keeps_steps; by apply Hemit. }
  assert (keeps I (refresh_command env)) as Hrc.
  { unfold refresh_command. keeps_steps; [apply Hrefresh | by apply Hemit]. }
  assert (forall c, keeps I (EndpointsWebview_show c)) as Hshow.
  { intros c. unfold EndpointsWebview_show, updateContent.
    keeps_steps; first [exact Hkey | by apply Hemit | apply Hpe]. }
  assert (keeps I TemplateBrowserWebview_show) as Htshow.
  { unfold TemplateBrowserWebview_show.
    keeps_steps; first [exact Hkey | by apply Hemit | apply Hpt]. }
  assert (forall name arg, keeps I (executeCommand env name arg)) as Hexec.
  { intros name arg.
    unfold executeCommand, templates_command, showEndpoints_command.
    keeps_steps; auto; by apply Hemit. }
  assert (forall m, keeps I (TemplateBrowserWebview_postMessage env m))
    as Hpost.
  { intros. unfold TemplateBrowserWebview_postMessage.
    keeps_steps; by apply Hemit. }
  assert (forall error action, keeps I (handleError env error action)) as Herr.
  { intros. unfold handleError. keeps_steps; [by apply Hemit | apply Hpost]. }
  assert (keeps I (showLoginError env)) as Hle.
  { unfold showLoginError. keeps_steps; [by apply Hemit | apply Hpost]. }
  intros [|uri|name arg|m| |m|] Hop; simpl; try discriminate.
  - apply Hrefresh.
  - apply Hexec.
  - unfold EndpointsWebview_onDidReceiveMessage. keeps_steps; by apply Hemit.
  - apply Hpe.
  - apply keeps_bind; [|intros; apply keeps_ret].
    unfold TemplateBrowserWebview_onDidReceiveMessage.
    apply keeps_bind; [exact Hkey | intros key].
    destruct m; keeps_steps; auto; by apply Hemit.
  - apply Hpt.
Qed.

Lemma quiet_since_refl w : quiet_since w w.
Proof.
  split; [done|]. split; [done|]. exists [].
  split; [by rewrite (right_id_L [] (++))|]. split; [constructor | by left].
Qed.

Lemma quiet_since_emit w0 e :
  is_credential_write e = false -> keeps (quiet_since w0) (emit e).
Proof.
  intros He w (Hs & Hc & es & Ht & Hq & Hf).
  split; [done|]. split; [done|]. exists (es ++ [e]). simpl.
  split; [by rewrite Ht, (assoc_L (++))|]. split.
  - apply Forall_app. split; [exact Hq | by constructor].
  - destruct Hf as [Hf|Hf]; [by left | right].
    apply elem_of_app. by left.
Qed.

Lemma quiet_since_getApiKey w0 : keeps (quiet_since w0) getApiKey.
Proof.
  intros w H. rewrite getApiKey_run. by destruct (JS.truthy (apiKey w)).
Qed.

Lemma quiet_since_refresh w0 env : keeps (quiet_since w0) (refresh env).
Proof.
  intros w (Hs & Hc & es & Ht & Hq & _). rewrite refresh_shape.
  destruct (getApiKey_storage w) as [Hs' Hc'].
  split; [simpl; congruence|]. split; [simpl; congruence|].
  exists (es ++ emitted (refresh env) w). simpl.
  rewrite getApiKey_trace, Ht, (assoc_L (++)). split; [done|].
  pose proof (refresh_cases env w) as H.
  assert (Forall (fun e => is_credential_write e = false)
            (emitted (refresh env) w)
          /\ Fire ∈ emitted (refresh env) w) as [Hq' Hf'].
  { destruct (credential w); simpl in H;
      try destruct (get_collections env _); destruct H as [_ ->];
      (split; [by repeat constructor|]);
      repeat first [by apply elem_of_cons; left | apply elem_of_cons; right]. }
  split; [by apply Forall_app | right; apply elem_of_app; by right].
Qed.

(** X6. An operation other than the callback never touches the key: it
    leaves secret storage and the settings exactly as they are, attempts
    no write to either, and changes the snapshot only together with a
    change notification. *)
Theorem only_the_callback_writes_the_key env op w :
  is_callback op = false ->
  secrets (exec (run env op) w) = secrets w
  /\ configuration (exec (run env op) w) = configuration w
  /\ count is_credential_write (emitted (run env op) w) = 0%nat
  /\ (collections (exec (run env op) w) <> collections w ->
      Fire ∈ emitted (run env op) w).
Proof.
  intros Hop.
  assert (quiet_since w (exec (run env op) w)) as (Hs & Hc & es & Ht & Hq & Hf).
  { apply (run_keeps_without_callback (quiet_since w)); try done.
    - apply quiet_since_emit.
    - apply quiet_since_getApiKey.
    - apply quiet_since_refresh.
    - intros p w' H. exact H.
    - intros p w' H. exact H.
    - apply quiet_since_refl. }
  unfold emitted. rewrite Ht, drop_app_length.
  split; [done|]. split; [done|]. split.
  - unfold count. clear Ht Hf. induction Hq as [|e es He _ IH]; [done|].
    simpl. by rewrite He.
  - intros Hne. by destruct Hf.
Qed.

Lemma only_the_callback_writes_the_key_witness :
  secrets (exec (run offline (op_templates_message
                                (cmd_createCollection "person" 10))) logged_in)
    = secrets logged_in
  /\ count is_credential_write
       (emitted (run offline (op_templates_message
                                (cmd_createCollection "person" 10))) logged_in)
     = 0%nat.
Proof.
  pose proof (only_the_callback_writes_the_key offline
                (op_templates_message (cmd_createCollection "person" 10))
                logged_in eq_refl) as (H1 & _ & H3 & _).
  split; [exact H1 | exact H3].
Defined.

(** ** The callback when saving fails, and when it succeeds *)

(** X7. When secret storage turns the key down, an accepted callback
    changes nothing: after the attempt it shows one error with the reason.
    When the key is stored but the settings cannot be written, the key
    stays in secret storage and in the cache, the settings and the
    snapshot are as before, and the handler shows the error in place of
    the success notice and does not refresh. *)
Theorem callback_save_failures env uri w key error :
  path uri = "/callback" ->
  JS.get "apikey" (JS.URLSearchParams (query uri)) = Some key ->
  JS.hex_test key = true ->
  (secrets_store env "mockman.apiKey" key = Rejected error ->
     exec (handleUri env uri) w =
       set_trace (fun t => t ++ [SecretsStore "mockman.apiKey" key;
                                 ShowErrorMessage
                                   ("⚠️ Failed to save API Key: "
                                      +:+ message error)]) w)
  /\ (forall u, secrets_store env "mockman.apiKey" key = Resolved u ->
        configuration_update env "mockman" "apiKey" key = Rejected error ->
        let w' := exec (handleUri env uri) w in
        secrets w' = <["mockman.apiKey" := key]> (secrets w)
        /\ apiKey w' = Some key
        /\ configuration w' = configuration w
        /\ collections w' = collections w
        /\ emitted (handleUri env uri) w =
             [SecretsStore "mockman.apiKey" key;
              ConfigurationUpdate "mockman" "apiKey" key;
              ShowErrorMessage
                ("⚠️ Failed to save API Key: " +:+ message error)]).
Proof.
  intros Hp Hget Hhex. split.
  - intros Hstore. unfold exec.
    rewrite (handleUri_accept env uri w key Hp Hget Hhex). cbv zeta.
    rewrite Hstore. unfold set_trace. simpl. by rewrite <- (assoc_L (++)).
  - intros u Hstore Hupd. cbv zeta. unfold emitted, exec.
    rewrite (handleUri_accept env uri w key Hp Hget Hhex). cbv zeta.
    rewrite Hstore, Hupd. simpl.
    rewrite <- !(assoc_L (++)), drop_app_length. done.
Qed.

Lemma callback_save_failures_witness :
  exec (handleUri locked_keychain good_callback) old_session
    = set_trace (fun t => t ++ [SecretsStore "mockman.apiKey" "0a1b2c3d4e5f";
                                ShowErrorMessage
                                  "⚠️ Failed to save API Key: Keychain is locked"])
        old_session
  /\ apiKey (exec (handleUri readonly_settings good_callback) old_session)
     = Some "0a1b2c3d4e5f"
  /\ configuration (exec (handleUri readonly_settings good_callback) old_session)
     = configuration old_session.
Proof.
  split.
  - apply (proj1 (callback_save_failures locked_keychain good_callback
                    old_session "0a1b2c3d4e5f" keychain_error
                    eq_refl eq_refl eq_refl)).
    reflexivity.
  - destruct (proj2 (callback_save_failures readonly_settings good_callback
                       old_session "0a1b2c3d4e5f" settings_error
                       eq_refl eq_refl eq_refl)
                tt eq_refl eq_refl) as (_ & Ha & Hc & _).
    split; [exact Ha | exact Hc].
Defined.

(** X8. When the key of an accepted callback is saved, the refresh that
    follows asks for the collections of the new key, whatever key the
    session had cached, and the snapshot becomes the answer to that
    request. *)
Theorem callback_switches_the_key env uri w key u u' :
  path uri = "/callback" ->
  JS.get "apikey" (JS.URLSearchParams (query uri)) = Some key ->
  JS.hex_test key = true ->
  secrets_store env "mockman.apiKey" key = Resolved u ->
  configuration_update env "mockman" "apiKey" key = Resolved u' ->
  let url := "https://api.mockman.online/collections/" +:+ key in
  emitted (handleUri env uri) w =
    [SecretsStore "mockman.apiKey" key;
     ConfigurationUpdate "mockman" "apiKey" key;
     ShowInformationMessage "✅ API Key saved successfully!";
     AxiosGet url 5000]
    ++ match get_collections env url with
       | Resolved _ => []
       | Rejected error =>
           [ShowErrorMessage ("Error fetching collections: " +:+ message error)]
       end
    ++ [Fire]
  /\ collections (exec (handleUri env uri) w) =
       match get_collections env url with
       | Resolved (Some body) => body
       | _ => []
       end
  /\ credential (exec (handleUri env uri) w) = Some key.
Proof.
  intros Hp Hget Hhex Hstore Hupd url.
  assert (JS.truthy (Some key) = true) as Hkey
    by (destruct key; [discriminate | reflexivity]).
  unfold emitted, exec.
  rewrite (handleUri_accept env uri w key Hp Hget Hhex). cbv zeta.
  rewrite Hstore, Hupd.
  match goal with
  | |- context [refresh env ?w3] =>
      pose proof (refresh_cases env w3) as Hc;
      destruct (refresh_frame env w3) as (_ & _ & Ha & Ht);
      assert (credential w3 = Some key) as Hcred
  end.
  { destruct key; [discriminate | reflexivity]. }
  rewrite Hcred in Hc. cbv zeta in Hc. fold url in Hc.
  unfold exec in Ht, Hc, Ha. rewrite Ht. simpl trace.
  rewrite <- !(assoc_L (++)), drop_app_length.
  split; [|split].
  - destruct (get_collections env url); by destruct Hc as [_ ->].
  - destruct (get_collections env url) as [[b|]|]; by destruct Hc as [-> _].
  - unfold credential, eval. rewrite getApiKey_run, (Ha Hkey).
    destruct key; [discriminate | reflexivity].
Qed.

Lemma callback_switches_the_key_witness :
  credential old_session = Some "abc123"
  /\ collections (exec (handleUri online good_callback) old_session)
     = [users; orders]
  /\ credential (exec (handleUri online good_callback) old_session)
     = Some "0a1b2c3d4e5f".
Proof.
  split; [reflexivity|].
  destruct (callback_switches_the_key online good_callback old_session
              "0a1b2c3d4e5f" tt tt eq_refl eq_refl eq_refl eq_refl eq_refl)
    as (_ & Hc & Hk).
  split; [exact Hc | exact Hk].
Defined.

(** ** Reading the key out of the query *)

Lemma lower_hex_not a c :
  JS.lower_hex a = true -> JS.lower_hex c = false -> Ascii.eqb a c = false.
Proof.
  intros Ha Hc. destruct (Ascii.eqb_spec a c) as [->|]; [congruence | done].
Qed.

Lemma split_on_hex l r :
  Forall (fun a => JS.lower_hex a = true) l ->
  JS.split_on "&" (l ++ "&"%char :: r) = l :: JS.split_on "&" r.
Proof.
  induction 1 as [|a l Ha _ IH]; simpl; [done|].
  rewrite (lower_hex_not a "&" Ha eq_refl). simpl in IH. by rewrite IH.
Qed.

Lemma split_on_hex_end l :
  Forall (fun a => JS.lower_hex a = true) l -> JS.split_on "&" l = [l].
Proof.
  induction 1 as [|a l Ha _ IH]; simpl; [done|].
  by rewrite (lower_hex_not a "&" Ha eq_refl), IH.
Qed.

Lemma decode_hex l :
  Forall (fun a => JS.lower_hex a = true) l ->
  JS.percent_decode (JS.plus_to_space l) = l.
Proof.
  induction 1 as [|a l Ha _ IH]; simpl; [done|].
  rewrite (lower_hex_not a "+" Ha eq_refl), (lower_hex_not a "%" Ha eq_refl).
  by rewrite IH.
Qed.

Lemma hex_test_chars key :
  JS.hex_test key = true ->
  Forall (fun a => JS.lower_hex a = true) (list_ascii_of_string key).
Proof.
  destruct key as [|a r]; [discriminate|]. unfold JS.hex_test.
  rewrite forallb_forall, Forall_forall. intros H c Hc.
  by apply H, list_elem_of_In.
Qed.

Lemma list_ascii_of_string_app s t :
  list_ascii_of_string (s +:+ t)
  = list_ascii_of_string s ++ list_ascii_of_string t.
Proof. induction s as [|a s IH]; simpl; [done | by rewrite IH]. Qed.

(** The first parameter of a query that starts with the key. *)
Lemma get_apikey key rest :
  JS.hex_test key = true ->
  rest = "" \/ (exists more, rest = String "&" more) ->
  JS.get "apikey" (JS.URLSearchParams ("apikey=" +:+ key +:+ rest)) = Some key.
Proof.
  intros Hhex Hrest. pose proof (hex_test_chars key Hhex) as Hchars.
  unfold JS.URLSearchParams.
  change ("apikey=" +:+ key +:+ rest) with
    (String "a" (String "p" (String "i" (String "k" (String "e" (String "y"
       (String "=" (key +:+ rest)))))))).
  cbv iota.
  assert (exists pieces,
            JS.split_on "&" (list_ascii_of_string
              (String "a" (String "p" (String "i" (String "k" (String "e"
                 (String "y" (String "=" (key +:+ rest)))))))))
            = (list_ascii_of_string "apikey" ++ "="%char
                 :: list_ascii_of_string key) :: pieces) as [pieces ->].
  { simpl. rewrite list_ascii_of_string_app.
    destruct Hrest as [->|[more ->]].
    - simpl. rewrite (right_id_L [] (++)), (split_on_hex_end _ Hchars).
      by eexists.
    - simpl. rewrite (split_on_hex _ _ Hchars). by eexists. }
  rewrite filter_cons_True by done. simpl.
  unfold JS.get, JS.parse_pair, JS.decode_component. simpl.
  rewrite (decode_hex _ Hchars), string_of_list_ascii_of_string. reflexivity.
Qed.

(** X9. A callback whose query starts with [apikey=] followed by a
    lower-case hexadecimal key, alone or followed by further parameters,
    is accepted: the handler hands exactly that key to secret storage. *)
Theorem well_formed_callback_is_accepted env key rest w :
  JS.hex_test key = true ->
  rest = "" \/ (exists more, rest = String "&" more) ->
  callback_accepted
    {| path := "/callback"; query := "apikey=" +:+ key +:+ rest |} = true
  /\ head (emitted (handleUri env
                      {| path := "/callback";
                         query := "apikey=" +:+ key +:+ rest |}) w)
     = Some (SecretsStore "mockman.apiKey" key).
Proof.
  intros Hhex Hrest. pose proof (get_apikey key rest Hhex Hrest) as Hget.
  split.
  - unfold callback_accepted. simpl query. rewrite Hget, Hhex.
    destruct key; [discriminate | reflexivity].
  - destruct (handleUri_accept_emitted env
                {| path := "/callback"; query := "apikey=" +:+ key +:+ rest |}
                w key eq_refl Hget Hhex) as [w3 ->].
    reflexivity.
Qed.

Lemma well_formed_callback_is_accepted_witness :
  callback_accepted
    {| path := "/callback";
       query := "apikey=" +:+ "0a1b2c3d4e5f" +:+ "&windowId=1" |} = true.
Proof.
  apply (well_formed_callback_is_accepted online "0a1b2c3d4e5f" "&windowId=1"
           logged_out).
  - reflexivity.
  - right. by eexists.
Defined.

(** ** Opening the endpoints of a collection *)

Lemma credential_getApiKey w : credential (snd (getApiKey w)) = credential w.
Proof.
  unfold credential, eval. rewrite !getApiKey_run.
  destruct (JS.truthy (apiKey w)) eqn:H; simpl; [by rewrite H|].
  destruct (JS.truthy (secrets w !! "mockman.apiKey")) eqn:H'; simpl;
    by rewrite ?H'.
Qed.

Lemma credential_frame w1 w2 :
  apiKey w1 = apiKey w2 -> secrets w1 = secrets w2 ->
  credential w1 = credential w2.
Proof.
  intros Ha Hs. unfold credential, eval. rewrite !getApiKey_run, Ha, Hs.
  by destruct (JS.truthy (apiKey w2)).
Qed.

Lemma EndpointsWebview_show_run c w :
  snd (EndpointsWebview_show c w) =
    set_trace
      (fun t => t ++ (match endpointsPanel w with
                      | Some _ => Reveal "mockmanEndpoints"
                      | None => CreateWebviewPanel "mockmanEndpoints"
                                  ("Endpoints for " +:+ collectionName c)
                      end :: endpoints_post w c))
      (set_endpointsPanel
         (Some {| viewType := match endpointsPanel w with
                              | Some p => viewType p
                              | None => "mockmanEndpoints"
                              end;
                  title := "Endpoints for " +:+ collectionName c |})
         (snd (getApiKey w))).
Proof.
  unfold EndpointsWebview_show, endpoints_post, credential, eval,
    mbind, M_bind, gets, modify, emit.
  destruct (endpointsPanel w) as [p|] eqn:Hp; simpl;
    rewrite updateContent_run, !getApiKey_run; simpl;
    destruct (JS.truthy (apiKey w)); simpl;
    match goal with
    | |- context [present ?k] => destruct (present k)
    end; simpl; unfold set_trace, set_endpointsPanel; simpl;
    rewrite <- ?(assoc_L (++)); reflexivity.
Qed.

Lemma EndpointsWebview_show_emitted c w :
  emitted (EndpointsWebview_show c) w =
    match endpointsPanel w with
    | Some _ => Reveal "mockmanEndpoints"
    | None => CreateWebviewPanel "mockmanEndpoints"
                ("Endpoints for " +:+ collectionName c)
    end :: endpoints_post w c.
Proof.
  unfold emitted, exec. rewrite EndpointsWebview_show_run.
  simpl. by rewrite getApiKey_trace, drop_app_length.
Qed.

(** X10. [show] leaves the endpoints panel open with the title of the
    collection.  It creates the panel only when none is open, and reveals
    the open one otherwise; it posts the endpoints of the collection when
    a key is usable and nothing when not, so that the panel then stays
    empty.  Two calls in a row create at most one panel, and the second
    retitles it. *)
Theorem endpoints_panel_is_reused c c' w :
  emitted (EndpointsWebview_show c) w =
    match endpointsPanel w with
    | Some _ => Reveal "mockmanEndpoints"
    | None => CreateWebviewPanel "mockmanEndpoints"
                ("Endpoints for " +:+ collectionName c)
    end :: endpoints_post w c
  /\ title <$> endpointsPanel (exec (EndpointsWebview_show c) w)
     = Some ("Endpoints for " +:+ collectionName c)
  /\ emitted (EndpointsWebview_show c') (exec (EndpointsWebview_show c) w)
     = Reveal "mockmanEndpoints" :: endpoints_post w c'
  /\ title <$> endpointsPanel
                 (exec (EndpointsWebview_show c')
                    (exec (EndpointsWebview_show c) w))
     = Some ("Endpoints for " +:+ collectionName c').
Proof.
  pose proof EndpointsWebview_show_emitted as Hem.
  assert (forall c w c1, endpoints_post (exec (EndpointsWebview_show c) w) c1
                         = endpoints_post w c1) as Hpost.
  { intros c0 w0 c1. unfold endpoints_post, exec. rewrite EndpointsWebview_show_run.
    rewrite <- (credential_getApiKey w0).
    by rewrite (credential_frame _ (snd (getApiKey w0))). }
  split; [apply Hem|]. split.
  { unfold exec. by rewrite EndpointsWebview_show_run. }
  split.
  - rewrite Hem, Hpost. unfold exec at 1.
    by rewrite EndpointsWebview_show_run.
  - unfold exec at 1. by rewrite EndpointsWebview_show_run.
Qed.

(** ** From the side bar to the panel *)

(** X11. The entry of a collection in the side bar carries the command
    that opens the endpoints of that very collection: running the command
    of the i-th root entry with its argument opens or reveals the panel
    under the title of the i-th collection and posts the endpoints of the
    i-th collection, also when another collection has the same name. *)
Theorem tree_entry_opens_its_collection env w i c :
  collections w !! i = Some c ->
  exists item cmd,
    getChildren w None !! i = Some item
    /\ item_command item = Some cmd
    /\ collectionData item = Some c
    /\ emitted (executeCommand env (command cmd) (head (arguments cmd))) w
       = match endpointsPanel w with
         | Some _ => Reveal "mockmanEndpoints"
         | None => CreateWebviewPanel "mockmanEndpoints"
                     ("Endpoints for " +:+ label item)
         end :: endpoints_post w c.
Proof.
  intros Hc. unfold getChildren. rewrite list_lookup_fmap, Hc. simpl.
  eexists _, _. split; [reflexivity|]. split; [reflexivity|].
  split; [reflexivity|]. simpl.
  change (executeCommand env "mockman.showEndpoints" (Some c))
    with (EndpointsWebview_show c).
  apply EndpointsWebview_show_emitted.
Qed.

Lemma tree_entry_opens_its_collection_witness :
  collections logged_in !! 1%nat = Some users_again
  /\ exists item cmd,
       getChildren logged_in None !! 1%nat = Some item
       /\ item_command item = Some cmd
       /\ collectionData item = Some users_again
       /\ emitted (executeCommand online (command cmd) (head (arguments cmd)))
            logged_in
          = match endpointsPanel logged_in with
            | Some _ => Reveal "mockmanEndpoints"
            | None => CreateWebviewPanel "mockmanEndpoints"
                        ("Endpoints for " +:+ label item)
            end :: endpoints_post logged_in users_again.
Proof.
  split; [reflexivity|].
  apply (tree_entry_opens_its_collection online logged_in 1 users_again).
  reflexivity.
Defined.

(** X12. When the names of the collections in the snapshot are distinct,
    expanding the entry of a collection lists the fields of that
    collection, one entry per field in order, none collapsible and none
    with a command. *)
Theorem entry_lists_its_own_fields w i c :
  NoDup (collectionName <$> collections w) ->
  collections w !! i = Some c ->
  exists item,
    getChildren w None !! i = Some item
    /\ label <$> getChildren w (Some item) = field_label <$> fields c
    /\ Forall (fun child => collapsibleState child = None_
                            /\ item_command child = None
                            /\ contextValue child = "field")
         (getChildren w (Some item)).
Proof.
  intros Hnodup Hc.
  assert (List.find (fun col => String.eqb (collectionName col) (collectionName c))
            (collections w) = Some c) as Hfind.
  { rewrite <- (take_drop_middle _ _ _ Hc). apply find_first.
    - apply Forall_forall. intros y Hy. apply String.eqb_neq. intros Heq.
      apply list_elem_of_lookup in Hy as [j Hj].
      pose proof (lookup_lt_Some _ _ _ Hj) as Hlt.
      rewrite length_take in Hlt.
      rewrite lookup_take_lt in Hj by lia.
      assert (j = i); [|lia].
      eapply NoDup_lookup; [exact Hnodup| |].
      + rewrite list_lookup_fmap, Hj. reflexivity.
      + rewrite list_lookup_fmap, Hc. simpl. by rewrite Heq.
    - apply String.eqb_refl. }
  unfold getChildren at 1. rewrite list_lookup_fmap, Hc. simpl.
  eexists. split; [reflexivity|]. unfold getChildren. simpl label.
  rewrite Hfind. split.
  - rewrite <- list_fmap_compose. reflexivity.
  - apply Forall_fmap, Forall_forall. intros f _. done.
Qed.

Lemma entry_lists_its_own_fields_witness :
  exists item,
    getChildren after_callback None !! 0%nat = Some item
    /\ label <$> getChildren after_callback (Some item)
       = ["email (string)"; "age (number)"].
Proof.
  destruct (entry_lists_its_own_fields after_callback 0 users)
    as (item & H1 & H2 & _).
  - change (collectionName <$> collections after_callback)
      with ["Users"; "Orders"].
    apply NoDup_cons. split; [|apply NoDup_singleton].
    intros H%list_elem_of_singleton. discriminate.
  - reflexivity.
  - exists item. split; [exact H1 | exact H2].
Defined.

(** ** The template browser on the host *)

Lemma refresh_with_key env w key :
  credential w = Some key ->
  emitted (refresh env) w = refresh_effects env key
  /\ collections (exec (refresh env) w) = fetched env key.
Proof.
  intros Hkey. pose proof (refresh_cases env w) as H.
  rewrite Hkey in H. cbv zeta in H. unfold refresh_effects, fetched.
  destruct (get_collections env _) as [[b|]|]; destruct H as [-> ->]; done.
Qed.

Lemma TemplateBrowserWebview_show_run w :
  snd (TemplateBrowserWebview_show w) =
    match templatesPanel w with
    | Some _ =>
        set_trace (fun t => t ++ [Reveal "mockmanTemplateBrowser"])
          (snd (getApiKey w))
    | None =>
        set_trace
          (fun t => t ++ [CreateWebviewPanel "mockmanTemplateBrowser"
                            "MockMan Templates";
                          PostMessage "mockmanTemplateBrowser"
                            match credential w with
                            | Some _ => msg_getTemplates
                            | None => msg_noApiKey
                            end])
          (set_templatesPanel (Some templates_panel) (snd (getApiKey w)))
    end.
Proof.
  unfold TemplateBrowserWebview_show, credential, eval,
    mbind, M_bind, gets, modify, emit.
  destruct (getApiKey_panels w) as [_ Hp].
  destruct (getApiKey w) as [key w1]. simpl in *. rewrite Hp.
  destruct (templatesPanel w); [reflexivity|].
  destruct (present key); simpl; unfold set_trace, set_templatesPanel; simpl;
    by rewrite <- (assoc_L (++)).
Qed.

(** X13. Opening the template browser creates its panel only when none
    is open, and then tells the page whether a key is usable; when the
    panel is open it is revealed and told nothing.  Opening it again
    reveals the same panel. *)
Theorem template_browser_is_reused w :
  emitted TemplateBrowserWebview_show w =
    match templatesPanel w with
    | Some _ => [Reveal "mockmanTemplateBrowser"]
    | None =>
        [CreateWebviewPanel "mockmanTemplateBrowser" "MockMan Templates";
         PostMessage "mockmanTemplateBrowser"
           match credential w with
           | Some _ => msg_getTemplates
           | None => msg_noApiKey
           end]
    end
  /\ templatesPanel (exec TemplateBrowserWebview_show w) =
       Some match templatesPanel w with
            | Some p => p
            | None => templates_panel
            end
  /\ emitted TemplateBrowserWebview_show (exec TemplateBrowserWebview_show w)
     = [Reveal "mockmanTemplateBrowser"].
Proof.
  assert (forall w,
            emitted TemplateBrowserWebview_show w =
              match templatesPanel w with
              | Some _ => [Reveal "mockmanTemplateBrowser"]
              | None =>
                  [CreateWebviewPanel "mockmanTemplateBrowser"
                     "MockMan Templates";
                   PostMessage "mockmanTemplateBrowser"
                     match credential w with
                     | Some _ => msg_getTemplates
                     | None => msg_noApiKey
                     end]
              end) as Hem.
  { intros w0. unfold emitted, exec. rewrite TemplateBrowserWebview_show_run.
    destruct (templatesPanel w0); simpl;
      by rewrite getApiKey_trace, drop_app_length. }
  assert (templatesPanel (exec TemplateBrowserWebview_show w) =
            Some match templatesPanel w with
                 | Some p => p
                 | None => templates_panel
                 end) as Hpanel.
  { unfold exec. rewrite TemplateBrowserWebview_show_run.
    destruct (getApiKey_panels w) as [_ Hp].
    destruct (templatesPanel w) eqn:E; simpl; [by rewrite Hp | done]. }
  split; [apply Hem|]. split; [exact Hpanel|].
  by rewrite Hem, Hpanel.
Qed.

Lemma getApiKey_collections w :
  collections (snd (getApiKey w)) = collections w.
Proof. rewrite getApiKey_run. by destruct (JS.truthy (apiKey w)). Qed.

Lemma template_handler_run env m w :
  TemplateBrowserWebview_onDidReceiveMessage env m w =
    (let key := fst (getApiKey w) in
     match m with
     | cmd_login =>
         executeCommand env "mockman.login" None;;
         mret (Resolved tt)
     | cmd_getTemplates =>
         match present key with
         | None => showLoginError env
         | Some key =>
             let url := "https://api.mockman.online/templates/" +:+ key in
             try_catch
               (emit (AxiosGet url 5000);;
                and_then (mret (get_templates env url)) (fun data =>
                TemplateBrowserWebview_postMessage env (msg_templates data)))
               (fun error => handleError env error "fetching templates")
         end
     | cmd_getPreview category =>
         match present key with
         | None => showLoginError env
         | Some key =>
             let url := "https://api.mockman.online/templates/" +:+ key
                          +:+ "/" +:+ category +:+ "/preview" in
             try_catch
               (emit (AxiosGet url 5000);;
                and_then (mret (get_preview env url)) (fun data =>
                TemplateBrowserWebview_postMessage env (msg_preview data)))
               (fun error => handleError env error "fetching preview")
         end
     | cmd_createCollection category count =>
         match present key with
         | None => showLoginError env
         | Some key =>
             let url := "https://api.mockman.online/templates/" +:+ key
                          +:+ "/create" in
             try_catch
               (emit (AxiosPost url category count 10000);;
                and_then (mret (post_create env url category count))
                  (fun data =>
                and_then (TemplateBrowserWebview_postMessage env
                            (msg_createSuccess data)) (fun _ =>
                match data with
                | created collection =>
                    emit (ShowInformationMessage (created_notice collection));;
                    refresh_command env;;
                    mret (Resolved tt)
                | malformed fault => mret (Rejected (TypeError fault))
                end)))
               (fun error => handleError env error "creating collection")
         end
     | cmd_showInfo text =>
         emit (ShowInformationMessage text);;
         mret (Resolved tt)
     | cmd_showError text =>
         emit (ShowErrorMessage text);;
         mret (Resolved tt)
     | _ => mret (Resolved tt)
     end) (snd (getApiKey w)).
Proof.
  unfold TemplateBrowserWebview_onDidReceiveMessage. unfold mbind at 1.
  unfold M_bind at 1. by destruct (getApiKey w).
Qed.

(** Runs the listener up to the first answer of a collaborator. *)
Ltac handler_steps Hkey :=
  unfold emitted, eval, exec; rewrite template_handler_run; cbv zeta;
  unfold credential, eval in Hkey; rewrite Hkey;
  unfold try_catch, and_then, mbind, M_bind, mret, M_ret, emit, modify.

(** Runs the posts to the page, the panel being known by [Hp]. *)
Ltac panel_steps Hp :=
  repeat first
    [ rewrite postMessage_run | rewrite handleError_run
    | rewrite showLoginError_run
    | rewrite getApiKey_templatesPanel | rewrite Hp
    | progress (unfold post_outcome, to_page, failure_report, login_notice)
    | progress simpl ].

Lemma create_success_emitted env w key p category n data :
  credential w = Some key ->
  templatesPanel w = Some p ->
  post_create env ("https://api.mockman.online/templates/" +:+ key +:+ "/create")
    category n = Resolved (created data) ->
  emitted (TemplateBrowserWebview_onDidReceiveMessage env
             (cmd_createCollection category n)) w
    = [AxiosPost ("https://api.mockman.online/templates/" +:+ key +:+ "/create")
         category n 10000;
       PostMessage "mockmanTemplateBrowser" (msg_createSuccess (created data));
       ShowInformationMessage (created_notice data)]
      ++ refresh_effects env key
      ++ [ShowInformationMessage "🔄 Collections refreshed!"]
  /\ collections (exec (TemplateBrowserWebview_onDidReceiveMessage env
                          (cmd_createCollection category n)) w)
     = fetched env key
  /\ eval (TemplateBrowserWebview_onDidReceiveMessage env
             (cmd_createCollection category n)) w = Resolved tt.
Proof.
  intros Hkey Hp Hpost. remember (refresh_effects env key) as effects.
  handler_steps Hkey. rewrite Hpost. panel_steps Hp.
  unfold refresh_command, mbind, M_bind, emit, modify. simpl.
  match goal with
  | |- context [refresh env ?w2] =>
      destruct (refresh_with_key env w2 key) as [Hem Hcs];
      [|destruct (refresh_frame env w2) as (_ & _ & _ & Ht)]
  end.
  { rewrite (credential_frame _ (snd (getApiKey w))) by done.
    by rewrite credential_getApiKey. }
  unfold exec in Ht, Hcs. destruct (refresh env _) as [[] w3].
  rewrite <- Heqeffects in Hem.
  simpl in *. rewrite Ht, Hem, getApiKey_trace.
  split; [|by split].
  by rewrite <- !(assoc_L (++)), drop_app_length.
Qed.

(** X14. With a usable key and the panel open, a create request that
    succeeds is sent once with the 10 second timeout; the page is told of
    the success, the user is told the name and the number of documents as
    the body gives them, and the collections are fetched again with the
    same key, so that the snapshot is the answer to that request.  The
    confirmation of the refresh comes last, also when the fetch has
    failed. *)
Theorem create_success_refreshes env w key p category n data :
  credential w = Some key ->
  templatesPanel w = Some p ->
  post_create env ("https://api.mockman.online/templates/" +:+ key +:+ "/create")
    category n = Resolved (created data) ->
  emitted (TemplateBrowserWebview_onDidReceiveMessage env
             (cmd_createCollection category n)) w
    = [AxiosPost ("https://api.mockman.online/templates/" +:+ key +:+ "/create")
         category n 10000;
       PostMessage "mockmanTemplateBrowser" (msg_createSuccess (created data));
       ShowInformationMessage
         ("✅ Collection " +:+ dquote +:+ name data +:+ dquote
            +:+ " created with " +:+ documentCount data +:+ " documents")]
      ++ refresh_effects env key
      ++ [ShowInformationMessage "🔄 Collections refreshed!"]
  /\ collections (exec (TemplateBrowserWebview_onDidReceiveMessage env
                          (cmd_createCollection category n)) w)
     = fetched env key
  /\ eval (TemplateBrowserWebview_onDidReceiveMessage env
             (cmd_createCollection category n)) w = Resolved tt.
Proof. apply create_success_emitted. Qed.

Lemma create_success_refreshes_witness :
  collections (browsing logged_in) = [users; users_again]
  /\ templatesPanel (browsing logged_in) = Some templates_panel
  /\ emitted (TemplateBrowserWebview_onDidReceiveMessage online
                (cmd_createCollection "person" 10)) (browsing logged_in)
     = [AxiosPost "https://api.mockman.online/templates/abc123/create"
          "person" 10 10000;
        PostMessage "mockmanTemplateBrowser"
          (msg_createSuccess
             (created {| name := "person_1"; documentCount := "10" |}));
        ShowInformationMessage
          ("✅ Collection " +:+ dquote +:+ "person_1" +:+ dquote
             +:+ " created with 10 documents");
        AxiosGet "https://api.mockman.online/collections/abc123" 5000;
        Fire;
        ShowInformationMessage "🔄 Collections refreshed!"]
  /\ collections (exec (TemplateBrowserWebview_onDidReceiveMessage online
                          (cmd_createCollection "person" 10))
                    (browsing logged_in))
     = [users; orders].
Proof.
  split; [reflexivity|]. split; [reflexivity|].
  destruct (create_success_refreshes online (browsing logged_in) "abc123"
              templates_panel "person" 10
              {| name := "person_1"; documentCount := "10" |}
              eq_refl eq_refl eq_refl) as (Hem & Hcs & _).
  split; [exact Hem | exact Hcs].
Defined.

(** X15. With a usable key and the panel open, listing the templates and
    previewing a category each send one GET with the 5 second timeout
    and, when it succeeds, hand the answer to the page without any notice
    to the user; the category goes into the URL as it is. *)
Theorem template_reads_succeed env w key p :
  credential w = Some key ->
  templatesPanel w = Some p ->
  (forall data,
     get_templates env ("https://api.mockman.online/templates/" +:+ key)
       = Resolved data ->
     emitted (TemplateBrowserWebview_onDidReceiveMessage env cmd_getTemplates) w
     = [AxiosGet ("https://api.mockman.online/templates/" +:+ key) 5000;
        PostMessage "mockmanTemplateBrowser" (msg_templates data)])
  /\ (forall category data,
        get_preview env ("https://api.mockman.online/templates/" +:+ key
                           +:+ "/" +:+ category +:+ "/preview")
          = Resolved data ->
        emitted (TemplateBrowserWebview_onDidReceiveMessage env
                   (cmd_getPreview category)) w
        = [AxiosGet ("https://api.mockman.online/templates/" +:+ key
                       +:+ "/" +:+ category +:+ "/preview") 5000;
           PostMessage "mockmanTemplateBrowser" (msg_preview data)]).
Proof.
  intros Hkey Hp.
  split; intros; handler_steps Hkey;
    match goal with H : _ = Resolved _ |- _ => rewrite H end;
    panel_steps Hp;
    rewrite getApiKey_trace, <- !(assoc_L (++)), drop_app_length; done.
Qed.

Lemma template_reads_succeed_witness :
  templatesPanel (browsing logged_in) = Some templates_panel
  /\ emitted (TemplateBrowserWebview_onDidReceiveMessage online
                (cmd_getPreview "person")) (browsing logged_in)
     = [AxiosGet "https://api.mockman.online/templates/abc123/person/preview"
          5000;
        PostMessage "mockmanTemplateBrowser" (msg_preview "{}")].
Proof.
  split; [reflexivity|].
  apply (proj2 (template_reads_succeed online (browsing logged_in) "abc123"
                  templates_panel eq_refl eq_refl) "person" "{}").
  reflexivity.
Defined.

(** X30. A success that the listener cannot use is reported as a failure.
    When the panel has been disposed by the time the answer arrives,
    posting the answer throws inside the [try]: the user is shown the
    error of the engine under the name of the operation, nothing is
    posted, a created collection is neither announced nor followed by a
    refresh, and the promise of the listener is rejected.  When the panel
    is open and the body of a created collection cannot be read, the page
    is told of the success and then of the error, and again nothing is
    announced or refreshed. *)
Theorem unusable_success_is_reported_as_failure env w key :
  credential w = Some key ->
  (templatesPanel w = None ->
   (forall category n data,
      post_create env
        ("https://api.mockman.online/templates/" +:+ key +:+ "/create")
        category n = Resolved data ->
      emitted (TemplateBrowserWebview_onDidReceiveMessage env
                 (cmd_createCollection category n)) w
        = [AxiosPost
             ("https://api.mockman.online/templates/" +:+ key +:+ "/create")
             category n 10000;
           ShowErrorMessage
             ("Error creating collection: " +:+ null_webview env)]
      /\ collections (exec (TemplateBrowserWebview_onDidReceiveMessage env
                              (cmd_createCollection category n)) w)
         = collections w
      /\ eval (TemplateBrowserWebview_onDidReceiveMessage env
                 (cmd_createCollection category n)) w
         = Rejected (TypeError (null_webview env)))
   /\ (forall data,
         get_templates env ("https://api.mockman.online/templates/" +:+ key)
           = Resolved data ->
         emitted (TemplateBrowserWebview_onDidReceiveMessage env
                    cmd_getTemplates) w
           = [AxiosGet ("https://api.mockman.online/templates/" +:+ key) 5000;
              ShowErrorMessage
                ("Error fetching templates: " +:+ null_webview env)])
   /\ (forall category data,
         get_preview env ("https://api.mockman.online/templates/" +:+ key
                            +:+ "/" +:+ category +:+ "/preview")
           = Resolved data ->
         emitted (TemplateBrowserWebview_onDidReceiveMessage env
                    (cmd_getPreview category)) w
           = [AxiosGet ("https://api.mockman.online/templates/" +:+ key
                          +:+ "/" +:+ category +:+ "/preview") 5000;
              ShowErrorMessage
                ("Error fetching preview: " +:+ null_webview env)]))
  /\ (forall p category n fault,
        templatesPanel w = Some p ->
        post_create env
          ("https://api.mockman.online/templates/" +:+ key +:+ "/create")
          category n = Resolved (malformed fault) ->
        emitted (TemplateBrowserWebview_onDidReceiveMessage env
                   (cmd_createCollection category n)) w
          = [AxiosPost
               ("https://api.mockman.online/templates/" +:+ key +:+ "/create")
               category n 10000;
             PostMessage "mockmanTemplateBrowser"
               (msg_createSuccess (malformed fault));
             ShowErrorMessage ("Error creating collection: " +:+ fault);
             PostMessage "mockmanTemplateBrowser" (msg_error fault)]
        /\ collections (exec (TemplateBrowserWebview_onDidReceiveMessage env
                                (cmd_createCollection category n)) w)
           = collections w).
Proof.
  intros Hkey. pose proof (getApiKey_collections w) as Hcs.
  split; [intros Hp; split; [|split]|intros p category n fault Hp]; intros;
    handler_steps Hkey;
    match goal with H : _ = Resolved _ |- _ => rewrite H end;
    panel_steps Hp;
    rewrite ?getApiKey_trace, ?Hcs, ?(right_id_L [] (++)),
      <- ?(assoc_L (++)), ?drop_app_length;
    repeat split.
Qed.

Lemma unusable_success_is_reported_as_failure_witness :
  templatesPanel logged_in = None
  /\ emitted (TemplateBrowserWebview_onDidReceiveMessage online
                (cmd_createCollection "person" 10)) logged_in
     = [AxiosPost "https://api.mockman.online/templates/abc123/create"
          "person" 10 10000;
        ShowErrorMessage
          "Error creating collection: Cannot read properties of null (reading 'webview')"]
  /\ collections (exec (TemplateBrowserWebview_onDidReceiveMessage online
                          (cmd_createCollection "person" 10)) logged_in)
     = [users; users_again].
Proof.
  split; [reflexivity|].
  destruct (proj1 (proj1 (unusable_success_is_reported_as_failure online
                            logged_in "abc123" eq_refl) eq_refl)
              "person" 10
              (created {| name := "person_1"; documentCount := "10" |})
              eq_refl) as (Hem & Hcs & _).
  split; [exact Hem | exact Hcs].
Defined.

(** ** The refresh command *)

(** X16. The refresh command confirms the refresh whatever came of it:
    its effects are those of [refresh] followed by the notice that the
    collections were refreshed, so that after a failed fetch the user sees
    the error and then the confirmation, over an empty snapshot. *)
Theorem refresh_command_always_confirms env w :
  emitted (refresh_command env) w
    = emitted (refresh env) w
      ++ [ShowInformationMessage "🔄 Collections refreshed!"]
  /\ collections (exec (refresh_command env) w)
     = collections (exec (refresh env) w)
  /\ (forall key error,
        credential w = Some key ->
        get_collections env ("https://api.mockman.online/collections/" +:+ key)
          = Rejected error ->
        emitted (refresh_command env) w
        = [AxiosGet ("https://api.mockman.online/collections/" +:+ key) 5000;
           ShowErrorMessage ("Error fetching collections: " +:+ message error);
           Fire;
           ShowInformationMessage "🔄 Collections refreshed!"]
        /\ collections (exec (refresh_command env) w) = []).
Proof.
  assert (emitted (refresh_command env) w
          = emitted (refresh env) w
            ++ [ShowInformationMessage "🔄 Collections refreshed!"]
          /\ collections (exec (refresh_command env) w)
             = collections (exec (refresh env) w)) as [Hem Hcs].
  { destruct (refresh_frame env w) as (_ & _ & _ & Ht).
    unfold emitted at 1. unfold exec, refresh_command, mbind, M_bind,
      emit, modify.
    unfold exec in Ht. destruct (refresh env w) as [[] w1]. simpl in *.
    by rewrite Ht, <- (assoc_L (++)), drop_app_length. }
  split; [exact Hem|]. split; [exact Hcs|].
  intros key error Hkey Hget. rewrite Hem, Hcs.
  pose proof (refresh_cases env w) as H. rewrite Hkey in H. cbv zeta in H.
  rewrite Hget in H. by destruct H as [-> ->].
Qed.

Lemma refresh_command_always_confirms_witness :
  emitted (refresh_command offline) logged_in
  = [AxiosGet "https://api.mockman.online/collections/abc123" 5000;
     ShowErrorMessage "Error fetching collections: timeout of 5000ms exceeded";
     Fire;
     ShowInformationMessage "🔄 Collections refreshed!"]
  /\ collections (exec (refresh_command offline) logged_in) = [].
Proof.
  apply (proj2 (proj2 (refresh_command_always_confirms offline logged_in))
           "abc123" timeout_error); reflexivity.
Defined.

(** ** Copying an endpoint *)

Lemma string_app_empty s : s +:+ "" = s.
Proof.
  induction s as [|a s IH]; [done|].
  change (String a s +:+ "") with (String a (s +:+ "")). by rewrite IH.
Qed.

(** X17. A click on any endpoint of the catalog makes the host write the
    full URL of that endpoint, which starts with the address of the
    collections of the key, to the clipboard, and then show exactly one
    notice: the success when the clipboard took the text, the failure when
    it did not.  Nothing else in the world changes. *)
Theorem click_copies_the_endpoint env w key c e :
  e ∈ EndpointsScript.catalog EndpointsScript.baseUrl key c ->
  exec (EndpointsWebview_onDidReceiveMessage env
          (EndpointsScript.endpoint_onclick e)) w
    = set_trace
        (fun t => t ++ [ClipboardWriteText (EndpointsScript.fullUrl e);
                        match clipboard_writeText env (EndpointsScript.fullUrl e) with
                        | Resolved _ =>
                            ShowInformationMessage "Endpoint copied to clipboard!"
                        | Rejected _ =>
                            ShowErrorMessage "Failed to copy endpoint."
                        end]) w
  /\ exists rest,
       EndpointsScript.fullUrl e
       = "https://api.mockman.online/collections/" +:+ key +:+ rest.
Proof.
  intros He. split.
  - unfold exec, EndpointsWebview_onDidReceiveMessage,
      EndpointsScript.endpoint_onclick, mbind, M_bind, emit, modify. simpl.
    destruct (clipboard_writeText env _); unfold set_trace; simpl;
      by rewrite <- (assoc_L (++)).
  - unfold EndpointsScript.catalog, EndpointsScript.collectionEndpoints,
      EndpointsScript.documentEndpoints in He.
    cbn [app] in He.
    apply elem_of_cons in He as [->|He].
    { exists "". simpl. by rewrite string_app_empty. }
    repeat (apply elem_of_cons in He as [->|He]; [simpl; by eexists|]).
    by apply elem_of_nil in He.
Qed.

Lemma click_copies_the_endpoint_witness :
  exec (EndpointsWebview_onDidReceiveMessage offline
          (EndpointsScript.endpoint_onclick
             {| EndpointsScript.method := "GET";
                EndpointsScript.path := "/collections/abc123/c1";
                EndpointsScript.description := "Get collection by ID";
                EndpointsScript.fullUrl :=
                  "https://api.mockman.online/collections/abc123/c1" |}))
    logged_in
  = set_trace
      (fun t => t ++ [ClipboardWriteText
                        "https://api.mockman.online/collections/abc123/c1";
                      ShowErrorMessage "Failed to copy endpoint."])
      logged_in.
Proof.
  apply (proj1 (click_copies_the_endpoint offline logged_in "abc123" users
                  {| EndpointsScript.method := "GET";
                     EndpointsScript.path := "/collections/abc123/c1";
                     EndpointsScript.description := "Get collection by ID";
                     EndpointsScript.fullUrl :=
                       "https://api.mockman.online/collections/abc123/c1" |}
                  ltac:(do 2 (apply elem_of_cons; right);
                        apply elem_of_cons; left; reflexivity))).
Defined.

(** ** The page of the template browser and its host *)

Lemma posted_to_app panel es es' :
  posted_to panel (es ++ es') = posted_to panel es ++ posted_to panel es'.
Proof. apply omap_app. Qed.

Lemma posted_to_refresh env key :
  posted_to "mockmanTemplateBrowser" (refresh_effects env key) = [].
Proof.
  unfold refresh_effects. simpl. rewrite posted_to_app.
  by destruct (get_collections env _).
Qed.

Lemma login_command_posts env w :
  posted_to "mockmanTemplateBrowser"
    (drop (length (trace w)) (trace (snd (login_command env w)))) = [].
Proof.
  unfold login_command, mbind, M_bind, emit, modify, mret, M_ret. simpl.
  destruct (openExternal env _); simpl;
    [|destruct (warning_selection env) as [sel|];
      [destruct (String.eqb sel "Copy URL")|]]; simpl;
    rewrite <- ?(assoc_L (++)), drop_app_length; done.
Qed.

Ltac finish_trace :=
  rewrite ?getApiKey_trace, ?(right_id_L [] (++)), <- ?(assoc_L (++)),
    ?drop_app_length, ?drop_all;
  try done.

(** While the panel is open, each message of the page gets the replies
    of [reply_of]. *)
Lemma handler_replies env m w p :
  templatesPanel w = Some p ->
  posted_to "mockmanTemplateBrowser"
    (emitted (TemplateBrowserWebview_onDidReceiveMessage env m) w)
  = reply_of env (credential w) m.
Proof.
  intros Hp. destruct (credential w) as [key|] eqn:Hkey.
  - destruct m as [| |category|category n|text|text|text|other]; simpl.
    + unfold emitted, exec. rewrite template_handler_run. cbv zeta.
      change (executeCommand env "mockman.login" None) with (login_command env).
      unfold mbind, M_bind, mret, M_ret.
      pose proof (login_command_posts env (snd (getApiKey w))) as H.
      destruct (login_command env _) as [[] w2]. simpl in *.
      by rewrite getApiKey_trace in H.
    + destruct (get_templates env _) as [data|error] eqn:Hget;
        handler_steps Hkey; rewrite Hget; panel_steps Hp; finish_trace.
    + destruct (get_preview env _) as [data|error] eqn:Hget;
        handler_steps Hkey; rewrite Hget; panel_steps Hp; finish_trace.
    + destruct (post_create env _ _ _) as [[data|fault]|error] eqn:Hpost.
      * destruct (create_success_emitted env w key p category n data
                    Hkey Hp Hpost) as [-> _].
        rewrite !posted_to_app, posted_to_refresh. reflexivity.
      * handler_steps Hkey; rewrite Hpost; panel_steps Hp; finish_trace.
      * handler_steps Hkey; rewrite Hpost; panel_steps Hp; finish_trace.
    + unfold emitted, exec. rewrite template_handler_run. simpl. finish_trace.
    + unfold emitted, exec. rewrite template_handler_run. simpl. finish_trace.
    + unfold emitted, exec. rewrite template_handler_run. simpl. finish_trace.
    + unfold emitted, exec. rewrite template_handler_run. simpl. finish_trace.
  - destruct m as [| |category|category n|text|text|text|other]; simpl;
      first [ by (handler_steps Hkey; panel_steps Hp; finish_trace)
            | by (unfold emitted, exec; rewrite template_handler_run; simpl;
                  finish_trace)
            | idtac ].
    unfold emitted, exec. rewrite template_handler_run. cbv zeta.
    change (executeCommand env "mockman.login" None) with (login_command env).
    unfold mbind, M_bind, mret, M_ret.
    pose proof (login_command_posts env (snd (getApiKey w))) as H.
    destruct (login_command env _) as [[] w2]. simpl in *.
    by rewrite getApiKey_trace in H.
Qed.

(** Once the panel has been disposed, nothing is posted to the page. *)
Lemma handler_silent env m w :
  templatesPanel w = None ->
  posted_to "mockmanTemplateBrowser"
    (emitted (TemplateBrowserWebview_onDidReceiveMessage env m) w)
  = [].
Proof.
  intros Hp. destruct (credential w) as [key|] eqn:Hkey.
  - destruct m as [| |category|category n|text|text|text|other]; simpl.
    + unfold emitted, exec. rewrite template_handler_run. cbv zeta.
      change (executeCommand env "mockman.login" None) with (login_command env).
      unfold mbind, M_bind, mret, M_ret.
      pose proof (login_command_posts env (snd (getApiKey w))) as H.
      destruct (login_command env _) as [[] w2]. simpl in *.
      by rewrite getApiKey_trace in H.
    + handler_steps Hkey. destruct (get_templates env _) as [data|error];
        panel_steps Hp; finish_trace.
    + handler_steps Hkey. destruct (get_preview env _) as [data|error];
        panel_steps Hp; finish_trace.
    + handler_steps Hkey. destruct (post_create env _ _ _) as [data|error];
        panel_steps Hp; finish_trace.
    + unfold emitted, exec. rewrite template_handler_run. simpl. finish_trace.
    + unfold emitted, exec. rewrite template_handler_run. simpl. finish_trace.
    + unfold emitted, exec. rewrite template_handler_run. simpl. finish_trace.
    + unfold emitted, exec. rewrite template_handler_run. simpl. finish_trace.
  - destruct m as [| |category|category n|text|text|text|other]; simpl;
      first [ by (handler_steps Hkey; panel_steps Hp; finish_trace)
            | by (unfold emitted, exec; rewrite template_handler_run; simpl;
                  finish_trace)
            | idtac ].
    unfold emitted, exec. rewrite template_handler_run. cbv zeta.
    change (executeCommand env "mockman.login" None) with (login_command env).
    unfold mbind, M_bind, mret, M_ret.
    pose proof (login_command_posts env (snd (getApiKey w))) as H.
    destruct (login_command env _) as [[] w2]. simpl in *.
    by rewrite getApiKey_trace in H.
Qed.

(** X18. A click that posts a create request disables the button and
    relabels it.  While the panel is open, whatever then happens on the
    host, the page receives a reply: one when there is no key, when the
    request fails and when it succeeds with a body that can be read, two
    when the body of a success cannot be read; and after the replies the
    button is enabled again under its first label. *)
Theorem create_button_comes_back stringify env v p w panel category n :
  templatesPanel w = Some panel ->
  snd (TemplatePage.click_create v p) = cmd_createCollection category n ->
  let p1 := fst (TemplatePage.click_create v p) in
  let p2 := round_trip stringify env v (cmd_createCollection category n) w p1 in
  TemplateScript.disabled (TemplatePage.createBtn p1) = true
  /\ TemplateScript.createText (TemplatePage.createBtn p1) = "Creating..."
  /\ length (posted_to "mockmanTemplateBrowser"
               (emitted (TemplateBrowserWebview_onDidReceiveMessage env
                           (cmd_createCollection category n)) w))
     = match credential w with
       | Some key =>
           match post_create env
                   ("https://api.mockman.online/templates/" +:+ key
                      +:+ "/create") category n with
           | Resolved (malformed _) => 2%nat
           | _ => 1%nat
           end
       | None => 1%nat
       end
  /\ TemplateScript.disabled (TemplatePage.createBtn p2) = false
  /\ TemplateScript.btn_loading (TemplatePage.createBtn p2) = false
  /\ TemplateScript.createText (TemplatePage.createBtn p2) = "Create Collection".
Proof.
  intros Hp Hclick. cbv zeta. unfold round_trip.
  rewrite (handler_replies env _ w panel Hp).
  split; [|split].
  - unfold TemplatePage.click_create, TemplateScript.createBtn_onclick in *.
    destruct (JS.parseInt _) as [count|]; [|discriminate].
    destruct (_ && _); [reflexivity | discriminate].
  - unfold TemplatePage.click_create, TemplateScript.createBtn_onclick in *.
    destruct (JS.parseInt _) as [count|]; [|discriminate].
    destruct (_ && _); [reflexivity | discriminate].
  - unfold reply_of.
    destruct (credential w) as [key|]; [|by repeat split].
    destruct (post_create env _ _ _) as [[data|fault]|error]; by repeat split.
Qed.

Lemma create_button_comes_back_witness :
  templatesPanel (browsing logged_in) = Some templates_panel
  /\ snd (TemplatePage.click_create TemplateScript.themed filled_page)
     = cmd_createCollection "person" 25
  /\ TemplateScript.disabled
       (TemplatePage.createBtn
          (fst (TemplatePage.click_create TemplateScript.themed filled_page)))
     = true
  /\ TemplateScript.disabled
       (TemplatePage.createBtn
          (round_trip (fun s => s) offline TemplateScript.themed
             (cmd_createCollection "person" 25) (browsing logged_in)
             (fst (TemplatePage.click_create TemplateScript.themed filled_page))))
     = false.
Proof.
  split; [reflexivity|]. split; [reflexivity|].
  pose proof (create_button_comes_back (fun s => s) offline
                TemplateScript.themed filled_page (browsing logged_in)
                templates_panel "person" 25 eq_refl eq_refl)
    as (H1 & _ & _ & H4 & _).
  split; [exact H1 | exact H4].
Defined.

(** X19. When the host answers a message of the page with an error, for
    want of a key or because the request was rejected, the page hides the
    template, preview and create sections and shows the log-in prompt,
    whose markup is the fixed frame around the escaped text of the error;
    without a key that text is the log-in notice.  Such an answer is only
    given while the panel is open. *)
Theorem failed_operation_hides_the_form stringify env v m w p text :
  posted_to "mockmanTemplateBrowser"
    (emitted (TemplateBrowserWebview_onDidReceiveMessage env m) w)
    = [msg_error text] ->
  let p' := round_trip stringify env v m w p in
  TemplatePage.loginPrompt_shown p' = true
  /\ TemplatePage.loginPrompt_html p' = TemplatePage.error_html v text
  /\ TemplatePage.templateSection_shown p' = false
  /\ TemplatePage.previewSection_shown p' = false
  /\ TemplatePage.createSection_shown p' = false
  /\ templatesPanel w <> None
  /\ (credential w = None -> text = "Please login first (MockMan: Login).").
Proof.
  intros Hreply. cbv zeta. unfold round_trip. rewrite Hreply. simpl.
  destruct (templatesPanel w) as [panel|] eqn:Hp.
  - repeat split; [discriminate|]. intros Hnone.
    rewrite (handler_replies env m w panel Hp), Hnone in Hreply.
    destruct m; try discriminate; simpl in Hreply; congruence.
  - by rewrite (handler_silent env m w Hp) in Hreply.
Qed.

Lemma failed_operation_hides_the_form_witness :
  let p' := round_trip (fun s => s) offline TemplateScript.themed
              (cmd_getPreview "person") (browsing logged_in) filled_page in
  templatesPanel (browsing logged_in) = Some templates_panel
  /\ emitted (TemplateBrowserWebview_onDidReceiveMessage offline
                (cmd_getPreview "person")) (browsing logged_in)
     = [AxiosGet "https://api.mockman.online/templates/abc123/person/preview"
          5000;
        ShowErrorMessage "Error fetching preview: Unknown template category";
        PostMessage "mockmanTemplateBrowser"
          (msg_error "Unknown template category")]
  /\ TemplatePage.createSection_shown filled_page = true
  /\ TemplatePage.createSection_shown p' = false
  /\ TemplatePage.loginPrompt_html p'
     = TemplatePage.error_html TemplateScript.themed "Unknown template category".
Proof.
  cbv zeta.
  pose proof (failed_operation_hides_the_form (fun s => s) offline
                TemplateScript.themed (cmd_getPreview "person")
                (browsing logged_in) filled_page "Unknown template category"
                eq_refl)
    as (_ & H2 & _ & _ & H5 & _).
  split; [reflexivity|]. split; [reflexivity|]. split; [reflexivity|].
  split; [exact H5 | exact H2].
Defined.

(** X20. When the list of templates arrives while the panel is open, the
    page shows the three sections, hides the log-in prompt, and fills the
    select with the placeholder followed by one option per template, in
    the order of the answer, valued by the category; the selection is back
    on the placeholder. *)
Theorem listing_fills_the_select stringify env v w p key panel data :
  credential w = Some key ->
  templatesPanel w = Some panel ->
  get_templates env ("https://api.mockman.online/templates/" +:+ key)
    = Resolved data ->
  let p' := round_trip stringify env v cmd_getTemplates w p in
  fst <$> TemplatePage.options p' = "" :: (category <$> data)
  /\ snd <$> TemplatePage.options p'
     = "Choose a template category..."
       :: ((fun t => Html.escapeHtml (displayName t)) <$> data)
  /\ TemplatePage.templateSelect_value p' = ""
  /\ TemplatePage.loginPrompt_shown p' = false
  /\ TemplatePage.templateSection_shown p' = true
  /\ TemplatePage.previewSection_shown p' = true
  /\ TemplatePage.createSection_shown p' = true
  /\ TemplatePage.createBtn p' = TemplatePage.createBtn p.
Proof.
  intros Hkey Hp Hget. cbv zeta. unfold round_trip.
  rewrite (handler_replies env _ w panel Hp), Hkey. simpl. rewrite Hget. simpl.
  rewrite <- !list_fmap_compose. repeat split.
Qed.

Lemma listing_fills_the_select_witness :
  templatesPanel (browsing logged_in) = Some templates_panel
  /\ posted_to "mockmanTemplateBrowser"
       (emitted (TemplateBrowserWebview_onDidReceiveMessage online
                   cmd_getTemplates) (browsing logged_in))
     = [msg_templates [ {| category := "person"; displayName := "Person" |} ]]
  /\ fst <$> TemplatePage.options
               (round_trip (fun s => s) online TemplateScript.themed
                  cmd_getTemplates (browsing logged_in) filled_page)
     = ["" ; "person"].
Proof.
  split; [reflexivity|]. split; [reflexivity|].
  apply (proj1 (listing_fills_the_select (fun s => s) online
                  TemplateScript.themed (browsing logged_in) filled_page
                  "abc123" templates_panel
                  [ {| category := "person"; displayName := "Person" |} ]
                  eq_refl eq_refl eq_refl)).
Defined.

(** ** [escapeHtml] *)

Lemma app_cons a s t : String a s +:+ t = String a (s +:+ t).
Proof. reflexivity. Qed.

Lemma app_empty_l s : "" +:+ s = s.
Proof. reflexivity. Qed.

Lemma string_app_assoc s t u : (s +:+ t) +:+ u = s +:+ t +:+ u.
Proof.
  induction s as [|a s IH]; [done|]. rewrite !app_cons. by rewrite IH.
Qed.

Lemma replace_all_app c by_ s t :
  Html.replace_all c by_ (s +:+ t)
  = Html.replace_all c by_ s +:+ Html.replace_all c by_ t.
Proof.
  induction s as [|a s IH]; [done|]. rewrite app_cons. simpl.
  destruct (Ascii.eqb a c); rewrite IH; [by rewrite string_app_assoc | done].
Qed.

(** The five passes of [escapeHtml] amount to one pass that writes the
    entity of each character: no pass touches what an earlier one wrote. *)
Lemma replace_all_cons c by_ a r :
  Html.replace_all c by_ (String a r)
  = if Ascii.eqb a c then by_ +:+ Html.replace_all c by_ r
    else String a (Html.replace_all c by_ r).
Proof. reflexivity. Qed.

Lemma escapeHtml_cons a r :
  Html.escapeHtml (String a r) = Html.entity a +:+ Html.escapeHtml r.
Proof.
  unfold Html.escapeHtml, Html.entity.
  rewrite (replace_all_cons "&").
  destruct (Ascii.eqb_spec a "&") as [->|H1];
    [by rewrite !replace_all_app|].
  rewrite (replace_all_cons "<").
  destruct (Ascii.eqb_spec a "<") as [->|H2];
    [by rewrite !replace_all_app|].
  rewrite (replace_all_cons ">").
  destruct (Ascii.eqb_spec a ">") as [->|H3];
    [by rewrite !replace_all_app|].
  rewrite (replace_all_cons (ascii_of_N 34)).
  destruct (Ascii.eqb_spec a (ascii_of_N 34)) as [->|H4];
    [by rewrite !replace_all_app|].
  rewrite (replace_all_cons "'").
  destruct (Ascii.eqb_spec a "'") as [->|H5]; done.
Qed.

Lemma escapeHtml_once s : Html.escapeHtml s = Html.escape_once s.
Proof.
  induction s as [|a s IH]; [done|]. rewrite escapeHtml_cons. simpl.
  by rewrite IH.
Qed.

Lemma entity_cases a :
  (Html.special a = true
   /\ (Html.entity a = "&amp;" \/ Html.entity a = "&lt;"
       \/ Html.entity a = "&gt;" \/ Html.entity a = "&quot;"
       \/ Html.entity a = "&#039;"))
  \/ (Html.special a = false /\ Html.entity a = String a "").
Proof.
  unfold Html.special, Html.entity.
  destruct (Ascii.eqb a "&"); [left; split; [done | tauto]|].
  destruct (Ascii.eqb a "<"); [left; split; [done | tauto]|].
  destruct (Ascii.eqb a ">"); [left; split; [done | tauto]|].
  destruct (Ascii.eqb a (ascii_of_N 34)); [left; split; [done | tauto]|].
  destruct (Ascii.eqb a "'"); [left; split; [done | tauto]|].
  by right.
Qed.

(** X21. The text that [escapeHtml] returns holds none of the characters
    that open or close a tag or an attribute value, whatever the input. *)
Theorem escapeHtml_leaves_no_markup s :
  Forall (fun a => markup a = false)
    (list_ascii_of_string (Html.escapeHtml s)).
Proof.
  rewrite escapeHtml_once. induction s as [|a s IH]; [constructor|].
  simpl. rewrite list_ascii_of_string_app. apply Forall_app. split; [|exact IH].
  destruct (entity_cases a) as [[_ H]|[Hs ->]].
  - destruct H as [->|[->|[->|[->| ->]]]]; by repeat constructor.
  - constructor; [|constructor]. unfold Html.special in Hs. unfold markup.
    destruct (Ascii.eqb a "&"); [done|]. exact Hs.
Qed.

(** X22. [escapeHtml] loses nothing: two texts with the same escaped form
    are the same text. *)
Theorem escapeHtml_injective s t :
  Html.escapeHtml s = Html.escapeHtml t -> s = t.
Proof.
  rewrite !escapeHtml_once. revert t.
  induction s as [|a s IH]; intros [|b t]; simpl; intros H.
  - reflexivity.
  - destruct (entity_cases b) as [[_ Hb]|[_ Hb]];
      [destruct Hb as [Hb|[Hb|[Hb|[Hb|Hb]]]]|]; rewrite Hb in H;
      discriminate.
  - destruct (entity_cases a) as [[_ Ha]|[_ Ha]];
      [destruct Ha as [Ha|[Ha|[Ha|[Ha|Ha]]]]|]; rewrite Ha in H;
      discriminate.
  - assert (a = b /\ Html.escape_once s = Html.escape_once t) as [-> Hst].
    { unfold Html.entity in H.
      destruct (Ascii.eqb_spec a "&") as [->|Ha1];
      destruct (Ascii.eqb_spec b "&") as [->|Hb1];
        rewrite ?app_cons, ?app_empty_l in H; try (injection H; by intros);
      try destruct (Ascii.eqb_spec a "<") as [->|Ha2];
      try destruct (Ascii.eqb_spec b "<") as [->|Hb2];
        rewrite ?app_cons, ?app_empty_l in H; try (injection H; by intros);
      try destruct (Ascii.eqb_spec a ">") as [->|Ha3];
      try destruct (Ascii.eqb_spec b ">") as [->|Hb3];
        rewrite ?app_cons, ?app_empty_l in H; try (injection H; by intros);
      try destruct (Ascii.eqb_spec a (ascii_of_N 34)) as [->|Ha4];
      try destruct (Ascii.eqb_spec b (ascii_of_N 34)) as [->|Hb4];
        rewrite ?app_cons, ?app_empty_l in H; try (injection H; by intros);
      try destruct (Ascii.eqb_spec a "'") as [->|Ha5];
      try destruct (Ascii.eqb_spec b "'") as [->|Hb5];
        rewrite ?app_cons, ?app_empty_l in H; try (injection H; by intros);
      try discriminate; try (injection H; intros; congruence). }
    f_equal. by apply IH.
Qed.

Lemma escapeHtml_injective_witness :
  Html.escapeHtml "a<b" = Html.escapeHtml "a<b" /\ "a<b" = "a<b".
Proof.
  split; [reflexivity|]. apply (escapeHtml_injective "a<b" "a<b"). reflexivity.
Defined.

(** ** Reading the record count *)

Lemma decimal_digit d :
  (d < 10)%N ->
  JS.digit_of 10 (pretty_N_char d) = Some d
  /\ JS.ws1 (pretty_N_char d) = false
  /\ (forall b, JS.ws2 (pretty_N_char d) b = false)
  /\ (forall b c, JS.ws3 (pretty_N_char d) b c = false)
  /\ Ascii.eqb (pretty_N_char d) "-" = false
  /\ Ascii.eqb (pretty_N_char d) "+" = false
  /\ ((1 <= d)%N -> Ascii.eqb (pretty_N_char d) "0" = false).
Proof.
  intros Hd.
  assert (d = 0 \/ d = 1 \/ d = 2 \/ d = 3 \/ d = 4 \/ d = 5 \/ d = 6
          \/ d = 7 \/ d = 8 \/ d = 9)%N as H by lia.
  repeat (destruct H as [->|H]); try subst d;
    (repeat split; try reflexivity; intros; try reflexivity; lia).
Qed.

Lemma digits_pretty x s :
  (0 < x)%N ->
  JS.digits 10 (list_ascii_of_string (pretty_N_go x s)) None
  = JS.digits 10 (list_ascii_of_string s) (Some x).
Proof.
  revert s. induction (N.lt_wf_0 x) as [x _ IH]. intros s Hx.
  rewrite pretty_N_go_step by done.
  destruct (decimal_digit (x `mod` 10)%N) as (Hd & _);
    [by apply N.mod_lt|].
  destruct (N.eq_dec (x `div` 10) 0)%N as [H0|H0].
  - rewrite H0, pretty_N_go_0. simpl. rewrite Hd. simpl.
    f_equal. f_equal.
    pose proof (N.div_mod x 10 ltac:(lia)). lia.
  - rewrite IH by first [apply N.div_lt; lia | by apply N.neq_0_lt_0].
    simpl. rewrite Hd. simpl.
    f_equal. f_equal.
    pose proof (N.div_mod x 10 ltac:(lia)). lia.
Qed.

Lemma pretty_head x s :
  (0 < x)%N ->
  exists d r, (1 <= d < 10)%N
    /\ list_ascii_of_string (pretty_N_go x s) = pretty_N_char d :: r.
Proof.
  revert s. induction (N.lt_wf_0 x) as [x _ IH]. intros s Hx.
  rewrite pretty_N_go_step by done.
  destruct (N.eq_dec (x `div` 10) 0)%N as [H0|H0].
  - rewrite H0, pretty_N_go_0. exists (x `mod` 10)%N. eexists.
    split; [|reflexivity].
    pose proof (N.div_mod x 10 ltac:(lia)).
    pose proof (N.mod_lt x 10 ltac:(lia)). lia.
  - apply IH; first [apply N.div_lt; lia | by apply N.neq_0_lt_0].
Qed.

Lemma parseInt_digits l :
  (exists d r, (1 <= d < 10)%N /\ l = pretty_N_char d :: r) ->
  JS.parseInt (string_of_list_ascii l)
  = (fun n => 1 * Z.of_N n) <$> JS.digits 10 l None
  /\ JS.parseInt (String "-" (string_of_list_ascii l))
     = (fun n => -1 * Z.of_N n) <$> JS.digits 10 l None.
Proof.
  intros (d & r & Hd & ->).
  destruct (decimal_digit d) as (_ & Hw1 & Hw2 & Hw3 & Hm & Hp & Hz); [lia|].
  unfold JS.parseInt. split.
  - rewrite list_ascii_of_string_of_list_ascii.
    rewrite strip_fixed by done. rewrite Hm, Hp.
    destruct r as [|b r]; [done|]. by rewrite (Hz ltac:(lia)).
  - change (list_ascii_of_string
              (String "-" (string_of_list_ascii (pretty_N_char d :: r))))
      with ("-"%char :: list_ascii_of_string
                          (string_of_list_ascii (pretty_N_char d :: r))).
    rewrite list_ascii_of_string_of_list_ascii.
    rewrite strip_fixed by (split; [done|split; intros; reflexivity]).
    change (Ascii.eqb "-" "-") with true. cbv iota.
    destruct r as [|b r]; [done|]. by rewrite (Hz ltac:(lia)).
Qed.

(** [parseInt] reads back the decimal notation of every integer. *)
Lemma parseInt_pretty (n : Z) : JS.parseInt (pretty n) = Some n.
Proof.
  destruct n as [|p|p].
  - reflexivity.
  - change (pretty (Z.pos p)) with (pretty_N_go (N.pos p) "").
    rewrite <- (string_of_list_ascii_of_string (pretty_N_go (N.pos p) "")).
    rewrite (proj1 (parseInt_digits _ (pretty_head (N.pos p) "" ltac:(lia)))).
    rewrite digits_pretty by lia. reflexivity.
  - change (pretty (Z.neg p)) with (String "-" (pretty_N_go (N.pos p) "")).
    rewrite <- (string_of_list_ascii_of_string (pretty_N_go (N.pos p) "")).
    rewrite (proj2 (parseInt_digits _ (pretty_head (N.pos p) "" ltac:(lia)))).
    rewrite digits_pretty by lia. reflexivity.
Qed.

(** X23. A count between 1 and the bound of the variant, entered in
    decimal notation with a category selected, is what the service is
    asked for: the click disables the button and posts the create request
    with that category and that count, and the host, when a key is usable,
    sends the POST with the same category and count. *)
Theorem typed_count_reaches_the_service env v category n btn w key :
  category <> "" ->
  1 <= n <= TemplateScript.maxRows v ->
  credential w = Some key ->
  snd (TemplateScript.createBtn_onclick v category (pretty n) btn)
    = cmd_createCollection category n
  /\ TemplateScript.disabled
       (fst (TemplateScript.createBtn_onclick v category (pretty n) btn)) = true
  /\ head (emitted (TemplateBrowserWebview_onDidReceiveMessage env
                      (snd (TemplateScript.createBtn_onclick v category
                              (pretty n) btn))) w)
     = Some (AxiosPost
               ("https://api.mockman.online/templates/" +:+ key +:+ "/create")
               category n 10000).
Proof.
  intros Hcat Hn Hkey.
  assert (TemplateScript.createBtn_onclick v category (pretty n) btn
          = ({| TemplateScript.disabled := true;
                TemplateScript.btn_loading := true;
                TemplateScript.createText := "Creating...";
                TemplateScript.createLoader_shown :=
                  match v with
                  | TemplateScript.themed => TemplateScript.createLoader_shown btn
                  | TemplateScript.tailwind => true
                  end |}, cmd_createCollection category n)) as ->.
  { unfold TemplateScript.createBtn_onclick. rewrite parseInt_pretty.
    destruct category as [|a r]; [done|]. simpl JS.truthy.
    replace (1 <=? n)%Z with true by (symmetry; apply Z.leb_le; lia).
    replace (n <=? TemplateScript.maxRows v)%Z with true
      by (symmetry; apply Z.leb_le; lia).
    reflexivity. }
  split; [reflexivity|]. split; [reflexivity|]. simpl snd.
  destruct (templatesPanel w) as [p|] eqn:Hp;
    destruct (post_create env
                ("https://api.mockman.online/templates/" +:+ key +:+ "/create")
                category n) as [[data|fault]|error] eqn:Hpost;
    try (by destruct (create_success_emitted env w key p category n data
                        Hkey Hp Hpost) as [-> _]);
    handler_steps Hkey; rewrite Hpost; panel_steps Hp; finish_trace.
Qed.

Lemma typed_count_reaches_the_service_witness :
  snd (TemplateScript.createBtn_onclick TemplateScript.tailwind "person"
         (pretty 1000) idle_button)
  = cmd_createCollection "person" 1000.
Proof.
  apply (proj1 (typed_count_reaches_the_service online TemplateScript.tailwind
                  "person" 1000 idle_button logged_in "abc123"
                  ltac:(discriminate) ltac:(simpl; lia) eq_refl)).
Defined.

(** ** The key cache *)

(** X24. Asking for the key twice is asking once: the second call returns
    what the first returned and leaves the world of the first; and a
    usable cached key is returned as it is, whatever secret storage holds
    by then. *)
Theorem getApiKey_is_idempotent w :
  eval getApiKey (exec getApiKey w) = eval getApiKey w
  /\ exec getApiKey (exec getApiKey w) = exec getApiKey w
  /\ (forall key, present (apiKey w) = Some key ->
        eval getApiKey w = Some key /\ exec getApiKey w = w).
Proof.
  unfold eval, exec. rewrite !getApiKey_run. split; [|split].
  - destruct (JS.truthy (apiKey w)) eqn:Hc; simpl; [by rewrite Hc|].
    by destruct (JS.truthy (secrets w !! "mockman.apiKey")).
  - destruct (JS.truthy (apiKey w)) eqn:Hc; simpl; [by rewrite Hc|].
    by destruct (JS.truthy (secrets w !! "mockman.apiKey")).
  - intros key [Hk Ht]%present_Some. rewrite Hk in *. by rewrite Ht.
Qed.

(** ** The provider that reads the key from the settings *)

Lemma legacy_refresh_frame env w :
  emitted (Legacy.refresh env) w
    = legacy_effects env (present (configuration w !! "mockman.apiKey"))
  /\ configuration (exec (Legacy.refresh env) w) = configuration w
  /\ trace (exec (Legacy.refresh env) w)
     = trace w ++ emitted (Legacy.refresh env) w.
Proof.
  unfold emitted, exec, Legacy.refresh, legacy_effects, mbind, M_bind, gets,
    emit, modify. simpl.
  destruct (present (configuration w !! "mockman.apiKey")) as [key|]; simpl.
  - destruct (get_collections env _) as [[body|]|error]; simpl;
      rewrite ?reported_present, <- ?(assoc_L (++)), drop_app_length;
      repeat split.
  - rewrite <- ?(assoc_L (++)), drop_app_length. repeat split.
Qed.

(** X25. The provider of the copy without webviews takes the key from the
    settings and never looks at or changes secret storage or the cache.
    Without a usable key it shows the log-in error; with one it sends a
    single GET without a timeout and, when that fails, reports the message
    of the server if there is one and the text of the error otherwise.  On
    every path the snapshot is the body of a successful answer or empty,
    and the change notification is fired once, last. *)
Theorem legacy_refresh_outcomes env w :
  let key := present (configuration w !! "mockman.apiKey") in
  emitted (Legacy.refresh env) w = legacy_effects env key
  /\ last (emitted (Legacy.refresh env) w) = Some Fire
  /\ count is_fire (emitted (Legacy.refresh env) w) = 1%nat
  /\ collections (exec (Legacy.refresh env) w)
     = match key with
       | Some key =>
           match get_collections env
                   ("https://mockman-express.onrender.com/collections/" +:+ key)
           with
           | Resolved (Some body) => body
           | _ => []
           end
       | None => []
       end
  /\ secrets (exec (Legacy.refresh env) w) = secrets w
  /\ configuration (exec (Legacy.refresh env) w) = configuration w
  /\ apiKey (exec (Legacy.refresh env) w) = apiKey w.
Proof.
  cbv zeta.
  unfold emitted, exec, Legacy.refresh, legacy_effects, mbind, M_bind, gets,
    emit, modify. simpl.
  destruct (present (configuration w !! "mockman.apiKey")) as [key|]; simpl.
  - destruct (get_collections env _) as [[body|]|error]; simpl;
      rewrite ?reported_present, <- ?(assoc_L (++)), drop_app_length;
      repeat split.
  - rewrite <- ?(assoc_L (++)), drop_app_length. repeat split.
Qed.

(** ** The nonce of the content security policy *)

Lemma string_length_app s t :
  String.length (s +:+ t) = (String.length s + String.length t)%nat.
Proof.
  induction s as [|a s IH]; [done|]. rewrite app_cons. simpl. by rewrite IH.
Qed.

Lemma charAt_possible i :
  (i < 62)%N ->
  exists a, Nonce.charAt Nonce.possible i = String a ""
            /\ Nonce.alphanumeric a = true.
Proof.
  intros Hi. unfold Nonce.charAt.
  assert (N.to_nat i < 62)%nat as Hn by lia.
  generalize dependent (N.to_nat i). intros n Hn. clear Hi.
  do 62 (destruct n as [|n]; [eexists; split; reflexivity|]). lia.
Qed.

Lemma loop_shape draw rounds first text :
  (forall i, (first <= i < first + rounds)%nat -> (draw i < 62)%N) ->
  Forall (fun a => Nonce.alphanumeric a = true) (list_ascii_of_string text) ->
  String.length (Nonce.loop draw rounds first text)
  = (String.length text + rounds)%nat
  /\ Forall (fun a => Nonce.alphanumeric a = true)
       (list_ascii_of_string (Nonce.loop draw rounds first text)).
Proof.
  revert first text. induction rounds as [|rounds IH]; intros first text Hd Ht.
  - simpl. split; [lia | exact Ht].
  - simpl. destruct (charAt_possible (draw first)) as (a & -> & Ha);
      [apply Hd; lia|].
    destruct (IH (S first) (text +:+ String a "")) as [Hlen Hall].
    + intros i Hi. apply Hd. lia.
    + rewrite list_ascii_of_string_app. apply Forall_app. split; [exact Ht|].
      by repeat constructor.
    + split; [|exact Hall]. rewrite Hlen, string_length_app. simpl. lia.
Qed.

(** X26. Whenever each of the 32 draws is an index into the alphabet, as
    the floor of a number below its length is, the nonce has 32
    characters, all of them letters or digits. *)
Theorem nonce_is_32_alphanumerics draw :
  (forall i, (i < 32)%nat -> (draw i < 62)%N) ->
  String.length (Nonce.getNonce draw) = 32%nat
  /\ Forall (fun a => Nonce.alphanumeric a = true)
       (list_ascii_of_string (Nonce.getNonce draw)).
Proof.
  intros Hd. unfold Nonce.getNonce.
  destruct (loop_shape draw 32 0 "") as [Hlen Hall].
  - intros i Hi. apply Hd. lia.
  - constructor.
  - split; [exact Hlen | exact Hall].
Qed.

Lemma nonce_is_32_alphanumerics_witness :
  String.length (Nonce.getNonce (fun i => N.of_nat (2 * i)%nat `mod` 62)%N)
  = 32%nat.
Proof.
  apply (proj1 (nonce_is_32_alphanumerics
                  (fun i => N.of_nat (2 * i)%nat `mod` 62)%N
                  ltac:(intros i _; apply N.mod_lt; discriminate))).
Defined.

(** ** Signing up and logging in, in the copy without webviews *)

(** X27. Sign-up and log-in check their inputs before they use the
    network: when one of the prompts is dismissed or left empty, the
    command shows its one error about the missing fields, sends nothing to
    the authentication service and leaves the settings and the snapshot
    as they are. *)
Theorem incomplete_forms_send_nothing env aw :
  (LegacyCommands.incomplete env
     ["Enter your username"; "Enter your email"; "Enter your password"] ->
   LegacyCommands.signup env aw
   = LegacyCommands.notify (ShowErrorMessage "All fields are required!") aw)
  /\ (LegacyCommands.incomplete env
        ["Enter your email"; "Enter your password"] ->
      LegacyCommands.login env aw
      = LegacyCommands.notify
          (ShowErrorMessage "Email and Password required!") aw).
Proof.
  split; intros (prompt & Hin & Hfalsy);
    unfold LegacyCommands.signup, LegacyCommands.login;
    repeat (apply elem_of_cons in Hin as [->|Hin];
            [apply present_None in Hfalsy; rewrite Hfalsy;
             repeat case_match; reflexivity|]);
    by apply elem_of_nil in Hin.
Qed.

Lemma incomplete_forms_send_nothing_witness :
  LegacyCommands.auth_requests (LegacyCommands.login forgetful legacy_start) = []
  /\ trace (LegacyCommands.host (LegacyCommands.login forgetful legacy_start))
     = [ShowErrorMessage "Email and Password required!"].
Proof.
  rewrite (proj2 (incomplete_forms_send_nothing forgetful legacy_start)).
  - split; reflexivity.
  - exists "Enter your password". split; [|reflexivity].
    apply elem_of_cons. right. apply elem_of_cons. by left.
Defined.

(** X28. With every field filled in, log-in sends one request with the
    email and the password.  When the answer carries a key, the key goes
    into the settings as it is, without any check of its format, the user
    is told, and the collections are fetched with it; when the answer
    carries none, or the request or the settings fail, the settings keep
    their value, one error is shown and nothing is fetched. *)
Theorem login_outcomes env aw email password :
  present (LegacyCommands.showInputBox env "Enter your email") = Some email ->
  present (LegacyCommands.showInputBox env "Enter your password") = Some password ->
  let url := "https://mockman-express.onrender.com/auth/login" in
  let body := [("email", email); ("password", password)] in
  let aw' := LegacyCommands.login env aw in
  LegacyCommands.auth_requests aw'
    = LegacyCommands.auth_requests aw ++ [(url, body)]
  /\ match LegacyCommands.axios_post env url body with
     | Resolved answer =>
         match present answer with
         | Some key =>
             match LegacyCommands.settings_update env "mockman.apiKey" key with
             | Resolved _ =>
                 configuration (LegacyCommands.host aw')
                   = <["mockman.apiKey" := key]>
                       (configuration (LegacyCommands.host aw))
                 /\ drop (length (trace (LegacyCommands.host aw)))
                      (trace (LegacyCommands.host aw'))
                    = [ConfigurationUpdate "" "mockman.apiKey" key;
                       ShowInformationMessage
                         "✅ Logged in successfully! API Key saved."]
                      ++ legacy_effects (LegacyCommands.service env)
                           (present (Some key))
             | Rejected error =>
                 LegacyCommands.host aw'
                 = set_trace
                     (fun t => t ++ [ConfigurationUpdate "" "mockman.apiKey" key;
                                     ShowErrorMessage
                                       ("Login Error: " +:+ message error)])
                     (LegacyCommands.host aw)
             end
         | None =>
             LegacyCommands.host aw'
             = set_trace
                 (fun t => t ++ [ShowErrorMessage
                                   "Login failed: API Key not received."])
                 (LegacyCommands.host aw)
         end
     | Rejected error =>
         LegacyCommands.host aw'
         = set_trace
             (fun t => t ++ [ShowErrorMessage
                               ("Login Error: " +:+ message error)])
             (LegacyCommands.host aw)
     end.
Proof.
  intros He Hp. cbv zeta. unfold LegacyCommands.login. rewrite He, Hp.
  destruct (LegacyCommands.axios_post env _ _) as [answer|error]; simpl;
    [|by split].
  destruct (present answer) as [key|] eqn:Hkey; simpl; [|by split].
  destruct (LegacyCommands.settings_update env _ _) as [u|error]; simpl.
  - split; [reflexivity|].
    destruct (legacy_refresh_frame (LegacyCommands.service env)
                (set_trace
                   (fun t => t ++ [ShowInformationMessage
                                     "✅ Logged in successfully! API Key saved."])
                   (set_configuration <["mockman.apiKey" := key]>
                      (set_trace
                         (fun t => t ++ [ConfigurationUpdate ""
                                           "mockman.apiKey" key])
                         (LegacyCommands.host aw)))))
      as (Hem & Hconf & Htrace).
    rewrite Hconf, Htrace, Hem. simpl.
    rewrite lookup_insert_eq, <- !(assoc_L (++)), drop_app_length.
    split; reflexivity.
  - split; [reflexivity|]. unfold set_trace. simpl.
    by rewrite <- (assoc_L (++)).
Qed.

Lemma login_outcomes_witness :
  LegacyCommands.auth_requests (LegacyCommands.login diligent legacy_start)
  = [("https://mockman-express.onrender.com/auth/login",
      [("email", "ann"); ("password", "ann")])].
Proof.
  destruct (login_outcomes diligent legacy_start "ann" "ann") as [Hsent _];
    [reflexivity|reflexivity|].
  exact Hsent.
Defined.

(** X29. Sign-up changes the settings only with a key from the service:
    either the settings are as before, or one request with the three
    fields was sent to the sign-up address, it was answered with a
    non-empty key, and that key, as received, is the new value of
    mockman.apiKey, every other setting being as before. *)
Theorem signup_writes_only_a_received_key env aw :
  let aw' := LegacyCommands.signup env aw in
  configuration (LegacyCommands.host aw')
    = configuration (LegacyCommands.host aw)
  \/ exists username email password key,
       let url := "https://mockman-express.onrender.com/auth/sign-up" in
       let body := [("username", username); ("email", email);
                    ("password", password)] in
       LegacyCommands.auth_requests aw'
         = LegacyCommands.auth_requests aw ++ [(url, body)]
       /\ LegacyCommands.axios_post env url body = Resolved (Some key)
       /\ key <> ""
       /\ configuration (LegacyCommands.host aw')
          = <["mockman.apiKey" := key]>
              (configuration (LegacyCommands.host aw)).
Proof.
  cbv zeta. unfold LegacyCommands.signup.
  destruct (present (LegacyCommands.showInputBox env "Enter your username"))
    as [username|]; [|by left].
  destruct (present (LegacyCommands.showInputBox env "Enter your email"))
    as [email|]; [|by left].
  destruct (present (LegacyCommands.showInputBox env "Enter your password"))
    as [password|]; [|by left].
  destruct (LegacyCommands.axios_post env _ _) as [answer|error] eqn:Hpost;
    [|by left].
  destruct (present answer) as [key|] eqn:Hkey; [|by left].
  destruct (LegacyCommands.settings_update env _ _) as [u|error]; [|by left].
  right. exists username, email, password, key.
  apply present_Some in Hkey as [-> Hne].
  split; [reflexivity|]. split; [exact Hpost|].
  split; [by intros ->|].
  simpl.
  by destruct (legacy_refresh_frame (LegacyCommands.service env)
                 (set_trace
                    (fun t => t ++ [ShowInformationMessage
                                      "🎉 Account created & Logged in successfully!"])
                    (set_configuration <["mockman.apiKey" := key]>
                       (set_trace
                          (fun t => t ++ [ConfigurationUpdate ""
                                            "mockman.apiKey" key])
                          (LegacyCommands.host aw)))))
    as (_ & -> & _).
Qed.
